(** * Price comparison and shopping-list optimisation of grocery_agent

    A shallow embedding of [src/services/price_service.py], of the
    request gate, the price upsert and the helpers of the store scrapers
    of [src/services/web_scraper.py] and of the shopping-list tool of
    [src/core/tools.py], with the properties of the specification that
    concern them.

    Conventions of the embedding.
    - A Python [float] (prices, totals, scores) is the rational [Q] that
      it denotes.  [Py.float] rounds a rational to the nearest binary64
      number, ties to the even mantissa; the operations on floats
      ([Py.fadd], [Py.fsub], [Py.fmul], [Py.fdiv]), [statistics.mean] and
      [round] round their exact result with it, as the machine does, and
      read an operand that is not a float as the float nearest to it, as
      Python reads a decimal literal or an [int].  Comparisons and
      [min]/[max] are exact.  The exponent is not bounded: beyond the
      range of binary64, from [2 ^ -1022] to [2 ^ 1024] in magnitude,
      where no price, total or ratio of the program lies, the embedding
      keeps rounding to 53 bits.  The score of [_calculate_confidence],
      the coverage floor of the optimizer, the average of
      [_calculate_average_confidence] and the price of the Kroger
      scraper are computed on the rationals.
    - [str.lower], [str.split], [str.title] and the digits of a regular
      expression are those of ASCII text.
    - A naive [datetime] is the number of microseconds since an epoch, a
      [timedelta] a signed number of microseconds.
    - A [dict] whose iteration order is observed is an association list in
      insertion order; sets and maps that are only queried by key are
      stdpp's [gset] and [gmap].
    - A Python exception is a value of [exn]; code that may raise returns
      a [result].  Awaited collaborators (database, scraper, clock) are
      state transformers over an abstract world. *)

From Stdlib Require Import ZArith QArith Qround Qminmax Qpower Lqa Lia.
From Stdlib Require Import Strings.String Strings.Ascii.
From stdpp Require Import gmap strings list sorting.

Set Default Proof Using "Type".

(** ** Fragments of the Python runtime *)

Module Py.

Inductive exn : Type :=
| ZeroDivisionError
| KeyError (key : string)
| Exception (msg : string).

Inductive result (A : Type) : Type :=
| Ok (a : A)
| Raise (e : exn).
Arguments Ok {A} a.
Arguments Raise {A} e.

Definition bind {A B} (r : result A) (k : A -> result B) : result B :=
  match r with
  | Ok a => k a
  | Raise e => Raise e
  end.

(** [a / b] as the exact quotient. *)
Definition truediv (a b : Q) : result Q :=
  if Qeq_bool b 0 then Raise ZeroDivisionError else Ok (a / b)%Q.

Definition Qltb (a b : Q) : bool := negb (Qle_bool b a).

(** [min(xs)] and [max(xs)] of a non-empty iterable [x :: xs]: the first
    extremal element is the one returned. *)
Definition min (x : Q) (xs : list Q) : Q :=
  fold_left (fun m y => if Qltb y m then y else m) xs x.

Definition max (x : Q) (xs : list Q) : Q :=
  fold_left (fun m y => if Qltb m y then y else m) xs x.

Definition Zmax (x : Z) (xs : list Z) : Z :=
  fold_left (fun m y => if (m <? y)%Z then y else m) xs x.

Definition sum (xs : list Q) : Q :=
  fold_left Qplus xs 0%Q.

(** Rounding to the nearest integer, ties to the even one. *)
Definition round_half_even (q : Q) : Z :=
  let f := Qfloor q in
  let r := (q - inject_Z f)%Q in
  if Qltb r (1 # 2) then f
  else if Qltb (1 # 2) r then (f + 1)%Z
  else if Z.even f then f else (f + 1)%Z.

(** *** Binary64 numbers

    [ilog2 q] is the binary exponent of a positive [q], the integer [e]
    with [2 ^ e <= q < 2 ^ (e + 1)], and [nearest q] the number with a
    mantissa of 53 bits that is nearest to it, ties going to the even
    mantissa. *)
Definition ilog2 (q : Q) : Z :=
  let e := (Z.log2 (Qnum q) - Z.log2 (Zpos (Qden q)))%Z in
  if Qle_bool (2 ^ e) q then e else (e - 1)%Z.

Definition nearest (q : Q) : Q :=
  let ulp := (2 ^ (ilog2 q - 52))%Q in
  Qred (inject_Z (round_half_even (q / ulp)) * ulp).

(** [float(q)]: the value of the binary64 number that Python makes of a
    decimal literal, of an [int] or of the exact result of an
    operation. *)
Definition float (q : Q) : Q :=
  match (q ?= 0)%Q with
  | Eq => 0%Q
  | Gt => nearest q
  | Lt => (- nearest (- q))%Q
  end.

(** [a + b], [a - b], [a * b] and [a / b] on floats; an operand that is
    not a float is converted first. *)
Definition fadd (a b : Q) : Q := float (float a + float b).
Definition fsub (a b : Q) : Q := float (float a - float b).
Definition fmul (a b : Q) : Q := float (float a * float b).

Definition fdiv (a b : Q) : result Q :=
  if Qeq_bool b 0 then Raise ZeroDivisionError
  else Ok (float (float a / float b)).

(** [statistics.mean] of a non-empty list of floats: the exact sum over
    the count, converted once. *)
Definition mean (x : Q) (xs : list Q) : Q :=
  float (sum (map float (x :: xs)) / inject_Z (Z.of_nat (length (x :: xs)))).

(** [round(q, ndigits)] of a float: the decimal number of [ndigits]
    decimals nearest to its exact value, ties to the even digit,
    converted back. *)
Definition round (q : Q) (ndigits : nat) : Q :=
  let scale := inject_Z (10 ^ Z.of_nat ndigits) in
  float (inject_Z (round_half_even (float q * scale)) / scale).

(** A [dict] with string keys, in insertion order. *)
Definition dict (V : Type) : Type := list (string * V).

Fixpoint dict_get {V} (k : string) (d : dict V) : option V :=
  match d with
  | [] => None
  | (k', v) :: rest => if String.eqb k k' then Some v else dict_get k rest
  end.

(** [d[k] = v]: an existing key keeps its position, a new one goes last. *)
Fixpoint dict_set {V} (k : string) (v : V) (d : dict V) : dict V :=
  match d with
  | [] => [(k, v)]
  | (k', v') :: rest =>
      if String.eqb k k' then (k, v) :: rest else (k', v') :: dict_set k v rest
  end.

Definition keys {V} (d : dict V) : list string := map fst d.
Definition values {V} (d : dict V) : list V := map snd d.

(** [str.lower] on ASCII text. *)
Definition lower_ascii (c : ascii) : ascii :=
  let n := nat_of_ascii c in
  if ((65 <=? n) && (n <=? 90))%nat then ascii_of_nat (n + 32) else c.

Fixpoint lower (s : string) : string :=
  match s with
  | EmptyString => EmptyString
  | String c rest => String (lower_ascii c) (lower rest)
  end.

End Py.

(** ** More of the runtime: text, sorting *)

Module PyStr.

(** [str.isspace] on ASCII: tab to carriage return, the four separators
    and the space. *)
Definition is_space (c : ascii) : bool :=
  let n := nat_of_ascii c in
  (((9 <=? n) && (n <=? 13)) || ((28 <=? n) && (n <=? 32)))%nat.

(** [s.split()]: the words between runs of white space. *)
Fixpoint split_from (current : string) (s : string) : list string :=
  match s with
  | EmptyString => if String.eqb current "" then [] else [current]
  | String c rest =>
      if is_space c
      then (if String.eqb current "" then split_from "" rest
            else current :: split_from "" rest)
      else split_from (current ++ String c "") rest
  end.

Definition split (s : string) : list string := split_from "" s.

(** [needle in hay] *)
Fixpoint contains (needle hay : string) : bool :=
  String.prefix needle hay
  || match hay with
     | EmptyString => false
     | String _ rest => contains needle rest
     end.

Definition is_upper (c : ascii) : bool :=
  let n := nat_of_ascii c in ((65 <=? n) && (n <=? 90))%nat.

Definition is_lower (c : ascii) : bool :=
  let n := nat_of_ascii c in ((97 <=? n) && (n <=? 122))%nat.

Definition upper_ascii (c : ascii) : ascii :=
  if is_lower c then ascii_of_nat (nat_of_ascii c - 32) else c.

(** [s.title()] on ASCII: a letter after a letter is lowered, a letter
    after anything else is raised. *)
Fixpoint title_from (after_letter : bool) (s : string) : string :=
  match s with
  | EmptyString => EmptyString
  | String c rest =>
      let letter := is_upper c || is_lower c in
      let c' := if letter
                then (if after_letter then Py.lower_ascii c else upper_ascii c)
                else c in
      String c' (title_from letter rest)
  end.

Definition title (s : string) : string := title_from false s.

(** [l.sort(key=key, reverse=True)]: the stable sort by decreasing key;
    items of equal key keep their order. *)
Fixpoint insert_desc {A} (key : A -> Q) (x : A) (sorted : list A) : list A :=
  match sorted with
  | [] => [x]
  | y :: ys =>
      if Py.Qltb (key x) (key y) then y :: insert_desc key x ys
      else x :: y :: ys
  end.

Definition sort_desc {A} (key : A -> Q) (l : list A) : list A :=
  fold_right (insert_desc key) [] l.

End PyStr.

(** ** Time *)

Definition datetime : Type := Z.
Definition timedelta : Type := Z.

Definition seconds_us (s : Z) : timedelta := (s * 1000000)%Z.
Definition hours_us (h : Z) : timedelta := seconds_us (h * 3600).

(** The [seconds] attribute of a [timedelta]: the normalised seconds
    component, between 0 and 86399, the days being held apart. *)
Definition td_seconds (d : timedelta) : Z := ((d / 1000000) mod 86400)%Z.

(** ** Data model ([src/data/models.py], the columns the services use) *)

Module PriceData.
Record t : Type := mk {
  product_name : string;
  store_name : string;
  price : Q;
  unit : string;
  availability : bool;
  source_url : option string;
  scraped_at : datetime
}.
End PriceData.

Inductive confidence_level : Type := high | medium | low.

(** The per-store entry of [price_by_store]. *)
Module StoreEntry.
Record t : Type := mk {
  price : Q;
  product_name : string;
  unit : string;
  source_url : option string;
  last_updated : datetime
}.
End StoreEntry.

Module PriceComparison.
Record t : Type := mk {
  product_name : string;
  cheapest_price : Q;
  cheapest_store : option string;
  average_price : Q;
  price_range : Q * Q;
  stores_compared : nat;
  savings_opportunity : Q;
  price_by_store : Py.dict StoreEntry.t;
  confidence : confidence_level;
  last_updated : datetime
}.
End PriceComparison.

(** A line of a shopping list: [{'item': ..., 'quantity': ...}], the
    quantity being optional. *)
Module ShoppingItem.
Record t : Type := mk {
  item : string;
  quantity : option Q
}.
End ShoppingItem.

(** The running entry of a store in [store_totals]. *)
Module StoreTotal.
Record t : Type := mk {
  total : Q;
  items : nat;
  confidence_scores : list Q
}.
End StoreTotal.

(** The entry of a store in the returned [store_comparisons]. *)
Module StoreSummary.
Record t : Type := mk {
  total : Q;
  items_found : nat;
  confidence : confidence_level
}.
End StoreSummary.

(** The dictionary returned by [get_shopping_list_comparison]. *)
Module Optimization.
Record t : Type := mk {
  best_store : option string;
  best_total : option Q;
  store_comparisons : Py.dict StoreSummary.t;
  items_compared : nat;
  total_items : nat;
  potential_savings : Q;
  coverage : Q
}.
End Optimization.

(** An entry of the list returned by [get_best_deals]. *)
Module Deal.
Record t : Type := mk {
  product_name : string;
  cheapest_store : option string;
  cheapest_price : Q;
  savings : Q;
  confidence : confidence_level
}.
End Deal.

(** A point of a price history; the date, an ISO string in the source,
    is kept as the time it prints. *)
Module TrendPoint.
Record t : Type := mk {
  price : Q;
  date : datetime;
  product_name : string
}.
End TrendPoint.

Inductive trend_direction : Type := increasing | decreasing | stable.

Module TrendAnalysis.
Record t : Type := mk {
  trend : trend_direction;
  change_amount : Q;
  change_percent : Q;
  first_price : Q;
  last_price : Q;
  data_points : nat
}.
End TrendAnalysis.

(** The dictionary returned by [track_price_trends] when there is a
    history. *)
Module TrendReport.
Record t : Type := mk {
  product_name : string;
  period_days : Z;
  stores_tracked : list string;
  trend_analysis : Py.dict TrendAnalysis.t;
  price_history : Py.dict (list TrendPoint.t);
  total_data_points : nat
}.
End TrendReport.

(** An entry of the list returned by [find_substitutes]. *)
Module Substitute.
Record t : Type := mk {
  product_name : string;
  store : string;
  price : Q;
  savings : Q;
  savings_percent : Q
}.
End Substitute.

(** ** [PriceComparisonService] ([src/services/price_service.py]) *)

Module PriceComparisonService.

Import Py.

(** [self.cache_duration_hours] *)
Definition cache_duration_hours : Z := 6.

(** *** Building one comparison *)

(** The body of the grouping loop of [_create_price_comparison]: the
    entry of a store is replaced when the store is new or the price is
    strictly lower than the recorded one. *)
Definition store_entry (p : PriceData.t) : StoreEntry.t :=
  StoreEntry.mk (PriceData.price p) (PriceData.product_name p)
    (PriceData.unit p) (PriceData.source_url p) (PriceData.scraped_at p).

Definition group_step (store_prices : dict StoreEntry.t) (p : PriceData.t)
  : dict StoreEntry.t :=
  let store := PriceData.store_name p in
  match dict_get store store_prices with
  | None => dict_set store (store_entry p) store_prices
  | Some e =>
      if Qltb (PriceData.price p) (StoreEntry.price e)
      then dict_set store (store_entry p) store_prices
      else store_prices
  end.

Definition group_by_store (price_data : list PriceData.t) : dict StoreEntry.t :=
  fold_left group_step price_data [].

(** The search for the cheapest store: the first store, in insertion
    order, whose recorded price equals the cheapest price. *)
Fixpoint find_cheapest_store (items : dict StoreEntry.t) (cheapest_price : Q)
  : option string :=
  match items with
  | [] => None
  | (store, data) :: rest =>
      if Qeq_bool (StoreEntry.price data) cheapest_price then Some store
      else find_cheapest_store rest cheapest_price
  end.

Definition bucket (confidence_score : Q) : confidence_level :=
  if Qle_bool 0.8 confidence_score then high
  else if Qle_bool 0.5 confidence_score then medium
  else low.

(** [p.scraped_at > datetime.now() - timedelta(hours=2)]; the clock is
    read once for the whole list. *)
Definition is_recent (now : datetime) (p : PriceData.t) : bool :=
  (now - hours_us 2 <? PriceData.scraped_at p)%Z.

Definition _calculate_confidence (now : datetime)
    (price_data : list PriceData.t) (store_count : nat)
  : result confidence_level :=
  let recent_count := length (List.filter (is_recent now) price_data) in
  bind (truediv (inject_Z (Z.of_nat recent_count))
                (inject_Z (Z.of_nat (length price_data))))
    (fun recency_score =>
  let ratio := (inject_Z (Z.of_nat store_count) / 3)%Q in
  let coverage_score := if Qltb 1 ratio then 1%Q else ratio in
  let confidence_score := ((recency_score + coverage_score) / 2)%Q in
  Ok (bucket confidence_score)).

Definition _create_price_comparison (now : datetime) (product_name : string)
    (price_data : list PriceData.t) : result (option PriceComparison.t) :=
  match price_data with
  | [] => Ok None
  | p0 :: rest =>
      let store_prices := group_by_store price_data in
      let all_prices := map PriceData.price rest in
      let cheapest_price := min (PriceData.price p0) all_prices in
      let most_expensive := max (PriceData.price p0) all_prices in
      let average_price := mean (PriceData.price p0) all_prices in
      let cheapest_store := find_cheapest_store store_prices cheapest_price in
      bind (_calculate_confidence now price_data (length store_prices))
        (fun confidence =>
      let savings := fsub most_expensive cheapest_price in
      Ok (Some (PriceComparison.mk
                  product_name
                  cheapest_price
                  cheapest_store
                  (round average_price 2)
                  (cheapest_price, most_expensive)
                  (length store_prices)
                  (round savings 2)
                  store_prices
                  confidence
                  (Zmax (PriceData.scraped_at p0)
                        (map PriceData.scraped_at rest)))))
  end.

(** [_needs_price_refresh]: no data, or fewer than two stores with a
    fresh observation. *)
Definition _needs_price_refresh (now : datetime)
    (existing_prices : list PriceData.t) : bool :=
  match existing_prices with
  | [] => true
  | _ =>
      let cutoff_time := (now - hours_us cache_duration_hours)%Z in
      let recent_stores : gset string :=
        list_to_set
          (map PriceData.store_name
             (List.filter (fun p => (cutoff_time <? PriceData.scraped_at p)%Z)
                existing_prices)) in
      (size recent_stores <? 2)%nat
  end.

(** *** The shopping list, once the comparisons are known *)

(** [{'high': 1.0, 'medium': 0.7, 'low': 0.4}[comparison.confidence]] *)
Definition confidence_value (c : confidence_level) : Q :=
  match c with
  | high => float 1.0
  | medium => float 0.7
  | low => float 0.4
  end.

(** The innermost loop body: one store of one resolved line. *)
Definition add_store (quantity : Q) (c : confidence_level)
    (store_totals : dict StoreTotal.t) (entry : string * StoreEntry.t)
  : dict StoreTotal.t :=
  let '(store, price_data) := entry in
  let current :=
    match dict_get store store_totals with
    | Some data => data
    | None => StoreTotal.mk 0 0 []
    end in
  dict_set store
    (StoreTotal.mk
       (fadd (StoreTotal.total current) (fmul (StoreEntry.price price_data) quantity))
       (S (StoreTotal.items current))
       (StoreTotal.confidence_scores current ++ [confidence_value c]))
    store_totals.

(** The state of the accumulation loop. *)
Record totals : Type := mk_totals {
  store_totals : dict StoreTotal.t;
  items_found : nat;
  total_savings : Q
}.

Definition line_step (comparisons : dict PriceComparison.t) (acc : totals)
    (line : ShoppingItem.t) : totals :=
  let product_name := ShoppingItem.item line in
  let quantity := default 1%Q (ShoppingItem.quantity line) in
  match dict_get product_name comparisons with
  | Some comparison =>
      mk_totals
        (fold_left (add_store quantity (PriceComparison.confidence comparison))
           (PriceComparison.price_by_store comparison) (store_totals acc))
        (S (items_found acc))
        (fadd (total_savings acc)
           (fmul (PriceComparison.savings_opportunity comparison) quantity))
  | None => acc
  end.

Definition accumulate (shopping_list : list ShoppingItem.t)
    (comparisons : dict PriceComparison.t) : totals :=
  fold_left (line_step comparisons) shopping_list (mk_totals [] 0 0).

(** [data['total'] < best_total], where [best_total] starts as
    [float('inf')], here [None]. *)
Definition below (total : Q) (best_total : option Q) : bool :=
  match best_total with
  | None => true
  | Some b => Qltb total b
  end.

(** [data['items'] >= items_found * 0.7] *)
Definition covers (items_found : nat) (data : StoreTotal.t) : bool :=
  Qle_bool (inject_Z (Z.of_nat items_found) * 0.7)
           (inject_Z (Z.of_nat (StoreTotal.items data))).

Definition best_step (items_found : nat) (best : option string * option Q)
    (entry : string * StoreTotal.t) : option string * option Q :=
  let '(store, data) := entry in
  if below (StoreTotal.total data) (snd best) && covers items_found data
  then (Some store, Some (StoreTotal.total data))
  else best.

Definition find_best_store (store_totals : dict StoreTotal.t) (items_found : nat)
  : option string * option Q :=
  fold_left (best_step items_found) store_totals (None, None).

(** The label of a store, from its list of confidence values. *)
Definition store_confidence (confidence_scores : list Q) : confidence_level :=
  match confidence_scores with
  | [] => low
  | x :: xs =>
      let avg_confidence := mean x xs in
      if Qle_bool (float 0.8) avg_confidence then high
      else if Qle_bool (float 0.6) avg_confidence then medium
      else low
  end.

Definition summarize (entry : string * StoreTotal.t) : string * StoreSummary.t :=
  let '(store, data) := entry in
  (store,
   StoreSummary.mk (round (StoreTotal.total data) 2) (StoreTotal.items data)
     (store_confidence (StoreTotal.confidence_scores data))).

(** [get_shopping_list_comparison] after its call of [compare_prices]. *)
Definition shopping_list_comparison (shopping_list : list ShoppingItem.t)
    (comparisons : dict PriceComparison.t) : result Optimization.t :=
  let acc := accumulate shopping_list comparisons in
  let '(best_store, best_total) :=
    find_best_store (store_totals acc) (items_found acc) in
  let shown_total :=
    match best_store, best_total with
    | Some store, Some b =>
        if String.eqb store "" then None else Some (round b 2)
    | _, _ => None
    end in
  bind (fdiv (inject_Z (Z.of_nat (items_found acc)))
              (inject_Z (Z.of_nat (length shopping_list))))
    (fun ratio =>
  Ok (Optimization.mk
        best_store
        shown_total
        (map summarize (store_totals acc))
        (items_found acc)
        (length shopping_list)
        (round (total_savings acc) 2)
        (round (fmul ratio 100) 1))).

(** *** Deals, trends and substitutes, once the rows are known *)

Definition deal_of (entry : string * PriceComparison.t) : Deal.t :=
  let '(product_name, comparison) := entry in
  Deal.mk product_name
    (PriceComparison.cheapest_store comparison)
    (PriceComparison.cheapest_price comparison)
    (PriceComparison.savings_opportunity comparison)
    (PriceComparison.confidence comparison).

(** [get_best_deals] after its call of [compare_prices]. *)
Definition best_deals (comparisons : dict PriceComparison.t) (min_savings : Q)
  : list Deal.t :=
  PyStr.sort_desc Deal.savings
    (map deal_of
       (List.filter
          (fun entry => Qle_bool min_savings (PriceComparison.savings_opportunity entry.2))
          comparisons)).

Definition trend_point (p : PriceData.t) : TrendPoint.t :=
  TrendPoint.mk (PriceData.price p) (PriceData.scraped_at p) (PriceData.product_name p).

(** The grouping loop of [track_price_trends]. *)
Definition history_step (store_trends : dict (list TrendPoint.t)) (p : PriceData.t)
  : dict (list TrendPoint.t) :=
  let store := PriceData.store_name p in
  dict_set store (default [] (dict_get store store_trends) ++ [trend_point p])
    store_trends.

Definition group_history (prices : list PriceData.t) : dict (list TrendPoint.t) :=
  fold_left history_step prices [].

(** The trend of one store, for a history of two points or more. *)
Definition analyse (price_history : list TrendPoint.t) : result (option TrendAnalysis.t) :=
  match price_history with
  | first :: _ :: _ =>
      let first_price := TrendPoint.price first in
      let last_price := TrendPoint.price (List.last price_history first) in
      let change := fsub last_price first_price in
      bind (fdiv change first_price) (fun ratio =>
      let change_percent := fmul ratio 100 in
      let trend :=
        if Qltb 5 change_percent then increasing
        else if Qltb change_percent (-5) then decreasing
        else stable in
      Ok (Some (TrendAnalysis.mk trend (round change 2) (round change_percent 1)
                  first_price last_price (length price_history))))
  | _ => Ok None
  end.

(** The loop over the stores. *)
Fixpoint analyse_all (items : dict (list TrendPoint.t))
    (trend_analysis : dict TrendAnalysis.t) : result (dict TrendAnalysis.t) :=
  match items with
  | [] => Ok trend_analysis
  | (store, price_history) :: rest =>
      bind (analyse price_history) (fun analysis =>
      analyse_all rest
        (match analysis with
         | Some a => dict_set store a trend_analysis
         | None => trend_analysis
         end))
  end.

(** [track_price_trends] after its query, whose rows come ordered by
    time; the error dictionary is the message on the left. *)
Definition price_trends (product_name : string) (days : Z) (prices : list PriceData.t)
  : result (string + TrendReport.t) :=
  match prices with
  | [] => Ok (inl "No price history available")
  | _ =>
      let store_trends := group_history prices in
      bind (analyse_all store_trends []) (fun trend_analysis =>
      Ok (inr (TrendReport.mk product_name days (keys store_trends) trend_analysis
                 store_trends (length prices))))
  end.

(** The loop of [find_substitutes] over the rows of the second query. *)
Fixpoint cheaper (avg_current_price : Q) (substitute_prices : list PriceData.t)
    (substitutes : list Substitute.t) : result (list Substitute.t) :=
  match substitute_prices with
  | [] => Ok substitutes
  | sub :: rest =>
      let savings := fsub avg_current_price (PriceData.price sub) in
      if Qltb 0 savings then
        bind (fdiv savings avg_current_price) (fun ratio =>
        cheaper avg_current_price rest
          (substitutes
           ++ [Substitute.mk (PriceData.product_name sub) (PriceData.store_name sub)
                 (PriceData.price sub) (round savings 2) (round (fmul ratio 100) 1)]))
      else cheaper avg_current_price rest substitutes
  end.

(** [find_substitutes] after its second query. *)
Definition substitutes_from (avg_current_price : Q)
    (substitute_prices : list PriceData.t) : result (list Substitute.t) :=
  bind (cheaper avg_current_price substitute_prices []) (fun substitutes =>
  Ok (take 5 (PyStr.sort_desc Substitute.savings substitutes))).

(** [keywords[0] if keywords else product_name] *)
Definition main_keyword (product_name : string) : string :=
  match PyStr.split (lower product_name) with
  | keyword :: _ => keyword
  | [] => product_name
  end.

(** *** The awaited part

    The database, the scraper and the clock are collaborators: [World]
    is whatever they hold, an action is a transformer of it that
    returns or raises. *)

Section Service.

Context {World PriceResult : Type}.

Definition M (A : Type) : Type := World -> World * result A.

Definition ret {A} (a : A) : M A := fun w => (w, Ok a).

Definition lift {A} (r : result A) : M A := fun w => (w, r).

Definition mbind {A B} (m : M A) (k : A -> M B) : M B :=
  fun w =>
    match m w with
    | (w', Ok a) => k a w'
    | (w', Raise e) => (w', Raise e)
    end.

(** [try: m  except Exception as e: handler e] *)
Definition try_except {A} (m : M A) (handler : exn -> M A) : M A :=
  fun w =>
    match m w with
    | (w', Ok a) => (w', Ok a)
    | (w', Raise e) => handler e w'
    end.

(** [for x in xs: s = body x s] *)
Fixpoint for_each {X S} (xs : list X) (body : X -> S -> M S) (s : S) : M S :=
  match xs with
  | [] => ret s
  | x :: rest => mbind (body x s) (for_each rest body)
  end.

(** [datetime.now()] *)
Variable clock : World -> datetime.
(** [_get_cached_prices]: the query on the price table. *)
Variable _get_cached_prices :
  string -> option (list string) -> M (list PriceData.t).
(** [self.scraper.scrape_product_prices] and [self.scraper.save_price_data] *)
Variable scrape_product_prices : list string -> list string -> M (list PriceResult).
Variable save_price_data : list PriceResult -> M Z.

Definition datetime_now : M datetime := fun w => (w, Ok (clock w)).

Definition _refresh_price_data (product_name : string)
    (stores : option (list string)) : M () :=
  let stores :=
    match stores with
    | None => ["walmart"; "target"; "kroger"]
    | Some l => l
    end in
  try_except
    (mbind (scrape_product_prices [product_name] stores) (fun price_results =>
       match price_results with
       | [] => ret ()
       | _ => mbind (save_price_data price_results) (fun saved_count => ret ())
       end))
    (fun e => ret ()).

Definition _compare_single_product (product_name : string)
    (stores : option (list string)) (force_refresh : bool)
  : M (option PriceComparison.t) :=
  mbind (_get_cached_prices product_name stores) (fun existing_prices =>
  mbind datetime_now (fun now =>
  let need_refresh := force_refresh || _needs_price_refresh now existing_prices in
  mbind (if need_refresh
         then mbind (_refresh_price_data product_name stores) (fun _ =>
                     _get_cached_prices product_name stores)
         else ret existing_prices) (fun existing_prices =>
  match existing_prices with
  | [] => ret None
  | _ => mbind datetime_now (fun now =>
         lift (_create_price_comparison now product_name existing_prices))
  end))).

(** The body of the loop of [compare_prices], with its [try]. *)
Definition compare_one (stores : option (list string)) (force_refresh : bool)
    (product_name : string) (comparisons : dict PriceComparison.t)
  : M (dict PriceComparison.t) :=
  try_except
    (mbind (_compare_single_product product_name stores force_refresh)
       (fun comparison =>
          match comparison with
          | Some c => ret (dict_set product_name c comparisons)
          | None => ret comparisons
          end))
    (fun e => ret comparisons).

Definition compare_prices (product_names : list string)
    (stores : option (list string)) (force_refresh : bool)
  : M (dict PriceComparison.t) :=
  for_each product_names (compare_one stores force_refresh) [].

Definition get_shopping_list_comparison (shopping_list : list ShoppingItem.t)
  : M Optimization.t :=
  let product_names := map ShoppingItem.item shopping_list in
  mbind (compare_prices product_names None false) (fun comparisons =>
  lift (shopping_list_comparison shopping_list comparisons)).

Definition get_best_deals (product_names : list string) (min_savings : Q)
  : M (list Deal.t) :=
  mbind (compare_prices product_names None false) (fun comparisons =>
  ret (best_deals comparisons min_savings)).

(** The three queries of [track_price_trends] and [find_substitutes]. *)
Variable query_history : string -> Z -> M (list PriceData.t).
Variable query_current : string -> M (list PriceData.t).
Variable query_substitutes : string -> string -> Q -> M (list PriceData.t).

Definition track_price_trends (product_name : string) (days : Z)
  : M (string + TrendReport.t) :=
  mbind (query_history product_name days) (fun prices =>
  lift (price_trends product_name days prices)).

Definition find_substitutes (product_name : string) (max_price_diff : Q)
  : M (list Substitute.t) :=
  mbind (query_current product_name) (fun current_prices =>
  match current_prices with
  | [] => ret []
  | first :: others =>
      let avg_current_price :=
        mean (PriceData.price first) (map PriceData.price others) in
      mbind (query_substitutes (main_keyword product_name) product_name
               (fadd avg_current_price max_price_diff))
        (fun substitute_prices =>
      lift (substitutes_from avg_current_price substitute_prices))
  end).

End Service.

End PriceComparisonService.

(** ** [GroceryWebScraper] ([src/services/web_scraper.py]) *)

(** A price record as [_process_batch] hands it on: the dictionary of a
    store scraper with the search term and the time of scraping added. *)
Module PriceResult.
Record t : Type := mk {
  store_name : string;
  product_name : string;
  price : Q;
  unit : option string;
  availability : bool;
  source_url : option string;
  product_search_term : string;
  scraped_at : datetime
}.
End PriceResult.

(** What a store scraper returns for a product, when it finds one. *)
Module Scraped.
Record t : Type := mk {
  store_name : string;
  product_name : string;
  price : Q;
  unit : option string;
  availability : bool;
  source_url : option string
}.
End Scraped.

Module GroceryWebScraper.

Import Py.

(** The loop-prevention state of the scraper object. *)
Record state : Type := mk_state {
  active_requests : gset string;
  request_cache : gmap string datetime
}.

(** The keys of [self.stores]. *)
Definition stores : list string := ["walmart"; "target"; "kroger"].

Definition max_concurrent_requests : nat := 3.

(** [f"{product_name.lower()}_{store_name}"] *)
Definition request_key (product_name store_name : string) : string :=
  (lower product_name ++ "_" ++ store_name)%string.

(** [(current_time - cache_time).seconds < 600] for a cached key. *)
Definition recently_processed (current_time : datetime)
    (cache : gmap string datetime) (key : string) : bool :=
  match cache !! key with
  | Some cache_time => (td_seconds (current_time - cache_time) <? 600)%Z
  | None => false
  end.

(** *** [_deduplicate_requests] *)

(** The inner loop, over the stores of one product; it stops at the
    tenth surviving pair. *)
Fixpoint dedup_stores (current_time : datetime) (cache : gmap string datetime)
    (product_name : string) (store_names : list string)
    (active : gset string) (unique_requests : list (string * string))
  : gset string * list (string * string) :=
  match store_names with
  | [] => (active, unique_requests)
  | store_name :: rest =>
      if negb (bool_decide (store_name ∈ stores)) then
        dedup_stores current_time cache product_name rest active unique_requests
      else
        let key := request_key product_name store_name in
        if bool_decide (key ∈ active) then
          dedup_stores current_time cache product_name rest active unique_requests
        else if recently_processed current_time cache key then
          dedup_stores current_time cache product_name rest active unique_requests
        else
          let active := active ∪ {[key]} in
          let unique_requests := unique_requests ++ [(product_name, store_name)] in
          if (10 <=? length unique_requests)%nat then (active, unique_requests)
          else dedup_stores current_time cache product_name rest active unique_requests
  end.

(** The outer loop, over the products. *)
Fixpoint dedup_products (current_time : datetime) (cache : gmap string datetime)
    (product_names store_names : list string)
    (active : gset string) (unique_requests : list (string * string))
  : gset string * list (string * string) :=
  match product_names with
  | [] => (active, unique_requests)
  | product_name :: rest =>
      let '(active, unique_requests) :=
        dedup_stores current_time cache product_name store_names
          active unique_requests in
      if (10 <=? length unique_requests)%nat then (active, unique_requests)
      else dedup_products current_time cache rest store_names active unique_requests
  end.

Definition _deduplicate_requests (current_time : datetime)
    (product_names store_names : list string) (st : state)
  : state * list (string * string) :=
  let '(active, unique_requests) :=
    dedup_products current_time (request_cache st) product_names store_names
      (active_requests st) [] in
  (mk_state active (request_cache st), unique_requests).

(** *** [_cleanup_old_cache] and [save_price_data] *)

Definition _cleanup_old_cache (current_time : datetime) (st : state) : state :=
  mk_state (active_requests st)
    (filter (fun kv => ¬ (3600 < td_seconds (current_time - kv.2))%Z)
       (request_cache st)).

(** The price table, in row order. *)
Definition table : Type := list PriceData.t.

(** The filter of the query of [save_price_data]. *)
Definition same_window (now : datetime) (price_data : PriceResult.t)
    (row : PriceData.t) : bool :=
  String.eqb (PriceData.product_name row) (PriceResult.product_name price_data)
  && String.eqb (PriceData.store_name row) (PriceResult.store_name price_data)
  && (now - hours_us 6 <? PriceData.scraped_at row)%Z.

(** "Update existing record" *)
Definition update_row (price_data : PriceResult.t) (existing : PriceData.t)
  : PriceData.t :=
  PriceData.mk
    (PriceData.product_name existing)
    (PriceData.store_name existing)
    (PriceResult.price price_data)
    (PriceData.unit existing)
    (PriceResult.availability price_data)
    (PriceResult.source_url price_data)
    (PriceResult.scraped_at price_data).

(** "Create new record" *)
Definition new_row (price_data : PriceResult.t) : PriceData.t :=
  PriceData.mk
    (PriceResult.product_name price_data)
    (PriceResult.store_name price_data)
    (PriceResult.price price_data)
    (default "each" (PriceResult.unit price_data))
    (PriceResult.availability price_data)
    (PriceResult.source_url price_data)
    (PriceResult.scraped_at price_data).

(** The row that [.first()] returns, updated where it stands; [None]
    when the query has no row. *)
Fixpoint update_first (now : datetime) (price_data : PriceResult.t)
    (rows : table) : option table :=
  match rows with
  | [] => None
  | row :: rest =>
      if same_window now price_data row
      then Some (update_row price_data row :: rest)
      else option_map (cons row) (update_first now price_data rest)
  end.

(** One turn of the loop of [save_price_data]; the flag tells whether a
    row was updated rather than inserted. *)
Definition upsert (now : datetime) (rows : table) (price_data : PriceResult.t)
  : table * bool :=
  match update_first now price_data rows with
  | Some rows' => (rows', true)
  | None => (rows ++ [new_row price_data], false)
  end.

(** The database session of one save: [statement_raises i] is the
    exception that the query, the update or the insert of the price
    record of index [i] raises, if one does, and [commit_raises] the
    exception of the commit. *)
Record session : Type := mk_session {
  statement_raises : nat -> option exn;
  commit_raises : option exn
}.

(** The loop inside the [try]: the pending rows, or the exception that
    ended the loop; [saved_count] is the count at that moment. *)
Fixpoint save_loop (now : datetime) (db : session)
    (price_results : list PriceResult.t) (rows : table) (saved_count : nat)
  : nat * result table :=
  match price_results with
  | [] => (saved_count, Ok rows)
  | price_data :: rest =>
      match statement_raises db saved_count with
      | Some e => (saved_count, Raise e)
      | None =>
          save_loop now db rest (fst (upsert now rows price_data)) (S saved_count)
      end
  end.

(** [save_price_data]: the loop, the commit and the cleanup of the
    cache; an exception of the session rolls the table back, skips the
    cleanup and is swallowed. *)
Definition save_price_data (now : datetime) (db : session)
    (price_results : list PriceResult.t) (rows : table) (st : state)
  : table * state * nat :=
  match price_results with
  | [] => (rows, st, 0%nat)
  | _ =>
      let '(saved_count, pending) := save_loop now db price_results rows 0 in
      let committed :=
        bind pending (fun rows' =>
          match commit_raises db with
          | Some e => Raise e
          | None => Ok rows'
          end) in
      match committed with
      | Ok rows' => (rows', _cleanup_old_cache now st, saved_count)
      | Raise e => (rows, st, saved_count)
      end
  end.

(** *** [_process_batch] and [scrape_product_prices] *)

Section Scraping.

Context {World : Type}.
(** [datetime.now()] *)
Variable clock : World -> datetime.
(** [self.stores[store_name].scrape_product(product_name)] *)
Variable scrape_product :
  string -> string -> World -> World * result (option Scraped.t).
(** [asyncio.sleep] *)
Variable sleep : World -> World.

Definition discard (key : string) (st : state) : state :=
  mk_state (active_requests st ∖ {[key]}) (request_cache st).

Definition stamp (key : string) (time : datetime) (st : state) : state :=
  mk_state (active_requests st) (<[key := time]> (request_cache st)).

Definition price_result (product_name : string) (time : datetime)
    (d : Scraped.t) : PriceResult.t :=
  PriceResult.mk (Scraped.store_name d) (Scraped.product_name d)
    (Scraped.price d) (Scraped.unit d) (Scraped.availability d)
    (Scraped.source_url d) product_name time.

(** One turn of the loop of [_process_batch], with its [try]. *)
Definition process_pair (acc : World * state * list PriceResult.t)
    (pair : string * string) : World * state * list PriceResult.t :=
  let '(w, st, results) := acc in
  let '(product_name, store_name) := pair in
  let key := request_key product_name store_name in
  if negb (bool_decide (store_name ∈ stores)) then
    (w, discard key st, results)
  else
    match scrape_product store_name product_name w with
    | (w', Raise e) => (w', discard key st, results)
    | (w', Ok price_data) =>
        let st' := stamp key (clock w') st in
        let results' :=
          match price_data with
          | Some d => results ++ [price_result product_name (clock w') d]
          | None => results
          end in
        (sleep w', st', results')
    end.

Definition _process_batch (batch : list (string * string))
    (w : World) (st : state) : World * state * list PriceResult.t :=
  fold_left process_pair batch (w, st, []).

(** [unique_requests[i:i + batch_size]] for [i] in
    [range(0, len(unique_requests), batch_size)]. *)
Fixpoint batches {A} (fuel batch_size : nat) (l : list A) : list (list A) :=
  match fuel, l with
  | S fuel, _ :: _ => take batch_size l :: batches fuel batch_size (drop batch_size l)
  | _, _ => []
  end.

Definition run_batch (acc : World * state * list PriceResult.t)
    (batch : list (string * string)) : World * state * list PriceResult.t :=
  let '(w, st, results) := acc in
  let '(w', st', batch_results) := _process_batch batch w st in
  (w',
   fold_left (fun st pair => discard (request_key pair.1 pair.2) st) batch st',
   results ++ batch_results).

Definition scrape_product_prices (product_names : list string)
    (store_names : option (list string)) (w : World) (st : state)
  : World * state * list PriceResult.t :=
  let store_names := default stores store_names in
  let '(st, unique_requests) :=
    _deduplicate_requests (clock w) product_names store_names st in
  match unique_requests with
  | [] => (w, st, [])
  | _ =>
      let batch_size := Nat.min max_concurrent_requests (length unique_requests) in
      fold_left run_batch
        (batches (length unique_requests) batch_size unique_requests)
        (w, st, [])
  end.

End Scraping.

End GroceryWebScraper.

(** ** The store scrapers ([src/services/web_scraper.py]) *)

Module BaseScraper.

Import Py.

Definition is_digit (c : ascii) : bool :=
  let n := nat_of_ascii c in ((48 <=? n) && (n <=? 57))%nat.

Definition is_comma (c : ascii) : bool := Ascii.eqb c ","%char.

(** [text.replace(',', '')] *)
Fixpoint remove_commas (text : string) : string :=
  match text with
  | EmptyString => EmptyString
  | String c rest =>
      if is_comma c then remove_commas rest else String c (remove_commas rest)
  end.

(** The longest run of characters of a class at the head of a text, and
    what follows it. *)
Fixpoint run (class : ascii -> bool) (text : string) : string * string :=
  match text with
  | EmptyString => (EmptyString, EmptyString)
  | String c rest =>
      if class c
      then let '(taken, after) := run class rest in (String c taken, after)
      else (EmptyString, text)
  end.

(** [re.search(r'[\d,]+\.?\d*', text)] on ASCII text.  The match starts
    at the first digit or comma; it is returned as the run of digits and
    commas and, when a point follows, the digits after the point. *)
Fixpoint search (text : string) : option (string * option string) :=
  match text with
  | EmptyString => None
  | String c rest =>
      if is_digit c || is_comma c then
        let '(whole, after) := run (fun c => is_digit c || is_comma c) text in
        match after with
        | String "."%char after' => Some (whole, Some (run is_digit after').1)
        | _ => Some (whole, None)
        end
      else search rest
  end.

Definition digit_value (c : ascii) : Z := Z.of_nat (nat_of_ascii c - 48).

Fixpoint number (acc : Z) (digits : string) : Z :=
  match digits with
  | EmptyString => acc
  | String c rest => number (10 * acc + digit_value c) rest
  end.

Fixpoint all_digits (text : string) : bool :=
  match text with
  | EmptyString => true
  | String c rest => is_digit c && all_digits rest
  end.

(** [float(group)] of a match: the decimal numeral read exactly; a
    comma in it is a [ValueError]. *)
Definition float_of_match (whole : string) (fraction : option string) : result Q :=
  if all_digits whole then
    let fraction := default EmptyString fraction in
    Ok (inject_Z (number 0 (whole ++ fraction))
        / inject_Z (10 ^ Z.of_nat (String.length fraction)))%Q
  else Raise (Exception "could not convert string to float").

Definition clean_price (price_text : string) : option Q :=
  if String.eqb price_text "" then None
  else
    match search (remove_commas price_text) with
    | Some (whole, fraction) =>
        match float_of_match whole fraction with
        | Ok price => Some price
        | Raise _ => None
        end
    | None => None
    end.

End BaseScraper.

Module WalmartScraper.

Import Py.

(** The same method is repeated in [TargetScraper]. *)
Definition _calculate_match_confidence (search_term product_title : string) : Q :=
  let search_words : gset string := list_to_set (PyStr.split (lower search_term)) in
  let title_words : gset string := list_to_set (PyStr.split (lower product_title)) in
  if decide (search_words = ∅) then 0%Q
  else
    let matches := size (search_words ∩ title_words) in
    (inject_Z (Z.of_nat matches) / inject_Z (Z.of_nat (size search_words)))%Q.

End WalmartScraper.

Module KrogerScraper.

Import Py.

Definition store_name : string := "kroger".
Definition base_url : string := "https://www.kroger.com".

Definition mock_prices : dict Q :=
  [ ("milk"%string, 3.49%Q); ("bread"%string, 2.29%Q); ("eggs"%string, 2.99%Q);
    ("chicken"%string, 5.99%Q); ("rice"%string, 1.99%Q); ("pasta"%string, 1.49%Q);
    ("tomatoes"%string, 2.99%Q); ("cheese"%string, 4.99%Q);
    ("yogurt"%string, 0.99%Q); ("bananas"%string, 1.29%Q) ].

(** The search loop: the first item of the table that occurs in the
    product name. *)
Fixpoint best_match (product_name : string) (items : dict Q)
  : option (string * Q) :=
  match items with
  | [] => None
  | (item, price) :: rest =>
      if PyStr.contains (lower item) (lower product_name) then Some (item, price)
      else best_match product_name rest
  end.

Section Scrape.

(** [urllib.parse.quote_plus] *)
Variable quote_plus : string -> string.

(** [variation] is the number that [random.uniform(-0.5, 0.5)] draws.
    The result is the dictionary of the scraper and its
    [confidence_score]. *)
Definition scrape_product (variation : Q) (product_name : string)
  : option (Scraped.t * Q) :=
  match best_match product_name mock_prices with
  | Some (item_name, price) =>
      Some (Scraped.mk store_name
              ("Kroger " ++ PyStr.title item_name)
              (price + variation)
              (Some "each"%string)
              true
              (Some (base_url ++ "/search?query=" ++ quote_plus product_name))%string,
            0.7%Q)
  | None => None
  end.

End Scrape.

End KrogerScraper.

(** ** The price tools of [ToolRegistry] ([src/core/tools.py]) *)

Module OptimizationSummary.
Record t : Type := mk {
  best_store : string;
  best_total : option Q;
  savings_vs_worst_option : Q;
  coverage : Q
}.
End OptimizationSummary.

Module ToolRegistry.

Import Py PriceComparisonService.

Definition confidence_values (c : confidence_level) : Q :=
  match c with
  | high => 1.0
  | medium => 0.6
  | low => 0.3
  end.

Definition _calculate_average_confidence (comparisons : dict PriceComparison.t)
  : confidence_level :=
  match comparisons with
  | [] => low
  | _ =>
      let total_confidence :=
        sum (map (fun comp => confidence_values (PriceComparison.confidence comp))
               (values comparisons)) in
      let avg_confidence :=
        (total_confidence / inject_Z (Z.of_nat (length comparisons)))%Q in
      if Qle_bool 0.8 avg_confidence then high
      else if Qle_bool 0.5 avg_confidence then medium
      else low
  end.

(** What [_optimize_shopping_list] returns: the dictionary of an error,
    the one without price data, or the summary.  The recommendations,
    texts made of the same values, are left out. *)
Inductive optimized : Type :=
| error (e : exn)
| no_price_data (coverage : Q) (items_found : nat)
| optimization_summary (summary : OptimizationSummary.t)
    (store_comparison : dict StoreSummary.t) (potential_additional_savings : Q).

(** [_optimize_shopping_list] after its call of the price service. *)
Definition summarize_optimization (optimization : Optimization.t) : result optimized :=
  match Optimization.best_store optimization with
  | Some best_store =>
      if String.eqb best_store "" then
        Ok (no_price_data (Optimization.coverage optimization)
              (Optimization.items_compared optimization))
      else
        let store_totals := Optimization.store_comparisons optimization in
        bind
          (match map StoreSummary.total (values store_totals) with
           | total :: ((_ :: _) as others) =>
               let worst_total := max total others in
               match Optimization.best_total optimization with
               | Some best_total => Ok (worst_total - best_total)%Q
               | None =>
                   Raise (Exception
                            "unsupported operand type(s) for -: 'float' and 'NoneType'")
               end
           | _ => Ok 0%Q
           end)
          (fun savings_vs_worst =>
        Ok (optimization_summary
              (OptimizationSummary.mk best_store
                 (Optimization.best_total optimization)
                 (round savings_vs_worst 2)
                 (Optimization.coverage optimization))
              store_totals
              (Optimization.potential_savings optimization)))
  | None =>
      Ok (no_price_data (Optimization.coverage optimization)
            (Optimization.items_compared optimization))
  end.

Section Tools.

Context {World PriceResult : Type}.

Variable clock : World -> datetime.
Variable _get_cached_prices :
  string -> option (list string) -> M (World := World) (list PriceData.t).
Variable scrape_product_prices :
  list string -> list string -> M (World := World) (list PriceResult).
Variable save_price_data : list PriceResult -> M (World := World) Z.

Definition _optimize_shopping_list (shopping_list : list ShoppingItem.t)
  : M (World := World) optimized :=
  try_except
    (mbind (get_shopping_list_comparison clock _get_cached_prices
              scrape_product_prices save_price_data shopping_list)
       (fun optimization => lift (summarize_optimization optimization)))
    (fun e => ret (error e)).

End Tools.

End ToolRegistry.

(** ** Vocabulary of the properties *)

Module Spec.

Import Py PriceComparisonService GroceryWebScraper.

(** [m] is a least, respectively greatest, value of [l]. *)
Definition is_minimum (m : Q) (l : list Q) : Prop :=
  (exists x, x ∈ l /\ (x == m)%Q) /\ forall y, y ∈ l -> (m <= y)%Q.

Definition is_maximum (m : Q) (l : list Q) : Prop :=
  (exists x, x ∈ l /\ (x == m)%Q) /\ forall y, y ∈ l -> (y <= m)%Q.

(** [d] holds, for each store of [l] and for no other, an observation
    of that store in [l] whose price no observation of the store in [l]
    undercuts. *)
Definition grouped (d : dict StoreEntry.t) (l : list PriceData.t) : Prop :=
  NoDup (keys d)
  /\ (forall s e, dict_get s d = Some e ->
        exists p, p ∈ l /\ PriceData.store_name p = s /\ e = store_entry p)
  /\ (forall p, p ∈ l ->
        exists e, dict_get (PriceData.store_name p) d = Some e
                  /\ (StoreEntry.price e <= PriceData.price p)%Q).

(** The number of distinct stores of the data. *)
Definition distinct_stores (l : list PriceData.t) : nat :=
  size (list_to_set (map PriceData.store_name l) : gset string).

(** The arithmetic mean of a list of numbers. *)
Definition average (l : list Q) : Q :=
  (sum l / inject_Z (Z.of_nat (length l)))%Q.

(** [statistics.mean] of a list of floats. *)
Definition mean_of (l : list Q) : Q :=
  match l with
  | [] => 0%Q
  | x :: xs => mean x xs
  end.

(** The prices that stand for the stores: one per store of the data. *)
Definition representative_prices (c : PriceComparison.t) : list Q :=
  map StoreEntry.price (values (PriceComparison.price_by_store c)).

(** The fraction of the observations made less than two hours ago. *)
Definition recency_score (now : datetime) (price_data : list PriceData.t) : Q :=
  (inject_Z (Z.of_nat
     (length (List.filter
                (fun p => bool_decide (now - PriceData.scraped_at p < hours_us 2)%Z)
                price_data)))
   / inject_Z (Z.of_nat (length price_data)))%Q.

Definition coverage_score (price_data : list PriceData.t) : Q :=
  Qmin (inject_Z (Z.of_nat (distinct_stores price_data)) / 3) 1.

Definition confidence_score (now : datetime) (price_data : list PriceData.t) : Q :=
  ((recency_score now price_data + coverage_score price_data) / 2)%Q.

(** The confidence values that one line of the list brings to a store:
    the value of the comparison the line resolves to, when that
    comparison lists the store. *)
Definition line_weights (comparisons : dict PriceComparison.t) (store : string)
    (line : ShoppingItem.t) : list Q :=
  match dict_get (ShoppingItem.item line) comparisons with
  | Some c =>
      map (fun _ => confidence_value (PriceComparison.confidence c))
        (List.filter (fun entry => String.eqb (fst entry) store)
           (PriceComparison.price_by_store c))
  | None => []
  end.

(** The confidence values of the comparisons that contribute to a store. *)
Definition store_weights (shopping_list : list ShoppingItem.t)
    (comparisons : dict PriceComparison.t) (store : string) : list Q :=
  flat_map (line_weights comparisons store) shopping_list.

(** The number of lines that have a comparison. *)
Definition resolved_lines (shopping_list : list ShoppingItem.t)
    (comparisons : dict PriceComparison.t) : nat :=
  length (List.filter
            (fun line =>
               bool_decide (is_Some (dict_get (ShoppingItem.item line) comparisons)))
            shopping_list).

(** The confidence values recorded for a store, none when it is absent. *)
Definition scores_of (store : string) (store_totals : dict StoreTotal.t) : list Q :=
  match dict_get store store_totals with
  | Some data => StoreTotal.confidence_scores data
  | None => []
  end.

(** Every entry counts as many items as it has confidence values, and
    has at least one. *)
Definition counted (store_totals : dict StoreTotal.t) : Prop :=
  forall store data, dict_get store store_totals = Some data ->
    StoreTotal.items data = length (StoreTotal.confidence_scores data)
    /\ StoreTotal.confidence_scores data <> [].

(** [best] is what the search for the best store holds after the
    entries [seen]: nothing while no entry reaches the coverage floor,
    else an entry that reaches it with the least total among them. *)
Definition best_so_far (items_found : nat) (seen : dict StoreTotal.t)
    (best : option string * option Q) : Prop :=
  match best with
  | (None, None) =>
      forall store data, (store, data) ∈ seen -> covers items_found data = false
  | (Some store, Some best_total) =>
      exists data, (store, data) ∈ seen
        /\ best_total = StoreTotal.total data
        /\ covers items_found data = true
        /\ forall store' data', (store', data') ∈ seen ->
             covers items_found data' = true ->
             (StoreTotal.total data <= StoreTotal.total data')%Q
  | _ => False
  end.

Definition pair_key (pair : string * string) : string :=
  request_key pair.1 pair.2.

(** A pair passes the gate: its store is known, its key is not in
    flight and it was not processed in the last ten minutes. *)
Definition passes (current_time : datetime) (cache : gmap string datetime)
    (active : gset string) (pair : string * string) : bool :=
  bool_decide (pair.2 ∈ stores)
  && negb (bool_decide (pair_key pair ∈ active))
  && negb (recently_processed current_time cache (pair_key pair)).

(** The gate on one pair, without the limit of ten. *)
Definition gate_step (current_time : datetime) (cache : gmap string datetime)
    (acc : gset string * list (string * string)) (pair : string * string)
  : gset string * list (string * string) :=
  if passes current_time cache acc.1 pair
  then (acc.1 ∪ {[pair_key pair]}, acc.2 ++ [pair])
  else acc.

(** The gate on one pair, with the limit: once ten pairs have survived
    every further pair is dropped. *)
Definition limited_step (current_time : datetime) (cache : gmap string datetime)
    (acc : gset string * list (string * string)) (pair : string * string)
  : gset string * list (string * string) :=
  if (10 <=? length acc.2)%nat then acc else gate_step current_time cache acc pair.

(** The pairs of a list that survive the gate, in order. *)
Definition survivors (current_time : datetime) (st : state)
    (pairs : list (string * string)) : list (string * string) :=
  (fold_left (limited_step current_time (request_cache st)) pairs
     (active_requests st, [])).2.

(** A pair is let through after the pairs [kept] of the same call: its
    store is known, fewer than ten pairs were kept, its key was not in
    flight before the call and is the key of no kept pair, and it does
    not count as recently processed. *)
Definition let_through (current_time : datetime) (st : state)
    (kept : list (string * string)) (pair : string * string) : Prop :=
  pair.2 ∈ stores
  /\ (length kept < 10)%nat
  /\ (pair_key pair ∉ active_requests st)
  /\ (pair_key pair ∉ map pair_key kept)
  /\ recently_processed current_time (request_cache st) (pair_key pair) = false.

(** The rows of a product at a store. *)
Definition rows_for (product_name store_name : string) (rows : table) : table :=
  List.filter
    (fun row =>
       String.eqb (PriceData.product_name row) product_name
       && String.eqb (PriceData.store_name row) store_name)
    rows.




(** The sum that [total += x] builds from 0 over a list of floats. *)
Definition running_sum (l : list Q) : Q := fold_left Py.fadd l 0%Q.

(** The amounts that one line of the list adds to the total of a store:
    the float product of price and quantity, when the comparison of the
    line lists the store; the quantity is 1 when the line gives none. *)
Definition line_amounts (comparisons : dict PriceComparison.t) (store : string)
    (line : ShoppingItem.t) : list Q :=
  match dict_get (ShoppingItem.item line) comparisons with
  | Some c =>
      map (fun entry : string * StoreEntry.t =>
             Py.fmul (StoreEntry.price entry.2)
               (default 1%Q (ShoppingItem.quantity line)))
        (List.filter (fun entry => String.eqb (fst entry) store)
           (PriceComparison.price_by_store c))
  | None => []
  end.

Definition store_amounts (shopping_list : list ShoppingItem.t)
    (comparisons : dict PriceComparison.t) (store : string) : list Q :=
  flat_map (line_amounts comparisons store) shopping_list.

(** The savings of one line: the savings of its comparison times the
    quantity. *)
Definition line_savings (comparisons : dict PriceComparison.t)
    (line : ShoppingItem.t) : list Q :=
  match dict_get (ShoppingItem.item line) comparisons with
  | Some c =>
      [Py.fmul (PriceComparison.savings_opportunity c)
         (default 1%Q (ShoppingItem.quantity line))]
  | None => []
  end.

(** The labels of the comparisons that contribute to a store. *)
Definition line_labels (comparisons : dict PriceComparison.t) (store : string)
    (line : ShoppingItem.t) : list confidence_level :=
  match dict_get (ShoppingItem.item line) comparisons with
  | Some c =>
      map (fun _ => PriceComparison.confidence c)
        (List.filter (fun entry => String.eqb (fst entry) store)
           (PriceComparison.price_by_store c))
  | None => []
  end.

Definition store_labels (shopping_list : list ShoppingItem.t)
    (comparisons : dict PriceComparison.t) (store : string) : list confidence_level :=
  flat_map (line_labels comparisons store) shopping_list.

(** The running total recorded for a store, zero when it is absent. *)
Definition total_of (store : string) (store_totals : dict StoreTotal.t) : Q :=
  match dict_get store store_totals with
  | Some data => StoreTotal.total data
  | None => 0
  end.

(** The change of a price in percent of the first price, as the code
    computes it in floats: [((last - first) / first) * 100]. *)
Definition change_percent (first_price last_price : Q) : Q :=
  Py.fmul
    (Py.float (Py.float (Py.fsub last_price first_price) / Py.float first_price))
    100.

(** The history of a store: the points of its rows, in the order of the
    rows. *)
Definition history_of (store : string) (prices : list PriceData.t)
  : list TrendPoint.t :=
  map trend_point
    (List.filter (fun p => String.eqb (PriceData.store_name p) store) prices).

(** A list as a dictionary entry: absent when empty. *)
Definition entry_of {A} (l : list A) : option (list A) :=
  match l with
  | [] => None
  | _ => Some l
  end.

(** An observation is fresh: less than six hours old. *)
Definition fresh (now : datetime) (p : PriceData.t) : Prop :=
  (now - PriceData.scraped_at p < hours_us 6)%Z.

(** What a row is a row of: its product, store and unit. *)
Definition row_identity (row : PriceData.t) : string * string * string :=
  (PriceData.product_name row, PriceData.store_name row, PriceData.unit row).

(** The set of words of a text, letter case apart. *)
Definition words (text : string) : gset string :=
  list_to_set (PyStr.split (Py.lower text)).

(** A text holds a digit. *)
Definition has_digit (text : string) : Prop :=
  exists c, c ∈ list_ascii_of_string text /\ BaseScraper.is_digit c = true.


(** The labels of the comparisons of a dictionary. *)
Definition labels_of (comparisons : Py.dict PriceComparison.t)
  : list confidence_level :=
  map PriceComparison.confidence (Py.values comparisons).

End Spec.
Import Spec.

(** ** Sample data *)

Module Sample.

Import Py.

(** An observation of milk; times are given in minutes. *)
Definition observation (store : string) (price : Q) (minute : Z) : PriceData.t :=
  PriceData.mk "milk" store price "each" true None (seconds_us (minute * 60)).

(** Noon, in minutes. *)
Definition noon : datetime := seconds_us (720 * 60).

(** Two rows of one store and one of another. *)
Definition two_rows_one_store : list PriceData.t :=
  [observation "walmart" 1 700; observation "walmart" 3 710;
   observation "target" 2 500].

(** Prices with three decimals, as the Kroger scraper yields them. *)
Definition three_decimals : list PriceData.t :=
  [observation "kroger" 1.001 700; observation "target" 2 710].

(** Five observations over three stores, three of them recent. *)
Definition three_of_five_recent : list PriceData.t :=
  [observation "walmart" 3.48 700; observation "target" 3.79 690;
   observation "kroger" 3.49 650; observation "walmart" 3.50 500;
   observation "target" 3.80 400].

(** Three stores, none of them seen in the last two hours. *)
Definition three_stores_stale : list PriceData.t :=
  [observation "walmart" 3.48 500; observation "target" 3.79 450;
   observation "kroger" 3.49 400].

(** The comparison built from a list of rows, when there is one. *)
Definition comparison_of (now : datetime)
    (price_data : list PriceData.t) : option PriceComparison.t :=
  match PriceComparisonService._create_price_comparison now "milk" price_data with
  | Ok (Some c) => Some c
  | _ => None
  end.

(** Two comparisons at one store: milk seen recently, bread not. *)
Definition recent_milk : list PriceData.t := [observation "walmart" 3.48 700].
Definition stale_bread : list PriceData.t :=
  [PriceData.mk "bread" "walmart" 2.29 "each" true None (seconds_us (400 * 60))].

Definition comparison_named (product_name : string)
    (price_data : list PriceData.t) : dict PriceComparison.t :=
  match PriceComparisonService._create_price_comparison noon product_name price_data with
  | Ok (Some c) => [(product_name, c)]
  | _ => []
  end.

Definition milk_and_bread : dict PriceComparison.t :=
  comparison_named "milk" recent_milk ++ comparison_named "bread" stale_bread.

Definition milk_and_bread_list : list ShoppingItem.t :=
  [ShoppingItem.mk "milk" (Some 1%Q); ShoppingItem.mk "bread" None].

(** Milk at two stores, bread at one of them only: the other store
    covers half of the list, at the lowest total. *)
Definition milk_two_stores : list PriceData.t :=
  [observation "target" 1 700; observation "walmart" 3.48 700].

Definition half_covered : dict PriceComparison.t :=
  comparison_named "milk" milk_two_stores ++ comparison_named "bread" stale_bread.

(** Collaborators over a world without state: the query fails for the
    product "caviar", finds two fresh rows for "milk" and nothing else;
    the scraper finds nothing. *)
Definition failing_query (product_name : string) (stores : option (list string))
  : PriceComparisonService.M (World := ()) (list PriceData.t) :=
  fun w =>
    if String.eqb product_name "caviar" then (w, Raise (Exception "database is locked"))
    else if String.eqb product_name "milk" then (w, Ok milk_two_stores)
    else (w, Ok []).

Definition idle_scraper (product_names stores : list string)
  : PriceComparisonService.M (World := ()) (list ()) :=
  fun w => (w, Ok []).

Definition idle_save (price_results : list ())
  : PriceComparisonService.M (World := ()) Z :=
  fun w => (w, Ok 0%Z).

Definition at_noon (w : ()) : datetime := noon.

(** Two readings of the same product at the same store, ten minutes
    apart, and a table that holds another product. *)
Definition first_reading : PriceResult.t :=
  PriceResult.mk "walmart" "Great Value Whole Milk" 3.48 (Some "gallon") true
    (Some "https://walmart.com/mock") "milk" (seconds_us (700 * 60)).


Definition bread_table : list PriceData.t := stale_bread.

(** A database session that answers every statement, and one whose
    commit raises. *)
Definition answering : GroceryWebScraper.session :=
  GroceryWebScraper.mk_session (fun _ => None) None.

Definition failing_commit : GroceryWebScraper.session :=
  GroceryWebScraper.mk_session (fun _ => None)
    (Some (Exception "database is locked")).

Definition fresh_state : GroceryWebScraper.state :=
  GroceryWebScraper.mk_state ∅ ∅.

(** A scraper state in which bread at walmart was processed five
    minutes before noon. *)
Definition bread_just_processed : GroceryWebScraper.state :=
  GroceryWebScraper.mk_state ∅ {["bread_walmart" := seconds_us (715 * 60)]}.

(** A world that is a clock: a fetch takes two seconds and finds the
    product, the pause between fetches takes one. *)
Definition ticking_scraper (store_name product_name : string) (w : Z)
  : Z * result (option Scraped.t) :=
  ((w + seconds_us 2)%Z,
   Ok (Some (Scraped.mk store_name product_name 3.48 (Some "each") true None))).

Definition one_second (w : Z) : Z := (w + seconds_us 1)%Z.

Definition read_clock (w : Z) : datetime := w.

Definition four_products : list string := ["milk"; "bread"; "eggs"; "rice"].

(** A scraper whose fetch of "caviar" raises, in the same world. *)
Definition flaky_scraper (store_name product_name : string) (w : Z)
  : Z * result (option Scraped.t) :=
  if String.eqb product_name "caviar"
  then ((w + seconds_us 10)%Z, Raise (Exception "connection reset"))
  else ticking_scraper store_name product_name w.


(** A history whose first row at walmart is a give-away. *)
Definition free_sample_history : list PriceData.t :=
  [observation "walmart" 0 100; observation "walmart" 3.30 300].

(** A reading of bread at target. *)
Definition bread_reading : PriceResult.t :=
  PriceResult.mk "target" "Market Pantry Bread" 2.19 (Some "loaf") true
    None "bread" (seconds_us (705 * 60)).

(** A scraper state in which bread at walmart was processed a day and
    five minutes before noon. *)
Definition bread_processed_yesterday : GroceryWebScraper.state :=
  GroceryWebScraper.mk_state ∅
    {["bread_walmart" := (seconds_us (715 * 60) - seconds_us 86400)%Z]}.

End Sample.

(** * Properties *)

(** ** The runtime fragments *)

Section PyFacts.

Import Py.

Lemma Qltb_true (a b : Q) : Qltb a b = true <-> (a < b)%Q.
Proof.
  unfold Qltb. rewrite negb_true_iff, <- not_true_iff_false, Qle_bool_iff.
  split; [apply Qnot_le_lt | apply Qlt_not_le].
Qed.

Lemma Qltb_false (a b : Q) : Qltb a b = false <-> (b <= a)%Q.
Proof. unfold Qltb. rewrite negb_false_iff. apply Qle_bool_iff. Qed.

Lemma min_elem (x : Q) (xs : list Q) : min x xs ∈ x :: xs.
Proof.
  unfold min. revert x. induction xs as [|y ys IH]; intros x; simpl.
  - left.
  - destruct (Qltb y x).
    + right. apply IH.
    + specialize (IH x). rewrite elem_of_cons in IH.
      destruct IH as [-> | IH]; [left | right; right; exact IH].
Qed.

Lemma min_le_start (x : Q) (xs : list Q) : (min x xs <= x)%Q.
Proof.
  unfold min. revert x. induction xs as [|y ys IH]; intros x; simpl.
  - apply Qle_refl.
  - destruct (Qltb y x) eqn:E.
    + apply Qltb_true in E. specialize (IH y). lra.
    + apply IH.
Qed.

Lemma min_lower_bound (x : Q) (xs : list Q) (y : Q) :
  y ∈ x :: xs -> (min x xs <= y)%Q.
Proof.
  revert x. induction xs as [|z zs IH]; intros x Hy.
  - apply list_elem_of_singleton in Hy. subst. apply Qle_refl.
  - change (min x (z :: zs)) with (min (if Qltb z x then z else x) zs).
    rewrite elem_of_cons in Hy. destruct Hy as [-> | Hy].
    + pose proof (min_le_start (if Qltb z x then z else x) zs) as H.
      destruct (Qltb z x) eqn:E; [apply Qltb_true in E; lra | exact H].
    + rewrite elem_of_cons in Hy. destruct Hy as [-> | Hy].
      * pose proof (min_le_start (if Qltb z x then z else x) zs) as H.
        destruct (Qltb z x) eqn:E; [exact H | apply Qltb_false in E; lra].
      * apply IH. right. exact Hy.
Qed.

Lemma min_is_minimum (x : Q) (xs : list Q) : is_minimum (min x xs) (x :: xs).
Proof.
  split.
  - exists (min x xs). split; [apply min_elem | reflexivity].
  - apply min_lower_bound.
Qed.

Lemma max_elem (x : Q) (xs : list Q) : max x xs ∈ x :: xs.
Proof.
  unfold max. revert x. induction xs as [|y ys IH]; intros x; simpl.
  - left.
  - destruct (Qltb x y).
    + right. apply IH.
    + specialize (IH x). rewrite elem_of_cons in IH.
      destruct IH as [-> | IH]; [left | right; right; exact IH].
Qed.

Lemma max_ge_start (x : Q) (xs : list Q) : (x <= max x xs)%Q.
Proof.
  unfold max. revert x. induction xs as [|y ys IH]; intros x; simpl.
  - apply Qle_refl.
  - destruct (Qltb x y) eqn:E.
    + apply Qltb_true in E. specialize (IH y). lra.
    + apply IH.
Qed.

Lemma max_upper_bound (x : Q) (xs : list Q) (y : Q) :
  y ∈ x :: xs -> (y <= max x xs)%Q.
Proof.
  revert x. induction xs as [|z zs IH]; intros x Hy.
  - apply list_elem_of_singleton in Hy. subst. apply Qle_refl.
  - change (max x (z :: zs)) with (max (if Qltb x z then z else x) zs).
    rewrite elem_of_cons in Hy. destruct Hy as [-> | Hy].
    + pose proof (max_ge_start (if Qltb x z then z else x) zs) as H.
      destruct (Qltb x z) eqn:E; [apply Qltb_true in E; lra | exact H].
    + rewrite elem_of_cons in Hy. destruct Hy as [-> | Hy].
      * pose proof (max_ge_start (if Qltb x z then z else x) zs) as H.
        destruct (Qltb x z) eqn:E; [exact H | apply Qltb_false in E; lra].
      * apply IH. right. exact Hy.
Qed.

Lemma max_is_maximum (x : Q) (xs : list Q) : is_maximum (max x xs) (x :: xs).
Proof.
  split.
  - exists (max x xs). split; [apply max_elem | reflexivity].
  - apply max_upper_bound.
Qed.

(** Two minima of lists with the same values agree. *)
Lemma is_minimum_unique (m m' : Q) (l l' : list Q) :
  is_minimum m l -> is_minimum m' l' ->
  (forall x, x ∈ l -> exists y, y ∈ l' /\ (y <= x)%Q) ->
  (forall y, y ∈ l' -> exists x, x ∈ l /\ (x <= y)%Q) ->
  (m == m')%Q.
Proof.
  intros [[x [Hx Hxm]] Hlow] [[y [Hy Hym]] Hlow'] H1 H2.
  destruct (H1 x Hx) as [y' [Hy' Hle]].
  destruct (H2 y Hy) as [x' [Hx' Hle']].
  specialize (Hlow x' Hx'). specialize (Hlow' y' Hy'). lra.
Qed.

Context {V : Type}.
Implicit Types (d : dict V) (k : string) (v : V).

Lemma dict_get_set d k k' v :
  dict_get k (dict_set k' v d)
  = if String.eqb k k' then Some v else dict_get k d.
Proof.
  induction d as [|[k0 v0] d IH]; simpl.
  - reflexivity.
  - destruct (String.eqb k' k0) eqn:E; simpl.
    + apply String.eqb_eq in E. subst k0. destruct (String.eqb k k'); reflexivity.
    + rewrite IH. destruct (String.eqb k k0) eqn:E0; [|reflexivity].
      apply String.eqb_eq in E0. subst k0.
      rewrite String.eqb_sym, E. reflexivity.
Qed.

Lemma dict_get_set_eq d k v : dict_get k (dict_set k v d) = Some v.
Proof. rewrite dict_get_set, String.eqb_refl. reflexivity. Qed.

Lemma dict_get_set_ne d k k' v :
  k <> k' -> dict_get k (dict_set k' v d) = dict_get k d.
Proof.
  intros H. rewrite dict_get_set.
  apply String.eqb_neq in H. rewrite H. reflexivity.
Qed.

Lemma dict_get_elem d k v : dict_get k d = Some v -> (k, v) ∈ d.
Proof.
  induction d as [|[k0 v0] d IH]; simpl; [discriminate|].
  destruct (String.eqb k k0) eqn:E.
  - apply String.eqb_eq in E. intros [= ->]. subst. left.
  - intros H. right. apply IH, H.
Qed.

Lemma dict_get_None d k : dict_get k d = None <-> k ∉ keys d.
Proof.
  induction d as [|[k0 v0] d IH]; simpl.
  - split; [intros _; apply not_elem_of_nil | reflexivity].
  - rewrite not_elem_of_cons. destruct (String.eqb k k0) eqn:E.
    + apply String.eqb_eq in E. split; [discriminate | intros [H _]; contradiction].
    + apply String.eqb_neq in E. rewrite IH. tauto.
Qed.

Lemma elem_dict_get d k v : NoDup (keys d) -> (k, v) ∈ d -> dict_get k d = Some v.
Proof.
  induction d as [|[k0 v0] d IH]; simpl; intros Hnd Hin.
  - apply elem_of_nil in Hin. contradiction.
  - apply NoDup_cons in Hnd as [Hk0 Hnd].
    rewrite elem_of_cons in Hin. destruct Hin as [[= -> ->] | Hin].
    + rewrite String.eqb_refl. reflexivity.
    + destruct (String.eqb k k0) eqn:E; [|apply IH; assumption].
      apply String.eqb_eq in E. subst k0. exfalso. apply Hk0.
      apply (list_elem_of_fmap_2 fst) in Hin. exact Hin.
Qed.

Lemma keys_dict_set d k v :
  keys (dict_set k v d)
  = match dict_get k d with
    | Some _ => keys d
    | None => keys d ++ [k]
    end.
Proof.
  induction d as [|[k0 v0] d IH]; simpl; [reflexivity|].
  destruct (String.eqb k k0) eqn:E; simpl.
  - apply String.eqb_eq in E. subst. reflexivity.
  - rewrite IH. destruct (dict_get k d); reflexivity.
Qed.

Lemma NoDup_keys_dict_set d k v : NoDup (keys d) -> NoDup (keys (dict_set k v d)).
Proof.
  intros H. rewrite keys_dict_set. destruct (dict_get k d) eqn:E; [exact H|].
  apply NoDup_app. split; [exact H|]. split.
  - intros x Hx Hx'. apply list_elem_of_singleton in Hx'. subst x.
    apply dict_get_None in E. contradiction.
  - apply NoDup_singleton.
Qed.

End PyFacts.

(** ** Grouping the observations by store *)

Section Grouping.

Import Py PriceComparisonService.

Lemma grouped_nil : grouped [] [].
Proof.
  split; [apply NoDup_nil; exact I|]. split.
  - intros s e H. discriminate H.
  - intros p H. apply elem_of_nil in H. contradiction.
Qed.

Lemma grouped_step d l p : grouped d l -> grouped (group_step d p) (l ++ [p]).
Proof.
  intros (Hnd & Hsome & Hall). unfold group_step.
  set (store := PriceData.store_name p).
  assert (Hnew : grouped (dict_set store (store_entry p) d) (l ++ [p])
                 \/ ~ (forall e0, dict_get store d = Some e0 ->
                         (PriceData.price p < StoreEntry.price e0)%Q) ).
  { destruct (dict_get store d) as [e0|] eqn:E0.
    - destruct (Qltb (PriceData.price p) (StoreEntry.price e0)) eqn:Elt.
      + apply Qltb_true in Elt. left. split; [apply NoDup_keys_dict_set, Hnd|]. split.
        * intros s e. rewrite dict_get_set. destruct (String.eqb s store) eqn:Es.
          -- apply String.eqb_eq in Es. intros [= <-]. exists p.
             split; [apply elem_of_app; right; left | split; [symmetry; exact Es | reflexivity]].
          -- intros H. destruct (Hsome s e H) as (p' & Hp' & Hs & He).
             exists p'. split; [apply elem_of_app; left; exact Hp' | tauto].
        * intros p' Hp'. rewrite dict_get_set. apply elem_of_app in Hp' as [Hp' | Hp'].
          -- destruct (Hall p' Hp') as (e & He & Hle).
             destruct (String.eqb (PriceData.store_name p') store) eqn:Es.
             ++ apply String.eqb_eq in Es. rewrite Es in He. fold store in E0.
                rewrite E0 in He. injection He as <-.
                exists (store_entry p). split; [reflexivity | simpl; lra].
             ++ exists e. split; assumption.
          -- apply list_elem_of_singleton in Hp'. subst p'. fold store.
             rewrite String.eqb_refl. exists (store_entry p).
             split; [reflexivity | simpl; lra].
      + right. intros H. specialize (H e0 eq_refl).
        apply Qltb_false in Elt. lra.
    - left. split; [apply NoDup_keys_dict_set, Hnd|]. split.
      + intros s e. rewrite dict_get_set. destruct (String.eqb s store) eqn:Es.
        * apply String.eqb_eq in Es. intros [= <-]. exists p.
          split; [apply elem_of_app; right; left | split; [symmetry; exact Es | reflexivity]].
        * intros H. destruct (Hsome s e H) as (p' & Hp' & Hs & He).
          exists p'. split; [apply elem_of_app; left; exact Hp' | tauto].
      + intros p' Hp'. rewrite dict_get_set. apply elem_of_app in Hp' as [Hp' | Hp'].
        * destruct (Hall p' Hp') as (e & He & Hle).
          destruct (String.eqb (PriceData.store_name p') store) eqn:Es.
          -- apply String.eqb_eq in Es. rewrite Es in He. congruence.
          -- exists e. split; assumption.
        * apply list_elem_of_singleton in Hp'. subst p'. fold store.
          rewrite String.eqb_refl. exists (store_entry p).
          split; [reflexivity | simpl; lra]. }
  destruct (dict_get store d) as [e0|] eqn:E0.
  - destruct (Qltb (PriceData.price p) (StoreEntry.price e0)) eqn:Elt.
    + destruct Hnew as [H | H]; [exact H|].
      exfalso. apply H. intros e1 [= <-]. apply Qltb_true, Elt.
    + apply Qltb_false in Elt. split; [exact Hnd|]. split.
      * intros s e H. destruct (Hsome s e H) as (p' & Hp' & Hs & He).
        exists p'. split; [apply elem_of_app; left; exact Hp' | tauto].
      * intros p' Hp'. apply elem_of_app in Hp' as [Hp' | Hp'].
        -- apply Hall, Hp'.
        -- apply list_elem_of_singleton in Hp'. subst p'. exists e0. split; assumption.
  - destruct Hnew as [H | H]; [exact H|].
    exfalso. apply H. intros e1 [=].
Qed.

Lemma grouped_fold l : forall d l0,
  grouped d l0 -> grouped (fold_left group_step l d) (l0 ++ l).
Proof.
  induction l as [|p l IH]; intros d l0 H; simpl.
  - rewrite app_nil_r. exact H.
  - replace (l0 ++ p :: l) with ((l0 ++ [p]) ++ l) by (rewrite <- app_assoc; reflexivity).
    apply IH, grouped_step, H.
Qed.

Lemma group_by_store_grouped l : grouped (group_by_store l) l.
Proof. apply (grouped_fold l [] []), grouped_nil. Qed.

Lemma group_by_store_length l : length (group_by_store l) = distinct_stores l.
Proof.
  destruct (group_by_store_grouped l) as (Hnd & Hsome & Hall).
  unfold distinct_stores.
  replace (length (group_by_store l)) with (length (keys (group_by_store l)))
    by (unfold keys; apply length_map).
  rewrite <- (size_list_to_set (C := gset string) _ Hnd).
  f_equal. apply set_eq. intros s. rewrite !elem_of_list_to_set. split.
  - intros Hs. destruct (dict_get s (group_by_store l)) as [e|] eqn:E.
    + destruct (Hsome s e E) as (p & Hp & <- & _).
      apply list_elem_of_fmap_2, Hp.
    + apply dict_get_None in E. contradiction.
  - intros Hs. apply list_elem_of_fmap in Hs as (p & -> & Hp).
    destruct (Hall p Hp) as (e & He & _).
    apply dict_get_elem in He. apply (list_elem_of_fmap_2 fst) in He. exact He.
Qed.

Lemma find_cheapest_store_found (items : dict StoreEntry.t) (c : Q) :
  (exists s e, (s, e) ∈ items /\ (StoreEntry.price e == c)%Q) ->
  exists s e, find_cheapest_store items c = Some s
              /\ (s, e) ∈ items /\ (StoreEntry.price e == c)%Q.
Proof.
  induction items as [|[s0 e0] items IH]; intros (s & e & Hin & Heq).
  - apply elem_of_nil in Hin. contradiction.
  - simpl. destruct (Qeq_bool (StoreEntry.price e0) c) eqn:E.
    + exists s0, e0. split; [reflexivity|]. split; [left | apply Qeq_bool_iff, E].
    + rewrite elem_of_cons in Hin. destruct Hin as [[= -> ->] | Hin].
      * apply Qeq_bool_iff in Heq. congruence.
      * destruct IH as (s' & e' & Hf & Hin' & Heq'); [exists s, e; tauto|].
        exists s', e'. split; [exact Hf|]. split; [right; exact Hin' | exact Heq'].
Qed.

End Grouping.

(** ** The comparison of one product *)

Section Comparison.

Import Py PriceComparisonService.

Lemma truediv_length {A} (a : Q) (x : A) (xs : list A) :
  truediv a (inject_Z (Z.of_nat (length (x :: xs))))
  = Ok (a / inject_Z (Z.of_nat (length (x :: xs))))%Q.
Proof.
  unfold truediv.
  destruct (Qeq_bool (inject_Z (Z.of_nat (length (x :: xs)))) 0) eqn:E; [|reflexivity].
  apply Qeq_bool_iff in E. unfold Qeq in E. simpl in E. lia.
Qed.

Lemma recent_filter (now : datetime) (l : list PriceData.t) :
  List.filter (is_recent now) l
  = List.filter (fun p => bool_decide (now - PriceData.scraped_at p < hours_us 2)%Z) l.
Proof.
  apply List.filter_ext. intros p. unfold is_recent.
  destruct (Z.ltb_spec (now - hours_us 2) (PriceData.scraped_at p)).
  - symmetry. apply bool_decide_eq_true. lia.
  - symmetry. apply bool_decide_eq_false. lia.
Qed.

(** What [_create_price_comparison] returns on a non-empty list. *)
Lemma create_price_comparison_nonempty now product_name p0 rest :
  let price_data := p0 :: rest in
  let all_prices := map PriceData.price rest in
  let ratio := (inject_Z (Z.of_nat (length (group_by_store price_data))) / 3)%Q in
  _create_price_comparison now product_name price_data
  = Ok (Some (PriceComparison.mk
                product_name
                (min (PriceData.price p0) all_prices)
                (find_cheapest_store (group_by_store price_data)
                   (min (PriceData.price p0) all_prices))
                (round (mean (PriceData.price p0) all_prices) 2)
                (min (PriceData.price p0) all_prices,
                 max (PriceData.price p0) all_prices)
                (length (group_by_store price_data))
                (round (fsub (max (PriceData.price p0) all_prices)
                          (min (PriceData.price p0) all_prices)) 2)
                (group_by_store price_data)
                (bucket ((recency_score now price_data
                          + (if Qltb 1 ratio then 1 else ratio)) / 2))
                (Zmax (PriceData.scraped_at p0) (map PriceData.scraped_at rest)))).
Proof.
  intros price_data all_prices ratio.
  unfold _create_price_comparison, _calculate_confidence.
  fold price_data. unfold price_data at 3.
  rewrite truediv_length. simpl bind.
  unfold recency_score. rewrite <- recent_filter. reflexivity.
Qed.

Lemma bucket_respects (s s' : Q) : (s == s')%Q -> bucket s = bucket s'.
Proof.
  intros H. unfold bucket.
  destruct (Qle_bool 0.8 s) eqn:E1, (Qle_bool 0.8 s') eqn:E1'; try reflexivity.
  - apply Qle_bool_iff in E1. apply not_true_iff_false in E1'.
    exfalso. apply E1'. apply Qle_bool_iff. lra.
  - apply Qle_bool_iff in E1'. apply not_true_iff_false in E1.
    exfalso. apply E1. apply Qle_bool_iff. lra.
  - destruct (Qle_bool 0.5 s) eqn:E2, (Qle_bool 0.5 s') eqn:E2'; try reflexivity.
    + apply Qle_bool_iff in E2. apply not_true_iff_false in E2'.
      exfalso. apply E2'. apply Qle_bool_iff. lra.
    + apply Qle_bool_iff in E2'. apply not_true_iff_false in E2.
      exfalso. apply E2. apply Qle_bool_iff. lra.
Qed.

Lemma bucket_cases (s : Q) :
  ((0.8 <= s)%Q -> bucket s = high)
  /\ ((0.5 <= s)%Q -> (s < 0.8)%Q -> bucket s = medium)
  /\ ((s < 0.5)%Q -> bucket s = low).
Proof.
  unfold bucket.
  destruct (Qle_bool 0.8 s) eqn:E1; [apply Qle_bool_iff in E1 | apply not_true_iff_false in E1;
    rewrite Qle_bool_iff in E1];
  (destruct (Qle_bool 0.5 s) eqn:E2; [apply Qle_bool_iff in E2 | apply not_true_iff_false in E2;
    rewrite Qle_bool_iff in E2]);
  repeat split; intros; try reflexivity; exfalso; lra.
Qed.

Lemma coverage_score_code (price_data : list PriceData.t) :
  let ratio := (inject_Z (Z.of_nat (length (group_by_store price_data))) / 3)%Q in
  ((if Qltb 1 ratio then 1 else ratio) == coverage_score price_data)%Q.
Proof.
  intros ratio. unfold coverage_score. rewrite <- group_by_store_length. fold ratio.
  destruct (Qltb 1 ratio) eqn:E.
  - apply Qltb_true in E. symmetry. apply Q.min_r. lra.
  - apply Qltb_false in E. symmetry. apply Q.min_l. exact E.
Qed.

(** The minimum of all the prices is the minimum of the prices that
    stand for the stores, and a store holds it. *)
Lemma cheapest_is_representative p0 rest :
  let price_data := p0 :: rest in
  let cheapest := min (PriceData.price p0) (map PriceData.price rest) in
  exists s e, find_cheapest_store (group_by_store price_data) cheapest = Some s
              /\ dict_get s (group_by_store price_data) = Some e
              /\ (StoreEntry.price e == cheapest)%Q.
Proof.
  intros price_data cheapest.
  destruct (group_by_store_grouped price_data) as (Hnd & Hsome & Hall).
  assert (Hmin : cheapest ∈ map PriceData.price price_data) by apply min_elem.
  apply list_elem_of_fmap in Hmin as (p & Hp & Hin).
  destruct (Hall p Hin) as (e & He & Hle).
  destruct (Hsome _ e He) as (p' & Hin' & _ & Hep').
  assert (Hlow : (cheapest <= PriceData.price p')%Q).
  { apply (min_lower_bound (PriceData.price p0) (map PriceData.price rest)).
    apply (list_elem_of_fmap_2 PriceData.price) in Hin'. exact Hin'. }
  assert (Heq : (StoreEntry.price e == cheapest)%Q).
  { subst e. simpl in *. rewrite <- Hp in Hle. lra. }
  destruct (find_cheapest_store_found (group_by_store price_data) cheapest)
    as (s' & e' & Hf & Hin'' & Heq').
  { exists (PriceData.store_name p), e. split; [apply dict_get_elem, He | exact Heq]. }
  exists s', e'. split; [exact Hf|]. split; [|exact Heq'].
  apply elem_dict_get; assumption.
Qed.

Lemma cheapest_is_minimum p0 rest :
  let price_data := p0 :: rest in
  is_minimum (min (PriceData.price p0) (map PriceData.price rest))
    (map StoreEntry.price (values (group_by_store price_data))).
Proof.
  intros price_data.
  destruct (group_by_store_grouped price_data) as (Hnd & Hsome & Hall).
  destruct (cheapest_is_representative p0 rest) as (s & e & _ & He & Heq).
  split.
  - exists (StoreEntry.price e). split; [|exact Heq].
    apply list_elem_of_fmap_2. apply dict_get_elem in He.
    apply (list_elem_of_fmap_2 snd) in He. exact He.
  - intros y Hy. apply list_elem_of_fmap in Hy as (e' & -> & He').
    apply list_elem_of_fmap in He' as ([s' e''] & -> & Hin). simpl.
    apply (elem_dict_get _ _ _ Hnd) in Hin.
    destruct (Hsome _ _ Hin) as (p' & Hin' & _ & ->). simpl.
    apply (min_lower_bound (PriceData.price p0) (map PriceData.price rest)).
    apply (list_elem_of_fmap_2 PriceData.price) in Hin'. exact Hin'.
Qed.

End Comparison.

(** ** Claims on the comparison of one product *)

Section ComparisonClaims.

Import Py PriceComparisonService.

Lemma distinct_stores_nonempty (price_data : list PriceData.t) :
  (0 < distinct_stores price_data)%nat -> price_data <> [].
Proof.
  intros H ->. vm_compute in H. lia.
Qed.

(** C10. For a non-empty list of observations the comparison names a
    cheapest store; the price recorded for that store in
    [price_by_store] is the cheapest price, which is the lower bound of
    the price range. *)
Theorem cheapest_store_holds_cheapest_price
    (now : datetime) (product_name : string) (price_data : list PriceData.t) :
  price_data <> [] ->
  exists c store e,
    _create_price_comparison now product_name price_data = Ok (Some c)
    /\ PriceComparison.cheapest_store c = Some store
    /\ dict_get store (PriceComparison.price_by_store c) = Some e
    /\ (StoreEntry.price e == PriceComparison.cheapest_price c)%Q
    /\ PriceComparison.cheapest_price c = fst (PriceComparison.price_range c).
Proof.
  destruct price_data as [|p0 rest]; [congruence|]. intros _.
  destruct (cheapest_is_representative p0 rest) as (s & e & Hf & He & Heq).
  eexists _, s, e. split; [apply create_price_comparison_nonempty|].
  simpl. repeat split; assumption.
Qed.

Lemma cheapest_store_holds_cheapest_price_witness :
  exists c store e,
    _create_price_comparison Sample.noon "milk" Sample.two_rows_one_store
    = Ok (Some c)
    /\ PriceComparison.cheapest_store c = Some store
    /\ dict_get store (PriceComparison.price_by_store c) = Some e
    /\ (StoreEntry.price e == PriceComparison.cheapest_price c)%Q
    /\ PriceComparison.cheapest_price c = fst (PriceComparison.price_range c).
Proof.
  apply (cheapest_store_holds_cheapest_price Sample.noon "milk"
           Sample.two_rows_one_store).
  discriminate.
Defined.

(** C5, as the code has it.  When the observations span at least two
    stores, the cheapest price is the minimum of the prices that stand
    for the stores, and the savings are the float difference of the
    bounds of the price range, rounded to two decimals as [round]
    rounds a float. *)
Theorem cheapest_price_and_rounded_savings
    (now : datetime) (product_name : string) (price_data : list PriceData.t) :
  (2 <= distinct_stores price_data)%nat ->
  exists c,
    _create_price_comparison now product_name price_data = Ok (Some c)
    /\ is_minimum (PriceComparison.cheapest_price c) (representative_prices c)
    /\ PriceComparison.savings_opportunity c
       = round (fsub (snd (PriceComparison.price_range c))
                  (fst (PriceComparison.price_range c))) 2.
Proof.
  intros H. assert (Hne : price_data <> []) by (apply distinct_stores_nonempty; lia).
  destruct price_data as [|p0 rest]; [congruence|].
  eexists. split; [apply create_price_comparison_nonempty|].
  split; [apply cheapest_is_minimum | reflexivity].
Qed.

Lemma cheapest_price_and_rounded_savings_witness :
  exists c,
    _create_price_comparison Sample.noon "milk" Sample.three_decimals = Ok (Some c)
    /\ is_minimum (PriceComparison.cheapest_price c) (representative_prices c)
    /\ PriceComparison.savings_opportunity c
       = round (fsub (snd (PriceComparison.price_range c))
                  (fst (PriceComparison.price_range c))) 2.
Proof.
  apply (cheapest_price_and_rounded_savings Sample.noon "milk" Sample.three_decimals).
  vm_compute. lia.
Defined.

(** C5, as stated, fails: with prices 1.001 and 2 at two stores the
    range is 0.999 wide, as numbers and as floats up to the last bit,
    and the savings are 1.00. *)
Lemma savings_differ_from_range_width :
  (2 <= distinct_stores Sample.three_decimals)%nat
  /\ exists c,
       _create_price_comparison Sample.noon "milk" Sample.three_decimals
       = Ok (Some c)
       /\ (snd (PriceComparison.price_range c)
            - fst (PriceComparison.price_range c) == 0.999)%Q
       /\ (PriceComparison.savings_opportunity c == 1)%Q
       /\ ~ (PriceComparison.savings_opportunity c
              == snd (PriceComparison.price_range c)
                 - fst (PriceComparison.price_range c))%Q
       /\ ~ (PriceComparison.savings_opportunity c
              == fsub (snd (PriceComparison.price_range c))
                   (fst (PriceComparison.price_range c)))%Q.
Proof.
  split; [vm_compute; lia|].
  eexists. split; [vm_compute; reflexivity|].
  split; [reflexivity|]. split; [reflexivity|].
  split; intros H; vm_compute in H; discriminate H.
Qed.

(** C3, as the code has it.  The statistics are taken over all the
    observations, one value per row: the average price is their
    [statistics.mean] rounded to two decimals, the price range runs
    from their minimum to their maximum, and the savings are the float
    difference of the two, rounded to two decimals.  The lower bound of
    the range is also the minimum of the prices that stand for the
    stores. *)
Theorem statistics_over_all_observations
    (now : datetime) (product_name : string) (price_data : list PriceData.t) :
  price_data <> [] ->
  exists c,
    _create_price_comparison now product_name price_data = Ok (Some c)
    /\ PriceComparison.average_price c
       = round (mean_of (map PriceData.price price_data)) 2
    /\ is_minimum (fst (PriceComparison.price_range c))
         (map PriceData.price price_data)
    /\ is_maximum (snd (PriceComparison.price_range c))
         (map PriceData.price price_data)
    /\ PriceComparison.savings_opportunity c
       = round (fsub (snd (PriceComparison.price_range c))
                  (fst (PriceComparison.price_range c))) 2
    /\ is_minimum (fst (PriceComparison.price_range c)) (representative_prices c).
Proof.
  destruct price_data as [|p0 rest]; [congruence|]. intros _.
  eexists. split; [apply create_price_comparison_nonempty|].
  simpl. split; [reflexivity|].
  split; [apply min_is_minimum|]. split; [apply max_is_maximum|].
  split; [reflexivity | apply cheapest_is_minimum].
Qed.

Lemma statistics_over_all_observations_witness :
  exists c,
    _create_price_comparison Sample.noon "milk" Sample.two_rows_one_store
    = Ok (Some c)
    /\ PriceComparison.average_price c
       = round (mean_of (map PriceData.price Sample.two_rows_one_store)) 2
    /\ is_minimum (fst (PriceComparison.price_range c))
         (map PriceData.price Sample.two_rows_one_store)
    /\ is_maximum (snd (PriceComparison.price_range c))
         (map PriceData.price Sample.two_rows_one_store)
    /\ PriceComparison.savings_opportunity c
       = round (fsub (snd (PriceComparison.price_range c))
                  (fst (PriceComparison.price_range c))) 2
    /\ is_minimum (fst (PriceComparison.price_range c)) (representative_prices c).
Proof.
  apply (statistics_over_all_observations Sample.noon "milk"
           Sample.two_rows_one_store).
  discriminate.
Defined.

(** C3, as stated, fails: with rows at 1 and 3 in one store and a row
    at 2 in another, the prices that stand for the stores are 1 and 2,
    of mean 1.5, maximum 2 and width 1, while the comparison reports
    the average 2, the upper bound 3 and the savings 2. *)
Lemma statistics_not_over_representatives :
  exists c,
    _create_price_comparison Sample.noon "milk" Sample.two_rows_one_store
    = Ok (Some c)
    /\ representative_prices c = [1%Q; 2%Q]
    /\ (PriceComparison.average_price c == 2)%Q
    /\ ~ (PriceComparison.average_price c == average (representative_prices c))%Q
    /\ (snd (PriceComparison.price_range c) == 3)%Q
    /\ ~ is_maximum (snd (PriceComparison.price_range c)) (representative_prices c)
    /\ (PriceComparison.savings_opportunity c == 2)%Q
    /\ ~ (PriceComparison.savings_opportunity c
           == max 1 [2%Q] - min 1 [2%Q])%Q.
Proof.
  eexists. split; [vm_compute; reflexivity|].
  split; [reflexivity|]. split; [reflexivity|].
  split; [intros H; vm_compute in H; discriminate H|].
  split; [reflexivity|].
  split.
  { intros [(x & Hx & Hq) _]. vm_compute in Hx.
    repeat (apply elem_of_cons in Hx as [-> | Hx];
            [vm_compute in Hq; discriminate Hq|]).
    apply elem_of_nil in Hx. exact Hx. }
  split; [reflexivity|].
  intros H. vm_compute in H. discriminate H.
Qed.

(** C7. The confidence of a comparison is the bucket of the mean of
    the recency score, the fraction of the observations less than two
    hours old, and of the coverage score, the least of a third of the
    number of distinct stores and one: [high] from 0.8 on, [medium] from
    0.5 on, [low] below; a score of exactly 0.8 gives [high] and one of
    exactly 0.5 gives [medium]. *)
Theorem confidence_is_bucket_of_score
    (now : datetime) (product_name : string) (price_data : list PriceData.t) :
  price_data <> [] ->
  exists c,
    _create_price_comparison now product_name price_data = Ok (Some c)
    /\ let score := confidence_score now price_data in
       ((0.8 <= score)%Q -> PriceComparison.confidence c = high)
       /\ ((0.5 <= score)%Q -> (score < 0.8)%Q -> PriceComparison.confidence c = medium)
       /\ ((score < 0.5)%Q -> PriceComparison.confidence c = low)
       /\ ((score == 0.8)%Q -> PriceComparison.confidence c = high)
       /\ ((score == 0.5)%Q -> PriceComparison.confidence c = medium).
Proof.
  destruct price_data as [|p0 rest]; [congruence|]. intros _.
  eexists. split; [apply create_price_comparison_nonempty|].
  cbn [PriceComparison.confidence].
  set (code_score := ((recency_score now (p0 :: rest) + _) / 2)%Q).
  assert (Heq : (code_score == confidence_score now (p0 :: rest))%Q).
  { unfold code_score, confidence_score.
    rewrite (coverage_score_code (p0 :: rest)). reflexivity. }
  rewrite (bucket_respects _ _ Heq).
  destruct (bucket_cases (confidence_score now (p0 :: rest))) as (Hh & Hm & Hl).
  repeat split; intros; [apply Hh | apply Hm | apply Hl | apply Hh | apply Hm];
    try assumption; lra.
Qed.

Lemma confidence_is_bucket_of_score_witness :
  exists c,
    _create_price_comparison Sample.noon "milk" Sample.three_of_five_recent
    = Ok (Some c)
    /\ let score := confidence_score Sample.noon Sample.three_of_five_recent in
       ((0.8 <= score)%Q -> PriceComparison.confidence c = high)
       /\ ((0.5 <= score)%Q -> (score < 0.8)%Q -> PriceComparison.confidence c = medium)
       /\ ((score < 0.5)%Q -> PriceComparison.confidence c = low)
       /\ ((score == 0.8)%Q -> PriceComparison.confidence c = high)
       /\ ((score == 0.5)%Q -> PriceComparison.confidence c = medium).
Proof.
  apply (confidence_is_bucket_of_score Sample.noon "milk"
           Sample.three_of_five_recent).
  discriminate.
Defined.

(** The two boundaries, on data: three recent rows of five over three
    stores score exactly 0.8, three stale stores score exactly 0.5. *)
Example confidence_at_boundaries :
  (confidence_score Sample.noon Sample.three_of_five_recent == 0.8)%Q
  /\ (PriceComparison.confidence
        <$> Sample.comparison_of Sample.noon Sample.three_of_five_recent)
     = Some high
  /\ (confidence_score Sample.noon Sample.three_stores_stale == 0.5)%Q
  /\ (PriceComparison.confidence
        <$> Sample.comparison_of Sample.noon Sample.three_stores_stale)
     = Some medium.
Proof. vm_compute. repeat split; reflexivity. Qed.

End ComparisonClaims.

(** ** The shopping list *)

Section ShoppingList.

Import Py PriceComparisonService.

Lemma dict_get_add_store quantity c totals entry store :
  dict_get store (add_store quantity c totals entry)
  = if String.eqb store (fst entry)
    then Some (StoreTotal.mk
                 (fadd
                    (StoreTotal.total
                       (default (StoreTotal.mk 0 0 []) (dict_get (fst entry) totals)))
                    (fmul (StoreEntry.price (snd entry)) quantity))
                 (S (StoreTotal.items
                       (default (StoreTotal.mk 0 0 []) (dict_get (fst entry) totals))))
                 (StoreTotal.confidence_scores
                    (default (StoreTotal.mk 0 0 []) (dict_get (fst entry) totals))
                  ++ [confidence_value c]))
    else dict_get store totals.
Proof.
  destruct entry as [s e]. unfold add_store. rewrite dict_get_set. simpl.
  destruct (dict_get s totals); reflexivity.
Qed.

Lemma scores_of_add_store quantity c totals entry store :
  scores_of store (add_store quantity c totals entry)
  = scores_of store totals
    ++ (if String.eqb (fst entry) store then [confidence_value c] else []).
Proof.
  unfold scores_of. rewrite dict_get_add_store.
  rewrite (String.eqb_sym (fst entry) store).
  destruct (String.eqb store (fst entry)) eqn:E.
  - apply String.eqb_eq in E. subst store. simpl.
    destruct (dict_get (fst entry) totals); reflexivity.
  - rewrite app_nil_r. reflexivity.
Qed.

Lemma counted_add_store quantity c totals entry :
  counted totals -> counted (add_store quantity c totals entry).
Proof.
  intros H store data. rewrite dict_get_add_store.
  destruct (String.eqb store (fst entry)); [|apply H].
  intros [= <-]. simpl. rewrite length_app. simpl.
  destruct (dict_get (fst entry) totals) as [d|] eqn:E; simpl.
  - destruct (H _ _ E) as [-> _]. split; [lia|].
    intros Hnil. apply app_eq_nil in Hnil as [_ Hnil]. discriminate.
  - split; [reflexivity | discriminate].
Qed.

Lemma NoDup_keys_add_store quantity c totals entry :
  NoDup (keys totals) -> NoDup (keys (add_store quantity c totals entry)).
Proof.
  destruct entry as [s e]. unfold add_store. apply NoDup_keys_dict_set.
Qed.

Lemma fold_add_store quantity c entries : forall totals,
  let totals' := fold_left (add_store quantity c) entries totals in
  (forall store,
     scores_of store totals'
     = scores_of store totals
       ++ map (fun _ => confidence_value c)
            (List.filter (fun entry => String.eqb (fst entry) store) entries))
  /\ (counted totals -> counted totals')
  /\ (NoDup (keys totals) -> NoDup (keys totals')).
Proof.
  induction entries as [|entry entries IH]; intros totals; simpl.
  - split; [intros store; rewrite app_nil_r; reflexivity | tauto].
  - destruct (IH (add_store quantity c totals entry)) as (Hs & Hc & Hn).
    split; [|split].
    + intros store. rewrite Hs, scores_of_add_store, <- app_assoc.
      destruct (String.eqb (fst entry) store); reflexivity.
    + intros H. apply Hc, counted_add_store, H.
    + intros H. apply Hn, NoDup_keys_add_store, H.
Qed.

Lemma line_step_spec comparisons acc line :
  let acc' := line_step comparisons acc line in
  (forall store,
     scores_of store (store_totals acc')
     = scores_of store (store_totals acc) ++ line_weights comparisons store line)
  /\ (counted (store_totals acc) -> counted (store_totals acc'))
  /\ (NoDup (keys (store_totals acc)) -> NoDup (keys (store_totals acc')))
  /\ items_found acc'
     = (items_found acc
        + if bool_decide (is_Some (dict_get (ShoppingItem.item line) comparisons))
          then 1 else 0)%nat.
Proof.
  unfold line_step, line_weights.
  destruct (dict_get (ShoppingItem.item line) comparisons) as [c|]; simpl.
  - destruct (fold_add_store (default 1%Q (ShoppingItem.quantity line))
                (PriceComparison.confidence c)
                (PriceComparison.price_by_store c) (store_totals acc))
      as (Hs & Hc & Hn).
    split; [exact Hs|]. split; [exact Hc|]. split; [exact Hn | lia].
  - split; [|split; [tauto|split; [tauto|lia]]].
    intros store. rewrite app_nil_r. reflexivity.
Qed.

Lemma fold_line_step comparisons shopping_list : forall acc,
  let acc' := fold_left (line_step comparisons) shopping_list acc in
  (forall store,
     scores_of store (store_totals acc')
     = scores_of store (store_totals acc)
       ++ store_weights shopping_list comparisons store)
  /\ (counted (store_totals acc) -> counted (store_totals acc'))
  /\ (NoDup (keys (store_totals acc)) -> NoDup (keys (store_totals acc')))
  /\ items_found acc'
     = (items_found acc + resolved_lines shopping_list comparisons)%nat.
Proof.
  induction shopping_list as [|line shopping_list IH]; intros acc; simpl.
  - split; [|split; [tauto|split; [tauto|]]].
    + intros store. rewrite app_nil_r. reflexivity.
    + unfold resolved_lines. simpl. lia.
  - destruct (IH (line_step comparisons acc line)) as (Hs & Hc & Hn & Hi).
    destruct (line_step_spec comparisons acc line) as (Hs1 & Hc1 & Hn1 & Hi1).
    split; [|split; [|split]].
    + intros store. rewrite Hs, Hs1, <- app_assoc. reflexivity.
    + intros H. apply Hc, Hc1, H.
    + intros H. apply Hn, Hn1, H.
    + rewrite Hi, Hi1. unfold resolved_lines. simpl.
      destruct (bool_decide _); simpl; lia.
Qed.

(** The accumulation loop: for each store, the confidence values in the
    order of the lines; as many items as values; the resolved lines. *)
Lemma accumulate_spec shopping_list comparisons :
  let acc := accumulate shopping_list comparisons in
  (forall store,
     scores_of store (store_totals acc)
     = store_weights shopping_list comparisons store)
  /\ counted (store_totals acc)
  /\ NoDup (keys (store_totals acc))
  /\ items_found acc = resolved_lines shopping_list comparisons.
Proof.
  destruct (fold_line_step comparisons shopping_list (mk_totals [] 0 0))
    as (Hs & Hc & Hn & Hi).
  split; [|split; [|split]].
  - intros store. apply (Hs store).
  - apply Hc. intros store data H. discriminate H.
  - apply Hn. apply NoDup_nil. exact I.
  - exact Hi.
Qed.

Lemma best_step_spec items_found seen best entry :
  best_so_far items_found seen best ->
  best_so_far items_found (seen ++ [entry]) (best_step items_found best entry).
Proof.
  destruct entry as [s d]. destruct best as [[b|] [t|]]; simpl; try contradiction.
  - intros (data & Hin & -> & Hcov & Hmin). unfold below.
    destruct (Qltb (StoreTotal.total d) (StoreTotal.total data)) eqn:Elt;
      destruct (covers items_found d) eqn:Ec; simpl.
    + apply Qltb_true in Elt. exists d.
      split; [apply elem_of_app; right; left|]. split; [reflexivity|].
      split; [exact Ec|]. intros s' d' Hin' Hc'.
      apply elem_of_app in Hin' as [Hin' | Hin'].
      * specialize (Hmin s' d' Hin' Hc'). lra.
      * apply list_elem_of_singleton in Hin'. injection Hin' as -> ->. lra.
    + exists data. split; [apply elem_of_app; left; exact Hin|].
      split; [reflexivity|]. split; [exact Hcov|]. intros s' d' Hin' Hc'.
      apply elem_of_app in Hin' as [Hin' | Hin'].
      * apply (Hmin s' d' Hin' Hc').
      * apply list_elem_of_singleton in Hin'. injection Hin' as -> ->. congruence.
    + apply Qltb_false in Elt. exists data.
      split; [apply elem_of_app; left; exact Hin|].
      split; [reflexivity|]. split; [exact Hcov|]. intros s' d' Hin' Hc'.
      apply elem_of_app in Hin' as [Hin' | Hin'].
      * apply (Hmin s' d' Hin' Hc').
      * apply list_elem_of_singleton in Hin'. injection Hin' as -> ->. exact Elt.
    + exists data. split; [apply elem_of_app; left; exact Hin|].
      split; [reflexivity|]. split; [exact Hcov|]. intros s' d' Hin' Hc'.
      apply elem_of_app in Hin' as [Hin' | Hin'].
      * apply (Hmin s' d' Hin' Hc').
      * apply list_elem_of_singleton in Hin'. injection Hin' as -> ->. congruence.
  - intros Hnone. destruct (covers items_found d) eqn:Ec; simpl.
    + exists d. split; [apply elem_of_app; right; left|]. split; [reflexivity|].
      split; [exact Ec|]. intros s' d' Hin' Hc'.
      apply elem_of_app in Hin' as [Hin' | Hin'].
      * rewrite (Hnone s' d' Hin') in Hc'. discriminate.
      * apply list_elem_of_singleton in Hin'. injection Hin' as -> ->. apply Qle_refl.
    + intros s' d' Hin'. apply elem_of_app in Hin' as [Hin' | Hin'].
      * apply (Hnone s' d' Hin').
      * apply list_elem_of_singleton in Hin'. injection Hin' as -> ->. exact Ec.
Qed.

Lemma fold_best_step items_found entries : forall seen best,
  best_so_far items_found seen best ->
  best_so_far items_found (seen ++ entries)
    (fold_left (best_step items_found) entries best).
Proof.
  induction entries as [|entry entries IH]; intros seen best H; simpl.
  - rewrite app_nil_r. exact H.
  - replace (seen ++ entry :: entries) with ((seen ++ [entry]) ++ entries)
      by (rewrite <- app_assoc; reflexivity).
    apply IH, best_step_spec, H.
Qed.

Lemma find_best_store_spec totals items_found :
  best_so_far items_found totals (find_best_store totals items_found).
Proof.
  apply (fold_best_step items_found totals [] (None, None)).
  intros store data H. apply elem_of_nil in H. contradiction.
Qed.

Lemma dict_get_summarize store totals :
  dict_get store (map summarize totals)
  = option_map
      (fun data =>
         StoreSummary.mk (round (StoreTotal.total data) 2) (StoreTotal.items data)
           (store_confidence (StoreTotal.confidence_scores data)))
      (dict_get store totals).
Proof.
  induction totals as [|[s d] totals IH]; simpl; [reflexivity|].
  destruct (String.eqb store s); [reflexivity | exact IH].
Qed.

(** What [shopping_list_comparison] returns when it returns. *)
Lemma shopping_list_comparison_returns shopping_list comparisons r :
  shopping_list_comparison shopping_list comparisons = Ok r ->
  let acc := accumulate shopping_list comparisons in
  Optimization.best_store r
  = fst (find_best_store (store_totals acc) (items_found acc))
  /\ Optimization.store_comparisons r = map summarize (store_totals acc)
  /\ Optimization.items_compared r = items_found acc
  /\ Optimization.total_items r = length shopping_list.
Proof.
  unfold shopping_list_comparison.
  destruct (find_best_store _ _) as [best_store best_total].
  destruct (fdiv _ _); simpl; [|discriminate].
  intros [= <-]. simpl. repeat split; reflexivity.
Qed.

Lemma covers_iff items_found data :
  covers items_found data = true
  <-> (inject_Z (Z.of_nat items_found) * 0.7
       <= inject_Z (Z.of_nat (StoreTotal.items data)))%Q.
Proof. unfold covers. apply Qle_bool_iff. Qed.

Lemma store_confidence_cases (x : Q) (xs : list Q) :
  let avg := mean x xs in
  ((float 0.8 <= avg)%Q -> store_confidence (x :: xs) = high)
  /\ ((float 0.6 <= avg)%Q -> (avg < float 0.8)%Q
      -> store_confidence (x :: xs) = medium)
  /\ ((avg < float 0.6)%Q -> store_confidence (x :: xs) = low).
Proof.
  intros avg. unfold store_confidence. fold avg.
  assert (Hthresholds : (float 0.6 < float 0.8)%Q) by (vm_compute; reflexivity).
  set (upper := float 0.8) in *. set (lower := float 0.6) in *.
  destruct (Qle_bool upper avg) eqn:E1;
    [apply Qle_bool_iff in E1
    | apply not_true_iff_false in E1; rewrite Qle_bool_iff in E1];
  (destruct (Qle_bool lower avg) eqn:E2;
    [apply Qle_bool_iff in E2
    | apply not_true_iff_false in E2; rewrite Qle_bool_iff in E2]);
  repeat split; intros; try reflexivity; exfalso; lra.
Qed.

End ShoppingList.

(** ** Claims on the shopping list *)

Section ShoppingListClaims.

Import Py PriceComparisonService.

(** C1, where the code departs from it.  On the empty shopping list
    [get_shopping_list_comparison] raises [ZeroDivisionError], whatever
    the collaborators are: the coverage divides by the length of the
    list. *)
Theorem empty_shopping_list_raises {World PriceResult : Type}
    (clock : World -> datetime)
    (_get_cached_prices : string -> option (list string) -> M (list PriceData.t))
    (scrape_product_prices : list string -> list string -> M (list PriceResult))
    (save_price_data : list PriceResult -> M Z)
    (w : World) :
  get_shopping_list_comparison clock _get_cached_prices scrape_product_prices
    save_price_data [] w
  = (w, Raise ZeroDivisionError).
Proof. reflexivity. Qed.

(** C6. The best store, when there is one, is a store of the running
    totals whose count of matched items is at least 70% of the number
    of lines with a comparison, and whose total is the least among the
    stores that reach that floor; a store below the floor is not the
    best store. *)
Theorem best_store_meets_coverage_floor
    (shopping_list : list ShoppingItem.t) (comparisons : dict PriceComparison.t)
    (r : Optimization.t) :
  shopping_list_comparison shopping_list comparisons = Ok r ->
  let acc := accumulate shopping_list comparisons in
  let floor :=
    (inject_Z (Z.of_nat (resolved_lines shopping_list comparisons)) * 0.7)%Q in
  Optimization.items_compared r = resolved_lines shopping_list comparisons
  /\ (forall store, Optimization.best_store r = Some store ->
        exists data,
          dict_get store (store_totals acc) = Some data
          /\ StoreTotal.items data
             = length (store_weights shopping_list comparisons store)
          /\ (floor <= inject_Z (Z.of_nat (StoreTotal.items data)))%Q
          /\ forall store' data',
               dict_get store' (store_totals acc) = Some data' ->
               (floor <= inject_Z (Z.of_nat (StoreTotal.items data')))%Q ->
               (StoreTotal.total data <= StoreTotal.total data')%Q)
  /\ (forall store data,
        dict_get store (store_totals acc) = Some data ->
        (inject_Z (Z.of_nat (StoreTotal.items data)) < floor)%Q ->
        Optimization.best_store r <> Some store).
Proof.
  intros Hr acc floor.
  destruct (shopping_list_comparison_returns _ _ _ Hr) as (Hbest & _ & Hitems & _).
  destruct (accumulate_spec shopping_list comparisons) as (Hs & Hc & Hn & Hi).
  fold acc in Hbest, Hitems, Hs, Hc, Hn, Hi.
  assert (Hfloor : forall data,
             covers (items_found acc) data = true
             <-> (floor <= inject_Z (Z.of_nat (StoreTotal.items data)))%Q).
  { intros data. rewrite covers_iff, Hi. reflexivity. }
  assert (Hfirst : forall store, Optimization.best_store r = Some store ->
    exists data,
      dict_get store (store_totals acc) = Some data
      /\ StoreTotal.items data
         = length (store_weights shopping_list comparisons store)
      /\ (floor <= inject_Z (Z.of_nat (StoreTotal.items data)))%Q
      /\ forall store' data',
           dict_get store' (store_totals acc) = Some data' ->
           (floor <= inject_Z (Z.of_nat (StoreTotal.items data')))%Q ->
           (StoreTotal.total data <= StoreTotal.total data')%Q).
  { intros store Hstore. rewrite Hbest in Hstore.
    pose proof (find_best_store_spec (store_totals acc) (items_found acc)) as Hspec.
    destruct (find_best_store (store_totals acc) (items_found acc)) as [[b|] [t|]];
      simpl in Hstore, Hspec; try discriminate; try contradiction.
    injection Hstore as ->.
    destruct Hspec as (data & Hin & _ & Hcov & Hmin).
    exists data. apply (elem_dict_get _ _ _ Hn) in Hin.
    split; [exact Hin|]. split; [|split].
    - destruct (Hc _ _ Hin) as [-> _]. rewrite <- Hs. unfold scores_of.
      rewrite Hin. reflexivity.
    - apply Hfloor, Hcov.
    - intros store' data' Hin' Hcov'. apply (Hmin store' data').
      + apply dict_get_elem, Hin'.
      + apply Hfloor, Hcov'. }
  split; [rewrite Hitems; exact Hi|]. split; [exact Hfirst|].
  intros store data Hin Hlow Hstore.
  destruct (Hfirst store Hstore) as (data0 & Hin0 & _ & Hge & _).
  rewrite Hin in Hin0. injection Hin0 as <-. lra.
Qed.

Lemma best_store_meets_coverage_floor_witness :
  exists r,
    let shopping_list := Sample.milk_and_bread_list in
    let comparisons := Sample.half_covered in
    let acc := accumulate shopping_list comparisons in
    let floor :=
      (inject_Z (Z.of_nat (resolved_lines shopping_list comparisons)) * 0.7)%Q in
    shopping_list_comparison shopping_list comparisons = Ok r
    /\ Optimization.items_compared r = resolved_lines shopping_list comparisons
    /\ (forall store, Optimization.best_store r = Some store ->
          exists data,
            dict_get store (store_totals acc) = Some data
            /\ StoreTotal.items data
               = length (store_weights shopping_list comparisons store)
            /\ (floor <= inject_Z (Z.of_nat (StoreTotal.items data)))%Q
            /\ forall store' data',
                 dict_get store' (store_totals acc) = Some data' ->
                 (floor <= inject_Z (Z.of_nat (StoreTotal.items data')))%Q ->
                 (StoreTotal.total data <= StoreTotal.total data')%Q)
    /\ (forall store data,
          dict_get store (store_totals acc) = Some data ->
          (inject_Z (Z.of_nat (StoreTotal.items data)) < floor)%Q ->
          Optimization.best_store r <> Some store).
Proof.
  eexists. split; [vm_compute; reflexivity|].
  apply (best_store_meets_coverage_floor Sample.milk_and_bread_list
           Sample.half_covered).
  vm_compute. reflexivity.
Defined.

(** A store that covers one line of two at the lowest total is passed
    over for the store that covers both. *)
Example half_coverage_is_not_best :
  exists r target walmart,
    shopping_list_comparison Sample.milk_and_bread_list Sample.half_covered = Ok r
    /\ dict_get "target" (Optimization.store_comparisons r) = Some target
    /\ dict_get "walmart" (Optimization.store_comparisons r) = Some walmart
    /\ StoreSummary.items_found target = 1%nat
    /\ Optimization.items_compared r = 2%nat
    /\ (StoreSummary.total target < StoreSummary.total walmart)%Q
    /\ Optimization.best_store r = Some "walmart".
Proof.
  eexists _, _, _. split; [vm_compute; reflexivity|].
  split; [vm_compute; reflexivity|]. split; [vm_compute; reflexivity|].
  repeat split.
Qed.

(** C2, as the code has it.  The label of a store in the result is the
    bucket of the [statistics.mean] of the confidence values (the
    floats 1.0, 0.7, 0.4) of the comparisons that contribute to the
    store: [high] from the float 0.8 on, [medium] from the float 0.6
    on, [low] below. *)
Theorem store_label_is_bucket_of_mean
    (shopping_list : list ShoppingItem.t) (comparisons : dict PriceComparison.t)
    (r : Optimization.t) (store : string) (summary : StoreSummary.t) :
  shopping_list_comparison shopping_list comparisons = Ok r ->
  dict_get store (Optimization.store_comparisons r) = Some summary ->
  exists x xs,
    store_weights shopping_list comparisons store = x :: xs
    /\ let avg := mean x xs in
       ((float 0.8 <= avg)%Q -> StoreSummary.confidence summary = high)
       /\ ((float 0.6 <= avg)%Q -> (avg < float 0.8)%Q
           -> StoreSummary.confidence summary = medium)
       /\ ((avg < float 0.6)%Q -> StoreSummary.confidence summary = low).
Proof.
  intros Hr Hsum.
  destruct (shopping_list_comparison_returns _ _ _ Hr) as (_ & Hcmp & _).
  destruct (accumulate_spec shopping_list comparisons) as (Hs & Hc & _).
  rewrite Hcmp, dict_get_summarize in Hsum.
  destruct (dict_get store (store_totals (accumulate shopping_list comparisons)))
    as [data|] eqn:E; [|discriminate].
  injection Hsum as <-. simpl.
  specialize (Hs store). unfold scores_of in Hs. rewrite E in Hs.
  destruct (Hc _ _ E) as [_ Hne].
  destruct (StoreTotal.confidence_scores data) as [|x xs]; [congruence|].
  exists x, xs. split; [symmetry; exact Hs|]. apply store_confidence_cases.
Qed.

Lemma store_label_is_bucket_of_mean_witness :
  exists r summary x xs,
    shopping_list_comparison Sample.milk_and_bread_list Sample.milk_and_bread = Ok r
    /\ dict_get "walmart" (Optimization.store_comparisons r) = Some summary
    /\ store_weights Sample.milk_and_bread_list Sample.milk_and_bread "walmart"
       = x :: xs
    /\ let avg := mean x xs in
       ((float 0.8 <= avg)%Q -> StoreSummary.confidence summary = high)
       /\ ((float 0.6 <= avg)%Q -> (avg < float 0.8)%Q
           -> StoreSummary.confidence summary = medium)
       /\ ((avg < float 0.6)%Q -> StoreSummary.confidence summary = low).
Proof.
  eexists _, _.
  destruct (store_label_is_bucket_of_mean Sample.milk_and_bread_list
              Sample.milk_and_bread _ "walmart" _
              ltac:(vm_compute; reflexivity) ltac:(vm_compute; reflexivity))
    as (x & xs & H).
  exists x, xs. split; [vm_compute; reflexivity|].
  split; [vm_compute; reflexivity|]. exact H.
Defined.

(** C2, as stated, fails: a store with one [medium] and one [low]
    comparison has the mean 0.55, which is at least 0.5, and the label
    [low]. *)
Lemma mean_above_half_labelled_low :
  exists r summary,
    shopping_list_comparison Sample.milk_and_bread_list Sample.milk_and_bread = Ok r
    /\ dict_get "walmart" (Optimization.store_comparisons r) = Some summary
    /\ store_weights Sample.milk_and_bread_list Sample.milk_and_bread "walmart"
       = [float 0.7; float 0.4]
    /\ (0.5 <= mean_of [float 0.7; float 0.4])%Q
    /\ (mean_of [float 0.7; float 0.4] < float 0.8)%Q
    /\ StoreSummary.confidence summary = low
    /\ StoreSummary.confidence summary <> medium.
Proof.
  eexists _, _. split; [vm_compute; reflexivity|].
  split; [vm_compute; reflexivity|]. split; [vm_compute; reflexivity|].
  split; [vm_compute; discriminate|]. split; [vm_compute; reflexivity|].
  split; [reflexivity | discriminate].
Qed.

(** At the upper threshold the mean is the float that
    [statistics.mean] returns: one [high] and two [medium] values have
    the mean 0.7999999999999999, below the float 0.8, and the label is
    [medium]. *)
Example mean_just_below_threshold :
  (mean_of [float 1.0; float 0.7; float 0.7] < float 0.8)%Q
  /\ store_confidence [float 1.0; float 0.7; float 0.7] = medium.
Proof. split; vm_compute; reflexivity. Qed.

End ShoppingListClaims.

(** ** Claims on [compare_prices] *)

Section CompareClaims.

Import Py PriceComparisonService.

Context {World PriceResult : Type}.
Variable clock : World -> datetime.
Variable _get_cached_prices :
  string -> option (list string) -> M (World := World) (list PriceData.t).
Variable scrape_product_prices :
  list string -> list string -> M (World := World) (list PriceResult).
Variable save_price_data : list PriceResult -> M (World := World) Z.

Let single :=
  _compare_single_product clock _get_cached_prices scrape_product_prices
    save_price_data.
Let one :=
  compare_one clock _get_cached_prices scrape_product_prices save_price_data.
Let compare :=
  compare_prices clock _get_cached_prices scrape_product_prices save_price_data.

Lemma compare_one_cases stores force_refresh product_name comparisons w :
  match single product_name stores force_refresh w with
  | (w', Ok (Some c)) =>
      one stores force_refresh product_name comparisons w
      = (w', Ok (dict_set product_name c comparisons))
  | (w', Ok None) =>
      one stores force_refresh product_name comparisons w = (w', Ok comparisons)
  | (w', Raise e) =>
      one stores force_refresh product_name comparisons w = (w', Ok comparisons)
  end.
Proof.
  unfold one, compare_one, try_except, mbind. fold single.
  destruct (single product_name stores force_refresh w) as [w' [[c|]|e]];
    reflexivity.
Qed.

Lemma compare_one_returns stores force_refresh product_name comparisons w :
  exists w' comparisons',
    one stores force_refresh product_name comparisons w = (w', Ok comparisons')
    /\ forall q, q <> product_name ->
         dict_get q comparisons' = dict_get q comparisons.
Proof.
  pose proof (compare_one_cases stores force_refresh product_name comparisons w) as H.
  destruct (single product_name stores force_refresh w) as [w' [[c|]|e]];
    eexists _, _; (split; [exact H|]); intros q Hq;
    [apply dict_get_set_ne, Hq | reflexivity | reflexivity].
Qed.

Lemma for_each_compare_returns stores force_refresh product_names :
  forall comparisons w,
  exists w' comparisons',
    for_each product_names (one stores force_refresh) comparisons w
    = (w', Ok comparisons')
    /\ forall q, q ∉ product_names ->
         dict_get q comparisons' = dict_get q comparisons.
Proof.
  induction product_names as [|p rest IH]; intros comparisons w; simpl.
  - exists w, comparisons. split; reflexivity.
  - destruct (compare_one_returns stores force_refresh p comparisons w)
      as (w1 & c1 & H1 & Hk1).
    destruct (IH c1 w1) as (w2 & c2 & H2 & Hk2).
    exists w2, c2. split.
    + unfold mbind. rewrite H1. exact H2.
    + intros q Hq. apply not_elem_of_cons in Hq as [Hqp Hq].
      rewrite (Hk2 q Hq). apply Hk1, Hqp.
Qed.

Lemma for_each_app {X S} (xs ys : list X) (body : X -> S -> M (World := World) S)
    (s : S) (w : World) :
  for_each (xs ++ ys) body s w
  = match for_each xs body s w with
    | (w', Ok s') => for_each ys body s' w'
    | (w', Raise e) => (w', Raise e)
    end.
Proof.
  revert s w. induction xs as [|x xs IH]; intros s w; simpl.
  - reflexivity.
  - unfold mbind. destruct (body x s w) as [w1 [s1|e]]; [apply IH | reflexivity].
Qed.

(** C9. [compare_prices] returns a mapping for every batch; when the
    processing of a product raises, the loop goes on with the products
    after it from the mapping built before it, and the product, if it
    occurs only there, is absent from the result. *)
Theorem compare_prices_isolates_failures
    (stores : option (list string)) (force_refresh : bool) :
  (forall product_names w,
     exists w' comparisons,
       compare product_names stores force_refresh w = (w', Ok comparisons))
  /\ (forall before product_name after w w1 comparisons1 w2 e,
        compare before stores force_refresh w = (w1, Ok comparisons1) ->
        single product_name stores force_refresh w1 = (w2, Raise e) ->
        exists w' comparisons,
          compare (before ++ product_name :: after) stores force_refresh w
          = (w', Ok comparisons)
          /\ for_each after (one stores force_refresh) comparisons1 w2
             = (w', Ok comparisons)
          /\ (forall q, q ∉ after ->
                dict_get q comparisons = dict_get q comparisons1)
          /\ (product_name ∉ before -> product_name ∉ after ->
              dict_get product_name comparisons = None)).
Proof.
  split.
  - intros product_names w.
    destruct (for_each_compare_returns stores force_refresh product_names [] w)
      as (w' & c & H & _).
    exists w', c. exact H.
  - intros before product_name after w w1 comparisons1 w2 e Hbefore Hraise.
    destruct (for_each_compare_returns stores force_refresh after comparisons1 w2)
      as (w' & c & Hafter & Hkeys).
    exists w', c.
    assert (Hrun : compare (before ++ product_name :: after) stores force_refresh w
                   = (w', Ok c)).
    { unfold compare, compare_prices. fold one. rewrite for_each_app.
      unfold compare, compare_prices in Hbefore. fold one in Hbefore.
      rewrite Hbefore. simpl. unfold mbind.
      pose proof (compare_one_cases stores force_refresh product_name
                    comparisons1 w1) as H1.
      rewrite Hraise in H1. rewrite H1. exact Hafter. }
    split; [exact Hrun|]. split; [exact Hafter|]. split; [exact Hkeys|].
    intros Hb Ha. rewrite (Hkeys _ Ha).
    destruct (for_each_compare_returns stores force_refresh before [] w)
      as (w1' & c1' & Hb1 & Hk1).
    unfold compare, compare_prices in Hbefore. fold one in Hbefore.
    rewrite Hbefore in Hb1. injection Hb1 as <- <-.
    rewrite (Hk1 _ Hb). reflexivity.
Qed.

End CompareClaims.

Lemma compare_prices_isolates_failures_witness :
  exists w' comparisons,
    PriceComparisonService.compare_prices Sample.at_noon Sample.failing_query
      Sample.idle_scraper Sample.idle_save (["milk"] ++ "caviar" :: ["milk"; "bread"])
      None false ()
    = (w', Py.Ok comparisons)
    /\ Py.dict_get "caviar" comparisons = None
    /\ Py.keys comparisons = ["milk"].
Proof.
  destruct (compare_prices_isolates_failures Sample.at_noon Sample.failing_query
              Sample.idle_scraper Sample.idle_save None false)
    as [_ H].
  destruct (H ["milk"] "caviar" ["milk"; "bread"] () ()
              (Sample.comparison_named "milk" Sample.milk_two_stores) ()
              (Py.Exception "database is locked")
              ltac:(vm_compute; reflexivity) ltac:(vm_compute; reflexivity))
    as (w' & comparisons & Hrun & Hafter & _ & _).
  exists w', comparisons. split; [exact Hrun|].
  vm_compute in Hafter. injection Hafter as <- <-.
  split; reflexivity.
Defined.

(** ** The price table *)

Section PriceTable.

Import Py GroceryWebScraper.











(** C8, as stated, fails: when the commit raises, the save of one
    record returns 1 although the table holds the rows it held, none
    inserted and none updated. *)
Lemma failed_save_counts_unsaved_rows :
  save_price_data Sample.noon Sample.failing_commit [Sample.first_reading]
    Sample.bread_table Sample.fresh_state
  = (Sample.bread_table, Sample.fresh_state, 1%nat)
  /\ rows_for "Great Value Whole Milk" "walmart" Sample.bread_table = [].
Proof. split; reflexivity. Qed.

End PriceTable.

(** ** The request gate *)

Section Gate.

Import Py GroceryWebScraper.

Lemma td_seconds_within_day (d : timedelta) :
  (0 <= d < seconds_us 86400)%Z ->
  (td_seconds d < 600)%Z <-> (d < seconds_us 600)%Z.
Proof.
  unfold td_seconds, seconds_us. intros H.
  rewrite Z.mod_small by (split; [apply Z.div_pos; lia | apply Z.div_lt_upper_bound; lia]).
  split; intros H'.
  - apply Z.nle_gt. intros Hge. apply (Z.div_le_mono _ _ 1000000) in Hge; [|lia].
    change (600 * 1000000 / 1000000)%Z with 600%Z in Hge. lia.
  - apply Z.div_lt_upper_bound; lia.
Qed.

Lemma limited_step_full current_time cache pairs : forall acc,
  (10 <= length acc.2)%nat ->
  fold_left (limited_step current_time cache) pairs acc = acc.
Proof.
  induction pairs as [|pair pairs IH]; intros acc H; [reflexivity|].
  cbn [fold_left]. unfold limited_step at 2.
  rewrite (proj2 (Nat.leb_le _ _) H). apply IH, H.
Qed.

Lemma dedup_stores_limited current_time cache product_name store_names :
  forall active unique_requests,
  (length unique_requests < 10)%nat ->
  dedup_stores current_time cache product_name store_names active unique_requests
  = fold_left (limited_step current_time cache)
      (map (fun store_name => (product_name, store_name)) store_names)
      (active, unique_requests).
Proof.
  induction store_names as [|store_name rest IH]; intros active unique_requests Hlen;
    [reflexivity|].
  cbn [dedup_stores map fold_left].
  unfold limited_step at 2. cbn [snd].
  rewrite (proj2 (Nat.leb_gt _ _) Hlen).
  unfold gate_step, passes, pair_key. cbn [fst snd].
  destruct (bool_decide (store_name ∈ stores)); cbn [negb andb]; [|apply IH, Hlen].
  destruct (bool_decide (request_key product_name store_name ∈ active));
    cbn [negb andb]; [apply IH, Hlen|].
  destruct (recently_processed current_time cache
              (request_key product_name store_name)); cbn [negb andb];
    [apply IH, Hlen|].
  destruct (10 <=? length (unique_requests ++ [(product_name, store_name)]))%nat
    eqn:E.
  - symmetry. apply limited_step_full. cbn [snd]. apply Nat.leb_le, E.
  - apply IH. apply Nat.leb_gt, E.
Qed.

Lemma dedup_products_limited current_time cache store_names product_names :
  forall active unique_requests,
  (length unique_requests < 10)%nat ->
  dedup_products current_time cache product_names store_names active unique_requests
  = fold_left (limited_step current_time cache)
      (list_prod product_names store_names) (active, unique_requests).
Proof.
  induction product_names as [|product_name rest IH]; intros active unique_requests Hlen;
    [reflexivity|].
  cbn [dedup_products list_prod]. rewrite fold_left_app.
  rewrite (dedup_stores_limited _ _ _ _ _ _ Hlen).
  destruct (fold_left (limited_step current_time cache)
              (map (fun store_name => (product_name, store_name)) store_names)
              (active, unique_requests)) as [active1 unique1] eqn:E.
  destruct (10 <=? length unique1)%nat eqn:E10.
  - symmetry. apply limited_step_full. cbn [snd]. apply Nat.leb_le, E10.
  - apply IH. apply Nat.leb_gt, E10.
Qed.

(** The in-flight set grows by the keys of the survivors, and the
    survivors are added at the end. *)
Lemma limited_step_grows current_time cache pairs : forall acc,
  exists later,
    fold_left (limited_step current_time cache) pairs acc
    = (acc.1 ∪ list_to_set (map pair_key later), acc.2 ++ later).
Proof.
  induction pairs as [|pair pairs IH]; intros [active kept]; cbn [fold_left fst snd].
  - exists []. cbn. rewrite app_nil_r. f_equal. symmetry. apply (right_id_L ∅ (∪)).
  - destruct (IH (limited_step current_time cache (active, kept) pair))
      as (later & Hlater).
    rewrite Hlater. unfold limited_step, gate_step. cbn [fst snd].
    destruct (10 <=? length kept)%nat; [exists later; reflexivity|].
    destruct (passes current_time cache active pair); [|exists later; reflexivity].
    exists (pair :: later). cbn [fst snd map list_to_set].
    rewrite <- app_assoc. cbn [app]. f_equal. symmetry. apply (assoc_L (∪)).
Qed.

Lemma survivors_app current_time st before after :
  exists later,
    survivors current_time st (before ++ after)
    = survivors current_time st before ++ later.
Proof.
  unfold survivors. rewrite fold_left_app.
  destruct (limited_step_grows current_time (request_cache st) after
              (fold_left (limited_step current_time (request_cache st)) before
                 (active_requests st, []))) as (later & ->).
  exists later. reflexivity.
Qed.

(** What decides on a pair after the pairs [before]. *)
Lemma survivors_snoc current_time st before pair :
  let kept := survivors current_time st before in
  let key := pair_key pair in
  survivors current_time st (before ++ [pair])
  = if bool_decide (pair.2 ∈ stores)
       && bool_decide (length kept < 10)%nat
       && negb (bool_decide (key ∈ active_requests st))
       && negb (bool_decide (key ∈ map pair_key kept))
       && negb (recently_processed current_time (request_cache st) key)
    then kept ++ [pair] else kept.
Proof.
  cbv zeta. unfold survivors. rewrite fold_left_app. cbn [fold_left].
  destruct (limited_step_grows current_time (request_cache st) before
              (active_requests st, [])) as (kept & Hkept).
  rewrite Hkept. cbn [fst snd app]. unfold limited_step, gate_step, passes.
  cbn [fst snd].
  destruct (Nat.leb_spec 10 (length kept)) as [Hfull | Hroom].
  - rewrite (bool_decide_eq_false_2 (length kept < 10)%nat) by lia.
    rewrite andb_false_r. reflexivity.
  - rewrite (bool_decide_eq_true_2 (length kept < 10)%nat) by lia.
    rewrite andb_true_r.
    assert (Hin : bool_decide
                    (pair_key pair
                     ∈ active_requests st ∪ list_to_set (map pair_key kept))
                  = bool_decide (pair_key pair ∈ active_requests st)
                    || bool_decide (pair_key pair ∈ map pair_key kept)).
    { destruct (decide (pair_key pair ∈ active_requests st)) as [H1 | H1];
        destruct (decide (pair_key pair ∈ map pair_key kept)) as [H2 | H2];
        rewrite ?(bool_decide_eq_true_2 _ H1), ?(bool_decide_eq_false_2 _ H1),
          ?(bool_decide_eq_true_2 _ H2), ?(bool_decide_eq_false_2 _ H2);
        cbn [orb];
        [apply bool_decide_eq_true_2 | apply bool_decide_eq_true_2
         | apply bool_decide_eq_true_2 | apply bool_decide_eq_false_2];
        rewrite elem_of_union, elem_of_list_to_set; tauto. }
    rewrite Hin, negb_orb.
    destruct (bool_decide (pair.2 ∈ stores)); cbn [andb]; [|reflexivity].
    destruct (bool_decide (pair_key pair ∈ active_requests st)); cbn [negb andb];
      [reflexivity|].
    destruct (bool_decide (pair_key pair ∈ map pair_key kept)); cbn [negb andb];
      [reflexivity|].
    destruct (recently_processed current_time (request_cache st) (pair_key pair));
      reflexivity.
Qed.

(** [_deduplicate_requests] is the gate with its limit, run over the
    cross product in the order of the two loops. *)
Lemma deduplicate_requests_survivors current_time product_names store_names st :
  let result := _deduplicate_requests current_time product_names store_names st in
  result.2 = survivors current_time st (list_prod product_names store_names)
  /\ active_requests result.1
     = active_requests st ∪ list_to_set (map pair_key result.2)
  /\ request_cache result.1 = request_cache st.
Proof.
  cbv zeta. unfold _deduplicate_requests, survivors.
  rewrite dedup_products_limited by (cbn; lia).
  destruct (limited_step_grows current_time (request_cache st)
              (list_prod product_names store_names) (active_requests st, []))
    as (later & ->).
  cbn [fst snd app active_requests request_cache]. repeat split.
Qed.

Lemma recently_processed_iff current_time cache key :
  (forall t, cache !! key = Some t -> (0 <= current_time - t < seconds_us 86400)%Z) ->
  (recently_processed current_time cache key = true)
  <-> (exists t, cache !! key = Some t /\ (current_time - t < seconds_us 600)%Z).
Proof.
  intros Hage. unfold recently_processed.
  destruct (cache !! key) as [t|] eqn:E.
  - rewrite Z.ltb_lt, (td_seconds_within_day _ (Hage t eq_refl)). split.
    + intros H. exists t. split; [reflexivity | exact H].
    + intros (t' & [= <-] & H). exact H.
  - split; [discriminate | intros (t & Ht & _); discriminate].
Qed.

Context {World : Type}.
Variable clock : World -> datetime.
Variable scrape_product :
  string -> string -> World -> World * result (option Scraped.t).
Variable sleep : World -> World.

Let scrape := scrape_product_prices clock scrape_product sleep.

(** A first request that is fetched without error is stamped and
    released; the same request within ten minutes of the stamp is
    dropped, and nothing is fetched. *)
Lemma second_request_dropped product_name store_name w st w1 found :
  store_name ∈ stores ->
  request_key product_name store_name ∉ active_requests st ->
  recently_processed (clock w) (request_cache st)
    (request_key product_name store_name) = false ->
  scrape_product store_name product_name w = (w1, Ok found) ->
  exists st' results,
    scrape [product_name] (Some [store_name]) w st = (sleep w1, st', results)
    /\ request_cache st' !! request_key product_name store_name = Some (clock w1)
    /\ (request_key product_name store_name ∉ active_requests st')
    /\ forall w2,
         (0 <= clock w2 - clock w1 < seconds_us 600)%Z ->
         scrape [product_name] (Some [store_name]) w2 st' = (w2, st', []).
Proof.
  intros Hknown Hfree Hold Hfetch.
  set (key := request_key product_name store_name) in *.
  eexists _, _. split; [|split; [|split]].
  - unfold scrape, scrape_product_prices, _deduplicate_requests.
    cbn [default from_option id dedup_products dedup_stores]. fold key.
    rewrite (bool_decide_eq_true_2 _ Hknown), (bool_decide_eq_false_2 _ Hfree), Hold.
    cbn [negb app length Nat.leb batches take drop Nat.min max_concurrent_requests
         fold_left run_batch _process_batch process_pair fst snd].
    fold key. rewrite (bool_decide_eq_true_2 _ Hknown). cbn [negb].
    rewrite Hfetch. cbn [fold_left fst snd]. reflexivity.
  - cbn. apply lookup_insert_eq.
  - cbn. rewrite elem_of_difference, elem_of_singleton. tauto.
  - intros w2 Hw2.
    unfold scrape, scrape_product_prices, _deduplicate_requests.
    cbn [default from_option id dedup_products dedup_stores active_requests
         request_cache discard stamp]. fold key.
    rewrite (bool_decide_eq_true_2 _ Hknown). cbn [negb].
    rewrite bool_decide_eq_false_2
      by (rewrite elem_of_difference, elem_of_singleton; tauto).
    unfold recently_processed. rewrite lookup_insert_eq.
    assert (Hrecent : (td_seconds (clock w2 - clock w1) <? 600)%Z = true).
    { apply Z.ltb_lt, td_seconds_within_day; unfold seconds_us in *; lia. }
    rewrite Hrecent. cbn [Nat.leb length]. reflexivity.
Qed.

(** C4, as the code has it.  The surviving pairs are the pairs of the
    cross product, taken product by product and store by store, that
    are let through.  A pair is let through exactly when its store is
    known, fewer than ten pairs of the call were let through before it,
    its key was not in flight before the call, no pair let through
    before it has its key, and it was not processed recently; the keys
    of the surviving pairs are marked in flight.  For a last processing
    less than a day old, recently means less than ten minutes ago.  A
    request fetched without error is stamped and released, and the same
    request within ten minutes of the stamp is dropped without a
    fetch. *)
Theorem gate_drops_in_flight_or_recent :
  (forall current_time product_names store_names st,
     let requests := list_prod product_names store_names in
     let result := _deduplicate_requests current_time product_names store_names st in
     result.2 = survivors current_time st requests
     /\ active_requests result.1
        = active_requests st ∪ list_to_set (map pair_key result.2)
     /\ forall before pair after,
          requests = before ++ pair :: after ->
          let kept := survivors current_time st before in
          (exists later,
             result.2 = survivors current_time st (before ++ [pair]) ++ later)
          /\ (let_through current_time st kept pair ->
              survivors current_time st (before ++ [pair]) = kept ++ [pair])
          /\ (~ let_through current_time st kept pair ->
              survivors current_time st (before ++ [pair]) = kept)
          /\ ((forall t, request_cache st !! pair_key pair = Some t ->
                         (0 <= current_time - t < seconds_us 86400)%Z) ->
              recently_processed current_time (request_cache st) (pair_key pair)
              = true
              <-> exists t, request_cache st !! pair_key pair = Some t
                            /\ (current_time - t < seconds_us 600)%Z))
  /\ (forall product_name store_name w st w1 found,
        store_name ∈ stores ->
        request_key product_name store_name ∉ active_requests st ->
        recently_processed (clock w) (request_cache st)
          (request_key product_name store_name) = false ->
        scrape_product store_name product_name w = (w1, Ok found) ->
        exists st' results,
          scrape [product_name] (Some [store_name]) w st = (sleep w1, st', results)
          /\ request_cache st' !! request_key product_name store_name
             = Some (clock w1)
          /\ (request_key product_name store_name ∉ active_requests st')
          /\ forall w2,
               (0 <= clock w2 - clock w1 < seconds_us 600)%Z ->
               scrape [product_name] (Some [store_name]) w2 st' = (w2, st', [])).
Proof.
  split; [|apply second_request_dropped].
  intros current_time product_names store_names st. cbv zeta.
  destruct (deduplicate_requests_survivors current_time product_names store_names st)
    as (Hresult & Hactive & _).
  split; [exact Hresult|]. split; [exact Hactive|].
  intros before pair after Hsplit.
  pose proof (survivors_snoc current_time st before pair) as Hsnoc. cbv zeta in Hsnoc.
  split; [|split; [|split]].
  - rewrite Hresult, Hsplit.
    change (before ++ pair :: after) with (before ++ [pair] ++ after).
    rewrite app_assoc. apply survivors_app.
  - intros (Hknown & Hroom & Hfree & Hnew & Hold). rewrite Hsnoc.
    rewrite (bool_decide_eq_true_2 _ Hknown), (bool_decide_eq_true_2 _ Hroom),
      (bool_decide_eq_false_2 _ Hfree), (bool_decide_eq_false_2 _ Hnew), Hold.
    reflexivity.
  - intros Hnot. rewrite Hsnoc.
    destruct (bool_decide (pair.2 ∈ stores)) eqn:E1; cbn [andb]; [|reflexivity].
    destruct (bool_decide (length (survivors current_time st before) < 10)%nat)
      eqn:E2; cbn [andb]; [|reflexivity].
    destruct (bool_decide (pair_key pair ∈ active_requests st)) eqn:E3;
      cbn [negb andb]; [reflexivity|].
    destruct (bool_decide (pair_key pair
                           ∈ map pair_key (survivors current_time st before)))
      eqn:E4; cbn [negb andb]; [reflexivity|].
    destruct (recently_processed current_time (request_cache st) (pair_key pair))
      eqn:E5; cbn [negb]; [reflexivity|].
    exfalso. apply Hnot.
    apply bool_decide_eq_true in E1, E2. apply bool_decide_eq_false in E3, E4.
    repeat split; assumption.
  - intros Hage. apply recently_processed_iff, Hage.
Qed.

End Gate.

(** On data: the first pair of a call that reaches the limit is let
    through, and a pair processed five minutes ago is dropped after a
    pair that was let through. *)
Lemma gate_drops_in_flight_or_recent_witness :
  (exists later,
     (GroceryWebScraper._deduplicate_requests Sample.noon Sample.four_products
        GroceryWebScraper.stores Sample.fresh_state).2
     = [("milk"%string, "walmart"%string)] ++ later)
  /\ survivors Sample.noon Sample.bread_just_processed
       [("milk"%string, "walmart"%string); ("bread"%string, "walmart"%string)]
     = [("milk"%string, "walmart"%string)].
Proof.
  destruct (gate_drops_in_flight_or_recent Sample.read_clock Sample.ticking_scraper
              Sample.one_second) as [H _].
  split.
  - destruct (H Sample.noon Sample.four_products GroceryWebScraper.stores
                Sample.fresh_state) as (_ & _ & Hat).
    destruct (Hat [] ("milk"%string, "walmart"%string) _ eq_refl)
      as ((later & Hlater) & Hkept & _).
    exists later. rewrite Hlater. rewrite Hkept; [reflexivity|].
    split; [apply (bool_decide_unpack _); vm_compute; exact I|].
    split; [cbn; lia|].
    split; [apply not_elem_of_empty|].
    split; [apply not_elem_of_nil | reflexivity].
  - destruct (H Sample.noon ["milk"; "bread"]%string ["walmart"]%string
                Sample.bread_just_processed) as (_ & _ & Hat).
    destruct (Hat [("milk"%string, "walmart"%string)]
                ("bread"%string, "walmart"%string) [] eq_refl)
      as (_ & _ & Hdropped & _).
    change [("milk"%string, "walmart"%string); ("bread"%string, "walmart"%string)]
      with ([("milk"%string, "walmart"%string)] ++ [("bread"%string, "walmart"%string)]).
    rewrite Hdropped; [vm_compute; reflexivity|].
    intros (_ & _ & _ & _ & Hold). vm_compute in Hold. discriminate Hold.
Defined.

(** C4, as stated, fails.  A pair whose store the scraper does not know
    is dropped although its key is neither in flight nor stamped; and of
    the twelve pairs of four products and three stores only ten
    survive, the last two being dropped without being in flight or
    stamped. *)
Lemma gate_drops_unknown_store_and_overflow :
  (exists st',
     GroceryWebScraper._deduplicate_requests Sample.noon ["milk"] ["aldi"]
       Sample.fresh_state
     = (st', [])
     /\ ("milk_aldi"%string ∉ GroceryWebScraper.active_requests Sample.fresh_state)
     /\ GroceryWebScraper.request_cache Sample.fresh_state !! "milk_aldi"%string = None)
  /\ (exists st' unique_requests,
        GroceryWebScraper._deduplicate_requests Sample.noon Sample.four_products
          GroceryWebScraper.stores Sample.fresh_state
        = (st', unique_requests)
        /\ length unique_requests = 10%nat
        /\ (("rice"%string, "kroger"%string) ∉ unique_requests)
        /\ ("rice_kroger"%string ∉ GroceryWebScraper.active_requests Sample.fresh_state)
        /\ GroceryWebScraper.request_cache Sample.fresh_state !! "rice_kroger"%string
           = None).
Proof.
  split.
  - eexists. split; [vm_compute; reflexivity|].
    split; [apply not_elem_of_empty | reflexivity].
  - eexists _, _. split; [vm_compute; reflexivity|].
    split; [reflexivity|].
    split; [apply (bool_decide_unpack _); vm_compute; exact I|].
    split; [apply not_elem_of_empty | reflexivity].
Qed.

(** The stamp of a request is compared by the seconds of its age, the
    days being left out: a stamp a day and five minutes old drops the
    pair as one of five minutes does. *)
Example day_old_stamp_drops_pair :
  exists st',
    GroceryWebScraper._deduplicate_requests Sample.noon ["bread"] ["walmart"]
      Sample.bread_processed_yesterday
    = (st', []).
Proof. eexists. vm_compute. reflexivity. Qed.

(** * Further properties of the scraper *)

(** ** What the request gate always keeps *)

Section GateInvariants.

Import Py GroceryWebScraper.

Variable current_time : datetime.
Variable cache : gmap string datetime.
Variable active0 : gset string.

(** The state of the two loops of [_deduplicate_requests]: the keys in
    flight are the initial ones and those of the pairs kept so far, which
    are distinct, of known stores, not in flight before and not recently
    processed; at most ten pairs are kept. *)
Let kept_well (acc : gset string * list (string * string)) : Prop :=
  acc.1 = active0 ∪ list_to_set (map pair_key acc.2)
  /\ NoDup (map pair_key acc.2)
  /\ (forall pair, pair ∈ acc.2 ->
        pair.2 ∈ stores
        /\ (pair_key pair ∉ active0)
        /\ recently_processed current_time cache (pair_key pair) = false)
  /\ (length acc.2 <= 10)%nat.

Lemma dedup_stores_kept_well (Q : string * string -> Prop) (product_name : string)
    (store_names : list string) :
  forall active unique_requests,
  kept_well (active, unique_requests) ->
  (length unique_requests < 10)%nat ->
  (forall pair, pair ∈ unique_requests -> Q pair) ->
  (forall store_name, store_name ∈ store_names -> Q (product_name, store_name)) ->
  let acc := dedup_stores current_time cache product_name store_names
               active unique_requests in
  kept_well acc /\ forall pair, pair ∈ acc.2 -> Q pair.
Proof.
  induction store_names as [|store_name rest IH];
    intros active unique_requests Hwell Hlen HQ Hnew.
  - split; [exact Hwell | exact HQ].
  - assert (Hrest : forall s, s ∈ rest -> Q (product_name, s))
      by (intros s Hs; apply Hnew; right; exact Hs).
    cbn [dedup_stores].
    destruct (bool_decide (store_name ∈ stores)) eqn:Eknown; cbn [negb];
      [|apply IH; assumption].
    destruct (bool_decide (request_key product_name store_name ∈ active)) eqn:Eactive;
      [apply IH; assumption|].
    destruct (recently_processed current_time cache
                (request_key product_name store_name)) eqn:Erecent;
      [apply IH; assumption|].
    apply bool_decide_eq_true in Eknown. apply bool_decide_eq_false in Eactive.
    destruct Hwell as (Hact & Hnd & Hall & _). cbn [fst snd] in Hact, Hnd, Hall.
    assert (Hfresh : (request_key product_name store_name ∉ active0)
                     /\ (request_key product_name store_name
                         ∉ map pair_key unique_requests)).
    { rewrite Hact, elem_of_union, elem_of_list_to_set in Eactive. tauto. }
    assert (Hwell' : kept_well (active ∪ {[request_key product_name store_name]},
                                unique_requests ++ [(product_name, store_name)])).
    { split; [|split; [|split]]; cbn [fst snd].
      - rewrite map_app, list_to_set_app_L, Hact. cbn [map pair_key fst snd].
        rewrite list_to_set_cons, list_to_set_nil, (right_id_L ∅ (∪)).
        symmetry. apply (assoc_L (∪)).
      - rewrite map_app. apply NoDup_app. split; [exact Hnd|]. split.
        + intros k Hk Hk'. apply list_elem_of_singleton in Hk'. subst k.
          apply Hfresh, Hk.
        + apply NoDup_singleton.
      - intros pair Hpair. apply elem_of_app in Hpair as [Hpair | Hpair];
          [apply Hall, Hpair|].
        apply list_elem_of_singleton in Hpair. subst pair. cbn [fst snd pair_key].
        split; [exact Eknown|]. split; [apply Hfresh | exact Erecent].
      - rewrite length_app. simpl. lia. }
    assert (HQ' : forall pair,
               pair ∈ unique_requests ++ [(product_name, store_name)] -> Q pair).
    { intros pair Hpair. apply elem_of_app in Hpair as [Hpair | Hpair];
        [apply HQ, Hpair|].
      apply list_elem_of_singleton in Hpair. subst pair. apply Hnew. left. }
    destruct (10 <=? length (unique_requests ++ [(product_name, store_name)]))%nat
      eqn:E10.
    + split; [exact Hwell' | exact HQ'].
    + apply IH; try assumption. apply Nat.leb_gt, E10.
Qed.

Lemma dedup_products_kept_well (store_names all_products product_names : list string) :
  forall active unique_requests,
  kept_well (active, unique_requests) ->
  (length unique_requests < 10)%nat ->
  (forall pair, pair ∈ unique_requests ->
     pair.1 ∈ all_products /\ pair.2 ∈ store_names) ->
  (forall product_name, product_name ∈ product_names -> product_name ∈ all_products) ->
  let acc := dedup_products current_time cache product_names store_names
               active unique_requests in
  kept_well acc
  /\ forall pair, pair ∈ acc.2 -> pair.1 ∈ all_products /\ pair.2 ∈ store_names.
Proof.
  induction product_names as [|product_name rest IH];
    intros active unique_requests Hwell Hlen HQ Hsub.
  - split; [exact Hwell | exact HQ].
  - cbn [dedup_products].
    destruct (dedup_stores_kept_well
                (fun pair => pair.1 ∈ all_products /\ pair.2 ∈ store_names)
                product_name store_names active unique_requests Hwell Hlen HQ)
      as [Hwell1 HQ1].
    { intros s Hs. split; [apply Hsub; left | exact Hs]. }
    destruct (dedup_stores current_time cache product_name store_names
                active unique_requests) as [active1 unique1].
    destruct (10 <=? length unique1)%nat eqn:E10.
    + split; [exact Hwell1 | exact HQ1].
    + apply IH; try assumption.
      * apply Nat.leb_gt, E10.
      * intros p Hp. apply Hsub. right. exact Hp.
Qed.

End GateInvariants.

Section ScraperInvariants.

Import Py GroceryWebScraper.

Lemma deduplicate_requests_gate
    (current_time : datetime) (product_names store_names : list string) (st : state) :
  let st' := (_deduplicate_requests current_time product_names store_names st).1 in
  let unique_requests :=
    (_deduplicate_requests current_time product_names store_names st).2 in
  (length unique_requests <= 10)%nat
  /\ NoDup (map pair_key unique_requests)
  /\ (forall pair, pair ∈ unique_requests ->
        pair.1 ∈ product_names
        /\ pair.2 ∈ store_names
        /\ pair.2 ∈ stores
        /\ (pair_key pair ∉ active_requests st)
        /\ recently_processed current_time (request_cache st) (pair_key pair) = false)
  /\ active_requests st' = active_requests st ∪ list_to_set (map pair_key unique_requests)
  /\ request_cache st' = request_cache st.
Proof.
  unfold _deduplicate_requests.
  destruct (dedup_products_kept_well current_time (request_cache st)
              (active_requests st) store_names product_names product_names
              (active_requests st) [])
    as [(Hact & Hnd & Hall & Hlen) HQ].
  - split; [|split; [|split]]; cbn [fst snd map length].
    + rewrite list_to_set_nil, (right_id_L ∅ (∪)). reflexivity.
    + apply NoDup_nil. exact I.
    + intros pair Hpair. apply elem_of_nil in Hpair. contradiction.
    + lia.
  - simpl. lia.
  - intros pair Hpair. apply elem_of_nil in Hpair. contradiction.
  - tauto.
  - destruct (dedup_products current_time (request_cache st) product_names store_names
                (active_requests st) []) as [active unique_requests].
    cbn [fst snd] in *. split; [exact Hlen|]. split; [exact Hnd|].
    split; [|split; [exact Hact | reflexivity]].
    intros pair Hpair. destruct (HQ pair Hpair). destruct (Hall pair Hpair) as (? & ? & ?).
    repeat split; assumption.
Qed.

(** X1. Whatever is requested, [_deduplicate_requests] keeps at most ten
    pairs, no two with the same key, each of them a requested product
    at a requested store that the scraper knows, whose key was not in
    flight and not recently processed; it marks exactly their keys in
    flight and leaves the stamps alone. *)
Theorem deduplicate_requests_keeps_gate
    (current_time : datetime) (product_names store_names : list string) (st : state) :
  let st' := (_deduplicate_requests current_time product_names store_names st).1 in
  let unique_requests :=
    (_deduplicate_requests current_time product_names store_names st).2 in
  (length unique_requests <= 10)%nat
  /\ NoDup (map pair_key unique_requests)
  /\ (forall pair, pair ∈ unique_requests ->
        pair.1 ∈ product_names
        /\ pair.2 ∈ store_names
        /\ pair.2 ∈ stores
        /\ (pair_key pair ∉ active_requests st)
        /\ recently_processed current_time (request_cache st) (pair_key pair) = false)
  /\ active_requests st' = active_requests st ∪ list_to_set (map pair_key unique_requests)
  /\ request_cache st' = request_cache st.
Proof. apply deduplicate_requests_gate. Qed.

End ScraperInvariants.

(** ** Fetching in batches *)

Section Batches.

Import Py GroceryWebScraper.

#[local] Set Warnings "-clear-no-such-hyp".

Context {World : Type}.
Variable clock : World -> datetime.
Variable scrape_product :
  string -> string -> World -> World * result (option Scraped.t).
Variable sleep : World -> World.

Let process := process_pair clock scrape_product sleep.
Let run := run_batch clock scrape_product sleep.

(** One pair: the in-flight set changes at most by the key of the pair,
    at most one record is added, and it carries the product searched. *)
Lemma process_pair_effect w st results pair :
  let '(w', st', results') := process (w, st, results) pair in
  active_requests st' ∖ {[pair_key pair]} = active_requests st ∖ {[pair_key pair]}
  /\ (results' = results
      \/ exists time d, results' = results ++ [price_result pair.1 time d]).
Proof.
  destruct pair as [product_name store_name]. unfold process, process_pair, pair_key.
  cbn [fst snd].
  destruct (bool_decide (store_name ∈ stores)); cbn [negb].
  - destruct (scrape_product store_name product_name w) as [w' [[d|]|e]]; cbn.
    + split; [reflexivity | right; exists (clock w'), d; reflexivity].
    + split; [reflexivity | left; reflexivity].
    + split; [set_solver | left; reflexivity].
  - cbn. split; [set_solver | left; reflexivity].
Qed.

Lemma process_batch_effect batch : forall w st results,
  let '(w', st', results') := fold_left process batch (w, st, results) in
  active_requests st' ∖ list_to_set (map pair_key batch)
  = active_requests st ∖ list_to_set (map pair_key batch)
  /\ exists added,
       results' = results ++ added
       /\ (length added <= length batch)%nat
       /\ forall price_data, price_data ∈ added ->
            exists pair, pair ∈ batch
                         /\ PriceResult.product_search_term price_data = pair.1.
Proof.
  induction batch as [|pair batch IH]; intros w st results.
  - cbn. split; [reflexivity|]. exists []. rewrite app_nil_r.
    split; [reflexivity|]. split; [apply le_n|]. intros pd Hpd.
    apply elem_of_nil in Hpd. contradiction.
  - cbn [fold_left].
    pose proof (process_pair_effect w st results pair) as H1.
    destruct (process (w, st, results) pair) as [[w1 st1] results1].
    destruct H1 as [Hact1 Hres1].
    specialize (IH w1 st1 results1).
    destruct (fold_left process batch (w1, st1, results1)) as [[w' st'] results'].
    destruct IH as [Hact (added & -> & Hlen & Hterm)].
    split.
    + cbn [map]. rewrite list_to_set_cons. set_solver.
    + destruct Hres1 as [-> | (time & d & ->)].
      * exists added. split; [reflexivity|]. split; [simpl; lia|].
        intros pd Hpd. destruct (Hterm pd Hpd) as (pr & Hpr & Heq).
        exists pr. split; [right; exact Hpr | exact Heq].
      * exists (price_result pair.1 time d :: added).
        split; [rewrite <- app_assoc; reflexivity|]. split; [simpl; lia|].
        intros pd Hpd. apply elem_of_cons in Hpd as [-> | Hpd].
        -- exists pair. split; [left | reflexivity].
        -- destruct (Hterm pd Hpd) as (pr & Hpr & Heq).
           exists pr. split; [right; exact Hpr | exact Heq].
Qed.

Lemma discard_all (batch : list (string * string)) : forall st,
  active_requests
    (fold_left (fun st pair => discard (request_key pair.1 pair.2) st) batch st)
  = active_requests st ∖ list_to_set (map pair_key batch).
Proof.
  induction batch as [|pair batch IH]; intros st; cbn [fold_left map].
  - rewrite list_to_set_nil. set_solver.
  - rewrite IH, list_to_set_cons. unfold discard, pair_key. cbn. set_solver.
Qed.

Lemma run_batches_effect (chunks : list (list (string * string))) :
  forall w st results,
  let '(w', st', results') := fold_left run chunks (w, st, results) in
  active_requests st'
  = active_requests st ∖ list_to_set (map pair_key (concat chunks))
  /\ exists added,
       results' = results ++ added
       /\ (length added <= length (concat chunks))%nat
       /\ forall price_data, price_data ∈ added ->
            exists pair, pair ∈ concat chunks
                         /\ PriceResult.product_search_term price_data = pair.1.
Proof.
  induction chunks as [|batch chunks IH]; intros w st results.
  - cbn. split; [set_solver|]. exists []. rewrite app_nil_r.
    split; [reflexivity|]. split; [apply le_n|]. intros pd Hpd.
    apply elem_of_nil in Hpd. contradiction.
  - cbn [fold_left concat]. unfold run at 2, run_batch, _process_batch.
    pose proof (process_batch_effect batch w st []) as H1. fold process.
    destruct (fold_left process batch (w, st, [])) as [[w1 st1] results1].
    destruct H1 as [Hact1 (added1 & -> & Hlen1 & Hterm1)].
    specialize (IH w1
                  (fold_left (fun st pair => discard (request_key pair.1 pair.2) st)
                     batch st1)
                  (results ++ [] ++ added1)).
    destruct (fold_left run chunks _) as [[w' st'] results'].
    destruct IH as [Hact (added & -> & Hlen & Hterm)].
    rewrite discard_all in Hact. split.
    + rewrite Hact, map_app, list_to_set_app_L. set_solver.
    + exists (added1 ++ added). split; [rewrite <- !app_assoc; reflexivity|].
      split; [rewrite !length_app; lia|].
      intros pd Hpd. apply elem_of_app in Hpd as [Hpd | Hpd].
      * destruct (Hterm1 pd Hpd) as (pr & Hpr & Heq).
        exists pr. split; [apply elem_of_app; left; exact Hpr | exact Heq].
      * destruct (Hterm pd Hpd) as (pr & Hpr & Heq).
        exists pr. split; [apply elem_of_app; right; exact Hpr | exact Heq].
Qed.

(** The chunks of [batches] are the list, cut up. *)
Lemma concat_batches {A} (batch_size : nat) : forall (fuel : nat) (l : list A),
  (0 < batch_size)%nat -> (length l <= fuel)%nat ->
  concat (batches fuel batch_size l) = l.
Proof.
  induction fuel as [|fuel IH]; intros l Hsize Hfuel.
  - destruct l; [reflexivity | simpl in Hfuel; lia].
  - destruct l as [|x l]; [reflexivity|].
    cbn [batches concat]. rewrite IH; [apply take_drop | exact Hsize|].
    rewrite length_drop. simpl in *. lia.
Qed.

(** X2. After [scrape_product_prices] the in-flight set is what it was
    before the call, whatever the fetches did: every mark the call set
    is removed again.  The call returns at most ten price records, each
    carrying a requested product as its search term. *)
Theorem scrape_product_prices_releases_marks
    (product_names : list string) (store_names : option (list string))
    (w : World) (st : state) :
  let r := scrape_product_prices clock scrape_product sleep product_names
             store_names w st in
  active_requests r.1.2 = active_requests st
  /\ (length r.2 <= 10)%nat
  /\ forall price_data, price_data ∈ r.2 ->
       PriceResult.product_search_term price_data ∈ product_names.
Proof.
  unfold scrape_product_prices.
  pose proof (deduplicate_requests_gate (clock w) product_names
                (default stores store_names) st) as Hgate.
  destruct (_deduplicate_requests (clock w) product_names
              (default stores store_names) st) as [st1 unique_requests].
  cbn [fst snd] in Hgate. destruct Hgate as (Hlen & _ & Hall & Hact & _).
  destruct unique_requests as [|pair unique_requests].
  - cbn. rewrite Hact. split; [set_solver|]. split; [lia|].
    intros pd Hpd. apply elem_of_nil in Hpd. contradiction.
  - set (unique_requests' := pair :: unique_requests) in *.
    pose proof (run_batches_effect
                  (batches (length unique_requests')
                     (Nat.min max_concurrent_requests (length unique_requests'))
                     unique_requests') w st1 []) as Hrun.
    fold run.
    destruct (fold_left run _ (w, st1, [])) as [[w' st'] results].
    rewrite concat_batches in Hrun
      by (unfold max_concurrent_requests, unique_requests'; simpl; lia).
    destruct Hrun as [Hact' (added & -> & Hlen' & Hterm)]. cbn [fst snd app].
    split; [|split; [lia|]].
    + rewrite Hact', Hact.
      assert (Hdisjoint : forall k, k ∈ map pair_key unique_requests' ->
                                    k ∉ active_requests st).
      { intros k Hk. apply list_elem_of_fmap in Hk as (pr & -> & Hpr).
        apply (Hall pr Hpr). }
      set_solver.
    + intros pd Hpd. destruct (Hterm pd Hpd) as (pr & Hpr & ->).
      apply (Hall pr Hpr).
Qed.

End Batches.

(** ** Stamps, failures and rows *)

Section ScraperState.

Import Py GroceryWebScraper.

Lemma td_seconds_range (d : timedelta) : (0 <= td_seconds d < 86400)%Z.
Proof. unfold td_seconds. apply Z.mod_pos_bound. lia. Qed.

(** X3. [_cleanup_old_cache] leaves the in-flight set alone and keeps
    exactly the stamps whose age has at most 3600 in its seconds; the
    gate decides every request after the cleanup as it did before. *)
Theorem cleanup_keeps_gate_decisions (current_time : datetime) (st : state)
    (key : string) :
  active_requests (_cleanup_old_cache current_time st) = active_requests st
  /\ (forall t,
        request_cache (_cleanup_old_cache current_time st) !! key = Some t
        <-> request_cache st !! key = Some t
            /\ (td_seconds (current_time - t) <= 3600)%Z)
  /\ recently_processed current_time
       (request_cache (_cleanup_old_cache current_time st)) key
     = recently_processed current_time (request_cache st) key.
Proof.
  assert (Hlookup : forall t,
            request_cache (_cleanup_old_cache current_time st) !! key = Some t
            <-> request_cache st !! key = Some t
                /\ (td_seconds (current_time - t) <= 3600)%Z).
  { intros t. unfold _cleanup_old_cache. cbn [request_cache].
    rewrite map_lookup_filter_Some. cbn [snd]. split; intros [H1 H2]; (split; [exact H1|]); lia. }
  split; [reflexivity|]. split; [exact Hlookup|].
  unfold recently_processed.
  destruct (request_cache (_cleanup_old_cache current_time st) !! key) as [t|] eqn:E.
  - destruct (proj1 (Hlookup t) eq_refl) as [-> _]. reflexivity.
  - destruct (request_cache st !! key) as [t|] eqn:E'; [|reflexivity].
    destruct (Z.ltb_spec (td_seconds (current_time - t)%Z) 600%Z) as [Hlt|];
      [|reflexivity].
    assert (Hkept : None = Some t)
      by (apply Hlookup; split; [reflexivity | lia]).
    discriminate Hkept.
Qed.

Lemma update_first_other_rows now price_data name store rows rows' :
  PriceResult.product_name price_data <> name
  \/ PriceResult.store_name price_data <> store ->
  update_first now price_data rows = Some rows' ->
  rows_for name store rows' = rows_for name store rows.
Proof.
  intros Hother. revert rows'.
  induction rows as [|row rows IH]; intros rows'; cbn [update_first]; [discriminate|].
  destruct (same_window now price_data row) eqn:E.
  - intros [= <-]. unfold rows_for. cbn [List.filter update_row PriceData.product_name
                                          PriceData.store_name].
    unfold same_window in E. apply andb_true_iff in E as [E _].
    apply andb_true_iff in E as [En Es].
    apply String.eqb_eq in En, Es.
    assert (Hrow : String.eqb (PriceData.product_name row) name
                   && String.eqb (PriceData.store_name row) store = false).
    { apply andb_false_iff. rewrite !String.eqb_neq, En, Es. exact Hother. }
    rewrite Hrow. reflexivity.
  - destruct (update_first now price_data rows) as [r|]; cbn [option_map]; [|discriminate].
    intros [= <-]. unfold rows_for in *. cbn [List.filter].
    rewrite (IH r eq_refl). reflexivity.
Qed.

Lemma update_first_identity now price_data rows rows' :
  update_first now price_data rows = Some rows' ->
  map row_identity rows' = map row_identity rows.
Proof.
  revert rows'. induction rows as [|row rows IH]; intros rows'; cbn [update_first];
    [discriminate|].
  destruct (same_window now price_data row).
  - intros [= <-]. reflexivity.
  - destruct (update_first now price_data rows) as [r|]; cbn [option_map]; [|discriminate].
    intros [= <-]. cbn [map]. rewrite (IH r eq_refl). reflexivity.
Qed.

Lemma upsert_rows now rows price_data :
  (exists added,
     map row_identity (upsert now rows price_data).1 = map row_identity rows ++ added)
  /\ forall name store,
       PriceResult.product_name price_data <> name
       \/ PriceResult.store_name price_data <> store ->
       rows_for name store (upsert now rows price_data).1 = rows_for name store rows.
Proof.
  unfold upsert.
  destruct (update_first now price_data rows) as [rows'|] eqn:E; cbn [fst].
  - split.
    + exists []. rewrite app_nil_r. apply (update_first_identity _ _ _ _ E).
    + intros name store Hother.
      apply (update_first_other_rows _ _ _ _ _ _ Hother E).
  - split.
    + exists [row_identity (new_row price_data)]. apply map_app.
    + intros name store Hother. unfold rows_for. rewrite List.filter_app.
      cbn [List.filter new_row PriceData.product_name PriceData.store_name].
      assert (Hrow : String.eqb (PriceResult.product_name price_data) name
                     && String.eqb (PriceResult.store_name price_data) store = false).
      { apply andb_false_iff. rewrite !String.eqb_neq. exact Hother. }
      rewrite Hrow. apply app_nil_r.
Qed.

Lemma save_loop_rows now db price_results : forall rows n saved_count rows',
  save_loop now db price_results rows n = (saved_count, Ok rows') ->
  (exists added, map row_identity rows' = map row_identity rows ++ added)
  /\ forall name store,
       (forall price_data, price_data ∈ price_results ->
          PriceResult.product_name price_data <> name
          \/ PriceResult.store_name price_data <> store) ->
       rows_for name store rows' = rows_for name store rows.
Proof.
  induction price_results as [|price_data rest IH]; intros rows n saved_count rows';
    cbn [save_loop].
  - intros [= _ <-]. split; [exists []; rewrite app_nil_r; reflexivity | reflexivity].
  - destruct (statement_raises db n); [discriminate|]. intros Hloop.
    destruct (IH _ _ _ _ Hloop) as [(added & Hid) Hother].
    destruct (upsert_rows now rows price_data) as [(added1 & Hid1) Hother1].
    split.
    + exists (added1 ++ added). rewrite Hid, Hid1, <- app_assoc. reflexivity.
    + intros name store H. rewrite Hother.
      * apply Hother1, H. left.
      * intros pd Hpd. apply H. right. exact Hpd.
Qed.

(** X4. [save_price_data] deletes no row and changes the product, the
    store and the unit of no row: the rows of the table keep their
    places and new rows come after them.  The rows of a product at a
    store that no record of the batch names are left as they were. *)
Theorem save_price_data_keeps_other_rows (now : datetime) (db : session)
    (price_results : list PriceResult.t) (rows : table) (st : state) :
  let rows' := (save_price_data now db price_results rows st).1.1 in
  (exists added, map row_identity rows' = map row_identity rows ++ added)
  /\ forall name store,
       (forall price_data, price_data ∈ price_results ->
          PriceResult.product_name price_data <> name
          \/ PriceResult.store_name price_data <> store) ->
       rows_for name store rows' = rows_for name store rows.
Proof.
  assert (Hsame : (exists added : list (string * string * string),
                     map row_identity rows = map row_identity rows ++ added)
                  /\ forall name store,
                       (forall price_data, price_data ∈ price_results ->
                          PriceResult.product_name price_data <> name
                          \/ PriceResult.store_name price_data <> store) ->
                       rows_for name store rows = rows_for name store rows).
  { split; [exists []; rewrite app_nil_r; reflexivity | reflexivity]. }
  unfold save_price_data. destruct price_results as [|price_data rest];
    [exact Hsame|].
  pose proof (save_loop_rows now db (price_data :: rest) rows 0) as H.
  destruct (save_loop now db (price_data :: rest) rows 0)
    as [saved_count [rows'|e]]; cbn [bind]; [|exact Hsame].
  destruct (commit_raises db); [exact Hsame|].
  cbn [fst]. apply (H _ _ eq_refl).
Qed.

Lemma save_price_data_keeps_other_rows_witness :
  rows_for "bread" "walmart"
    (save_price_data Sample.noon Sample.answering
       [Sample.first_reading; Sample.bread_reading]
       Sample.bread_table Sample.fresh_state).1.1
  = rows_for "bread" "walmart" Sample.bread_table.
Proof.
  apply (save_price_data_keeps_other_rows Sample.noon Sample.answering
           [Sample.first_reading; Sample.bread_reading] Sample.bread_table
           Sample.fresh_state).
  intros price_data H.
  apply elem_of_cons in H as [-> | H]; [left; discriminate|].
  apply list_elem_of_singleton in H. subst price_data. left. discriminate.
Defined.

Context {World : Type}.
Variable clock : World -> datetime.
Variable scrape_product :
  string -> string -> World -> World * result (option Scraped.t).
Variable sleep : World -> World.

(** X5. In [_process_batch] a fetch that raises, or a store the scraper
    does not know, costs only its own pair: the key of the pair is taken
    out of the in-flight set, no stamp and no record are written for it,
    and the pairs after it are processed from there. *)
Theorem process_batch_isolates_failures
    (before after : list (string * string)) (pair : string * string)
    (w w1 w2 : World) (st st1 : state) (results1 : list PriceResult.t) :
  _process_batch clock scrape_product sleep before w st = (w1, st1, results1) ->
  ((pair.2 ∉ stores) /\ w2 = w1)
  \/ (pair.2 ∈ stores /\ exists e, scrape_product pair.2 pair.1 w1 = (w2, Raise e)) ->
  _process_batch clock scrape_product sleep (before ++ pair :: after) w st
  = fold_left (process_pair clock scrape_product sleep) after
      (w2, discard (pair_key pair) st1, results1)
  /\ request_cache (discard (pair_key pair) st1) = request_cache st1
  /\ (pair_key pair ∉ active_requests (discard (pair_key pair) st1)).
Proof.
  intros Hbefore Hfail. unfold _process_batch in *.
  rewrite fold_left_app, Hbefore. cbn [fold_left].
  split; [|split; [reflexivity | cbn; rewrite elem_of_difference, elem_of_singleton; tauto]].
  f_equal. destruct pair as [product_name store_name]. unfold process_pair, pair_key.
  cbn [fst snd] in *. destruct Hfail as [[Hunknown ->] | [Hknown [e He]]].
  - rewrite (bool_decide_eq_false_2 _ Hunknown). reflexivity.
  - rewrite (bool_decide_eq_true_2 _ Hknown), He. reflexivity.
Qed.

End ScraperState.

Lemma process_batch_isolates_failures_witness :
  exists w' st',
    GroceryWebScraper._process_batch Sample.read_clock Sample.flaky_scraper
      Sample.one_second
      ([("milk"%string, "walmart"%string)]
       ++ ("caviar"%string, "target"%string) :: [("bread"%string, "kroger"%string)])
      Sample.noon Sample.fresh_state
    = (w', st', [GroceryWebScraper.price_result "milk" (Sample.noon + seconds_us 2)%Z
                   (Scraped.mk "walmart" "milk" 3.48 (Some "each") true None);
                 GroceryWebScraper.price_result "bread" (Sample.noon + seconds_us 15)%Z
                   (Scraped.mk "kroger" "bread" 3.48 (Some "each") true None)])
    /\ GroceryWebScraper.request_cache st' !! "caviar_target"%string = None.
Proof.
  destruct (process_batch_isolates_failures Sample.read_clock Sample.flaky_scraper
              Sample.one_second [("milk"%string, "walmart"%string)]
              [("bread"%string, "kroger"%string)] ("caviar"%string, "target"%string)
              Sample.noon _ _ Sample.fresh_state _ _
              ltac:(vm_compute; reflexivity)
              ltac:(right; split;
                    [apply (bool_decide_unpack _); vm_compute; exact I
                    | eexists; vm_compute; reflexivity]))
    as (Hrun & _ & _).
  eexists _, _. split; [rewrite Hrun; vm_compute; reflexivity|].
  vm_compute. reflexivity.
Defined.

(** * Further properties of the price service *)

(** ** Refreshing *)

Section Refreshing.

Import Py PriceComparisonService.

#[local] Set Warnings "-clear-no-such-hyp".

Lemma needs_price_refresh_false (now : datetime) (existing_prices : list PriceData.t) :
  _needs_price_refresh now existing_prices = false
  <-> exists p q,
        p ∈ existing_prices /\ q ∈ existing_prices
        /\ PriceData.store_name p <> PriceData.store_name q
        /\ fresh now p /\ fresh now q.
Proof.
  destruct existing_prices as [|p0 rest].
  { split; [discriminate|]. intros (p & _ & Hp & _). apply elem_of_nil in Hp.
    contradiction. }
  set (l := p0 :: rest). change (_needs_price_refresh now l) with
    ((size (list_to_set
              (map PriceData.store_name
                 (List.filter
                    (fun p => (now - hours_us cache_duration_hours
                               <? PriceData.scraped_at p)%Z) l)) : gset string)
      <? 2)%nat).
  set (recent := list_to_set _ : gset string).
  assert (Hrecent : forall s, s ∈ recent
                              <-> exists p, p ∈ l /\ PriceData.store_name p = s
                                            /\ fresh now p).
  { intros s. unfold recent. rewrite elem_of_list_to_set, list_elem_of_fmap. split.
    - intros (p & -> & Hp). apply list_elem_of_In, List.filter_In in Hp as [Hp Hf].
      exists p. split; [apply list_elem_of_In, Hp|]. split; [reflexivity|].
      apply Z.ltb_lt in Hf. unfold fresh, cache_duration_hours in *. lia.
    - intros (p & Hp & <- & Hf). exists p. split; [reflexivity|].
      apply list_elem_of_In, List.filter_In. split; [apply list_elem_of_In, Hp|].
      apply Z.ltb_lt. unfold fresh, cache_duration_hours in *. lia. }
  rewrite Nat.ltb_ge. split.
  - intros Hsize.
    destruct (size_pos_elem_of recent) as [s Hs]; [lia|].
    destruct (size_pos_elem_of (recent ∖ {[s]})) as [s' Hs'].
    { rewrite size_difference by set_solver. rewrite size_singleton. lia. }
    apply elem_of_difference in Hs' as [Hs' Hne]. rewrite elem_of_singleton in Hne.
    apply Hrecent in Hs as (p & Hp & <- & Hfp).
    apply Hrecent in Hs' as (q & Hq & <- & Hfq).
    exists p, q. repeat split; try assumption. congruence.
  - intros (p & q & Hp & Hq & Hne & Hfp & Hfq).
    assert (Hsub : ({[PriceData.store_name p; PriceData.store_name q]} : gset string)
                   ⊆ recent).
    { intros s Hs. apply Hrecent. apply elem_of_union in Hs as [Hs | Hs];
        apply elem_of_singleton in Hs; subst s; eauto. }
    apply subseteq_size in Hsub.
    rewrite size_union, !size_singleton in Hsub by set_solver. exact Hsub.
Qed.

(** X6. [_needs_price_refresh] answers no exactly when two observations
    of different stores are fresh, that is less than six hours old; on
    no data it answers yes. *)
Theorem needs_price_refresh_iff (now : datetime) (existing_prices : list PriceData.t) :
  _needs_price_refresh now existing_prices = false
  <-> exists p q,
        p ∈ existing_prices /\ q ∈ existing_prices
        /\ PriceData.store_name p <> PriceData.store_name q
        /\ fresh now p /\ fresh now q.
Proof. apply needs_price_refresh_false. Qed.

Context {World PriceResult : Type}.
Variable clock : World -> datetime.
Variable _get_cached_prices :
  string -> option (list string) -> M (World := World) (list PriceData.t).
Variable scrape_product_prices :
  list string -> list string -> M (World := World) (list PriceResult).
Variable save_price_data : list PriceResult -> M (World := World) Z.

Let refresh := _refresh_price_data scrape_product_prices save_price_data.
Let single :=
  _compare_single_product clock _get_cached_prices scrape_product_prices
    save_price_data.
Let compare :=
  compare_prices clock _get_cached_prices scrape_product_prices save_price_data.

(** X7. [_refresh_price_data] never raises: a failure of the scraper or
    of the save ends the refresh quietly.  It scrapes the three default
    stores when none is given and saves only when something was found. *)
Theorem refresh_price_data_never_raises (product_name : string)
    (stores : option (list string)) (w : World) :
  let store_list := default ["walmart"; "target"; "kroger"] stores in
  (exists w', refresh product_name stores w = (w', Ok ()))
  /\ (forall w1, scrape_product_prices [product_name] store_list w = (w1, Ok []) ->
        refresh product_name stores w = (w1, Ok ()))
  /\ (forall w1 e, scrape_product_prices [product_name] store_list w = (w1, Raise e) ->
        refresh product_name stores w = (w1, Ok ()))
  /\ (forall w1 found others,
        scrape_product_prices [product_name] store_list w = (w1, Ok (found :: others)) ->
        refresh product_name stores w
        = ((save_price_data (found :: others) w1).1, Ok ())).
Proof.
  assert (Heq : refresh product_name stores w
                = match scrape_product_prices [product_name]
                          (default ["walmart"; "target"; "kroger"] stores) w with
                  | (w1, Ok []) => (w1, Ok ())
                  | (w1, Ok (found :: others)) =>
                      ((save_price_data (found :: others) w1).1, Ok ())
                  | (w1, Raise e) => (w1, Ok ())
                  end).
  { unfold refresh, _refresh_price_data, try_except, mbind, ret.
    destruct stores as [l|]; cbn [default from_option id];
      (destruct (scrape_product_prices _ _ w) as [w1 [[|found others]|e]];
       [reflexivity | | reflexivity]);
      destruct (save_price_data (found :: others) w1) as [w2 [n|e]]; reflexivity. }
  cbv zeta. rewrite Heq.
  split; [|split; [|split]].
  - destruct (scrape_product_prices _ _ w) as [w1 [[|found others]|e]]; eauto.
  - intros w1 ->. reflexivity.
  - intros w1 e ->. reflexivity.
  - intros w1 found others ->. reflexivity.
Qed.

(** X8. When the rows in the cache already cover two stores freshly and
    no refresh is forced, [_compare_single_product] does not call the
    scraper: it returns the comparison of the cached rows, in the
    world the one query left. *)
Theorem compare_single_product_uses_cache (product_name : string)
    (stores : option (list string)) (w w1 : World) (rows : list PriceData.t)
    (p q : PriceData.t) :
  _get_cached_prices product_name stores w = (w1, Ok rows) ->
  p ∈ rows -> q ∈ rows ->
  PriceData.store_name p <> PriceData.store_name q ->
  fresh (clock w1) p -> fresh (clock w1) q ->
  single product_name stores false w
  = (w1, _create_price_comparison (clock w1) product_name rows).
Proof.
  intros Hquery Hp Hq Hne Hfp Hfq.
  assert (Hno : _needs_price_refresh (clock w1) rows = false).
  { apply needs_price_refresh_false. exists p, q. tauto. }
  unfold single, _compare_single_product, mbind, datetime_now, ret, lift.
  rewrite Hquery, Hno. cbn [orb].
  destruct rows as [|p0 rest]; [apply elem_of_nil in Hp; contradiction|].
  reflexivity.
Qed.

Lemma create_price_comparison_name now product_name rows c :
  _create_price_comparison now product_name rows = Ok (Some c) ->
  PriceComparison.product_name c = product_name
  /\ PriceComparison.stores_compared c = distinct_stores rows
  /\ rows <> [].
Proof.
  destruct rows as [|p0 rest]; [discriminate|].
  rewrite create_price_comparison_nonempty. intros [= <-].
  cbn [PriceComparison.product_name PriceComparison.stores_compared].
  split; [reflexivity|]. split; [apply group_by_store_length | discriminate].
Qed.

Lemma compare_single_product_result product_name stores force_refresh w w' c :
  single product_name stores force_refresh w = (w', Ok (Some c)) ->
  exists now rows, _create_price_comparison now product_name rows = Ok (Some c).
Proof.
  unfold single, _compare_single_product, mbind, datetime_now, ret, lift.
  destruct (_get_cached_prices product_name stores w) as [w1 [rows1|e]];
    [|discriminate].
  destruct (force_refresh || _needs_price_refresh (clock w1) rows1).
  - destruct (_refresh_price_data scrape_product_prices save_price_data
                product_name stores w1) as [w2 [[]|e]]; [|discriminate].
    destruct (_get_cached_prices product_name stores w2) as [w3 [rows3|e]];
      [|discriminate].
    destruct rows3 as [|p0 rest]; [discriminate|].
    intros H. apply (f_equal snd) in H. cbn [snd] in H. eauto.
  - destruct rows1 as [|p0 rest]; [discriminate|].
    intros H. apply (f_equal snd) in H. cbn [snd] in H. eauto.
Qed.

Lemma for_each_compare_keys stores force_refresh (all_names : list string)
    (product_names : list string) :
  forall comparisons w w' result,
  (forall name, name ∈ product_names -> name ∈ all_names) ->
  NoDup (keys comparisons) ->
  (forall name c, dict_get name comparisons = Some c ->
     name ∈ all_names /\ PriceComparison.product_name c = name
     /\ (0 < PriceComparison.stores_compared c)%nat) ->
  for_each product_names
    (compare_one clock _get_cached_prices scrape_product_prices save_price_data
       stores force_refresh) comparisons w = (w', Ok result) ->
  NoDup (keys result)
  /\ forall name c, dict_get name result = Some c ->
       name ∈ all_names /\ PriceComparison.product_name c = name
       /\ (0 < PriceComparison.stores_compared c)%nat.
Proof.
  induction product_names as [|name rest IH];
    intros comparisons w w' result Hsub Hnd Hall; cbn [for_each].
  - intros [= <- <-]. split; assumption.
  - unfold mbind.
    pose proof (compare_one_cases clock _get_cached_prices scrape_product_prices
                  save_price_data stores force_refresh name comparisons w) as Hone.
    destruct (_compare_single_product clock _get_cached_prices scrape_product_prices
                save_price_data name stores force_refresh w) as [w1 r] eqn:Esingle.
    assert (Hrest : forall n, n ∈ rest -> n ∈ all_names)
      by (intros n Hn; apply Hsub; right; exact Hn).
    destruct r as [[c|]|e]; rewrite Hone; try (apply IH; assumption).
    apply IH; [exact Hrest | apply NoDup_keys_dict_set, Hnd|].
    intros n c'. rewrite dict_get_set. destruct (String.eqb n name) eqn:E.
    + apply String.eqb_eq in E. subst n. intros [= <-].
      destruct (compare_single_product_result _ _ _ _ _ _ Esingle) as (now & rows & Hc).
      destruct (create_price_comparison_name _ _ _ _ Hc) as (Hname & Hstores & Hrows).
      split; [apply Hsub; left|]. split; [exact Hname|].
      rewrite Hstores. destruct rows as [|p0 rows]; [congruence|].
      unfold distinct_stores. cbn [map]. rewrite list_to_set_cons.
      assert (Hin : PriceData.store_name p0
                    ∈ ({[PriceData.store_name p0]}
                       ∪ list_to_set (map PriceData.store_name rows) : gset string))
        by set_solver.
      destruct (size ({[PriceData.store_name p0]}
                      ∪ list_to_set (map PriceData.store_name rows) : gset string))
        eqn:Esize; [|lia].
      apply size_empty_inv in Esize. set_solver.
    + apply Hall.
Qed.

Lemma compare_prices_returns_keys (product_names : list string)
    (stores : option (list string)) (force_refresh : bool) (w : World) :
  exists w' comparisons,
    compare product_names stores force_refresh w = (w', Ok comparisons)
    /\ NoDup (keys comparisons)
    /\ forall name c, dict_get name comparisons = Some c ->
         name ∈ product_names
         /\ PriceComparison.product_name c = name
         /\ (0 < PriceComparison.stores_compared c)%nat.
Proof.
  destruct (for_each_compare_returns clock _get_cached_prices
              scrape_product_prices save_price_data stores force_refresh
              product_names [] w) as (w' & comparisons & Hrun & _).
  exists w', comparisons. split; [exact Hrun|].
  apply (for_each_compare_keys stores force_refresh product_names product_names
           [] w w' comparisons).
  - tauto.
  - apply NoDup_nil. exact I.
  - intros name c H. discriminate H.
  - exact Hrun.
Qed.

(** X9. The mapping that [compare_prices] returns has one entry per key,
    each key is one of the requested names, and the comparison under a
    key carries that name and compares at least one store. *)
Theorem compare_prices_keys_are_requests (product_names : list string)
    (stores : option (list string)) (force_refresh : bool) (w : World) :
  exists w' comparisons,
    compare product_names stores force_refresh w = (w', Ok comparisons)
    /\ NoDup (keys comparisons)
    /\ forall name c, dict_get name comparisons = Some c ->
         name ∈ product_names
         /\ PriceComparison.product_name c = name
         /\ (0 < PriceComparison.stores_compared c)%nat.
Proof. apply compare_prices_returns_keys. Qed.

End Refreshing.

Lemma compare_single_product_uses_cache_witness :
  PriceComparisonService._compare_single_product Sample.at_noon Sample.failing_query
    Sample.idle_scraper Sample.idle_save "milk" None false ()
  = ((), PriceComparisonService._create_price_comparison Sample.noon "milk"
           Sample.milk_two_stores).
Proof.
  apply (compare_single_product_uses_cache Sample.at_noon Sample.failing_query
           Sample.idle_scraper Sample.idle_save "milk" None () ()
           Sample.milk_two_stores
           (Sample.observation "target" 1 700)
           (Sample.observation "walmart" 3.48 700)).
  - reflexivity.
  - unfold Sample.milk_two_stores. left.
  - unfold Sample.milk_two_stores. right. left.
  - discriminate.
  - apply Z.ltb_lt. vm_compute. reflexivity.
  - apply Z.ltb_lt. vm_compute. reflexivity.
Defined.

(** ** Deals *)

Section Deals.

Import Py PyStr PriceComparisonService.

#[local] Set Warnings "-clear-no-such-hyp".

Context {A : Type} (key : A -> Q).

Lemma insert_desc_perm (x : A) (l : list A) : insert_desc key x l ≡ₚ x :: l.
Proof.
  induction l as [|y l IH]; cbn [insert_desc]; [reflexivity|].
  destruct (Qltb (key x) (key y)); [|reflexivity].
  rewrite IH. apply Permutation_swap.
Qed.

Lemma sort_desc_perm (l : list A) : sort_desc key l ≡ₚ l.
Proof.
  induction l as [|x l IH]; [reflexivity|].
  cbn [sort_desc fold_right]. fold (sort_desc key l).
  rewrite insert_desc_perm, IH. reflexivity.
Qed.

Lemma insert_desc_sorted (x : A) (l : list A) :
  StronglySorted (fun a b => (key b <= key a)%Q) l ->
  StronglySorted (fun a b => (key b <= key a)%Q) (insert_desc key x l).
Proof.
  induction l as [|y l IH]; intros Hs; cbn [insert_desc].
  - apply SSorted_cons; [apply SSorted_nil | apply Forall_nil; exact I].
  - apply StronglySorted_inv in Hs as [Hs Hy].
    destruct (Qltb (key x) (key y)) eqn:E.
    + apply Qltb_true in E. apply SSorted_cons; [apply IH, Hs|].
      rewrite (insert_desc_perm x l). apply Forall_cons. split; [lra | exact Hy].
    + apply Qltb_false in E. apply SSorted_cons.
      * apply SSorted_cons; assumption.
      * apply Forall_cons. split; [exact E|].
        eapply Forall_impl; [exact Hy|]. intros z Hz. simpl in Hz. lra.
Qed.

Lemma sort_desc_sorted (l : list A) :
  StronglySorted (fun a b => (key b <= key a)%Q) (sort_desc key l).
Proof.
  induction l as [|x l IH]; [apply SSorted_nil|].
  cbn [sort_desc fold_right]. apply insert_desc_sorted, IH.
Qed.

(** Items of equal key keep their order: a list already in decreasing
    order is left as it is. *)
Lemma sort_desc_stable (l : list A) :
  StronglySorted (fun a b => (key b <= key a)%Q) l -> sort_desc key l = l.
Proof.
  induction l as [|x l IH]; intros Hs; [reflexivity|].
  apply StronglySorted_inv in Hs as [Hs Hx].
  cbn [sort_desc fold_right]. fold (sort_desc key l). rewrite (IH Hs).
  destruct l as [|y l]; [reflexivity|]. cbn [insert_desc].
  apply Forall_cons in Hx as [Hy _].
  destruct (Qltb (key x) (key y)) eqn:E; [|reflexivity].
  apply Qltb_true in E. lra.
Qed.

End Deals.

Section BestDeals.

Import Py PyStr PriceComparisonService.

Context {World PriceResult : Type}.
Variable clock : World -> datetime.
Variable _get_cached_prices :
  string -> option (list string) -> M (World := World) (list PriceData.t).
Variable scrape_product_prices :
  list string -> list string -> M (World := World) (list PriceResult).
Variable save_price_data : list PriceResult -> M (World := World) Z.

(** X10. [get_best_deals] never raises.  Its deals come in decreasing
    order of savings, each saves at least [min_savings], each is for one
    of the requested products, and every compared product that saves at
    least [min_savings] is among them: the deals are the qualifying
    comparisons, reordered. *)
Theorem get_best_deals_sorted_and_filtered (product_names : list string)
    (min_savings : Q) (w : World) :
  exists w' comparisons deals,
    compare_prices clock _get_cached_prices scrape_product_prices save_price_data
      product_names None false w = (w', Ok comparisons)
    /\ get_best_deals clock _get_cached_prices scrape_product_prices save_price_data
         product_names min_savings w = (w', Ok deals)
    /\ StronglySorted (fun a b => (Deal.savings b <= Deal.savings a)%Q) deals
    /\ (forall deal, deal ∈ deals ->
          (min_savings <= Deal.savings deal)%Q
          /\ Deal.product_name deal ∈ product_names)
    /\ deals
       ≡ₚ map deal_of
            (List.filter
               (fun entry =>
                  Qle_bool min_savings (PriceComparison.savings_opportunity entry.2))
               comparisons).
Proof.
  destruct (compare_prices_returns_keys clock _get_cached_prices
              scrape_product_prices save_price_data product_names None false w)
    as (w' & comparisons & Hrun & Hnd & Hkeys).
  exists w', comparisons, (best_deals comparisons min_savings).
  split; [exact Hrun|]. split.
  { unfold get_best_deals, mbind. rewrite Hrun. reflexivity. }
  split; [apply sort_desc_sorted|].
  assert (Hperm : best_deals comparisons min_savings
                  ≡ₚ map deal_of
                       (List.filter
                          (fun entry =>
                             Qle_bool min_savings
                               (PriceComparison.savings_opportunity entry.2))
                          comparisons))
    by apply sort_desc_perm.
  split; [|exact Hperm].
  intros deal Hdeal. rewrite Hperm in Hdeal.
  apply list_elem_of_fmap in Hdeal as ([name c] & -> & Hin).
  apply list_elem_of_In, List.filter_In in Hin as [Hin Hle].
  cbn [deal_of Deal.savings Deal.product_name snd] in *.
  split; [apply Qle_bool_iff, Hle|].
  apply list_elem_of_In, (elem_dict_get _ _ _ Hnd) in Hin.
  apply (Hkeys name c Hin).
Qed.

End BestDeals.

(** The deals of the four savings 0.40, 1.20, 3.00 and 0.95 at the
    threshold 1.0 are those of 3.00 and 1.20, in that order. *)
Example best_deals_of_four :
  map Deal.savings
    (PriceComparisonService.best_deals
       (map (fun entry : string * Q =>
               (entry.1,
                PriceComparison.mk entry.1 1 (Some "walmart"%string) 1 (1, 1)%Q 2
                  entry.2 [] medium 0%Z))
          [("rice"%string, 0.40%Q); ("milk"%string, 1.20%Q);
           ("cheese"%string, 3.00%Q); ("pasta"%string, 0.95%Q)])
       1.0)
  = [3.00%Q; 1.20%Q].
Proof. reflexivity. Qed.

(** ** More on the shopping list *)

Section Rounding.

Import Py.

Lemma round_half_even_floor (q : Q) :
  round_half_even q = Qfloor q \/ round_half_even q = (Qfloor q + 1)%Z.
Proof.
  unfold round_half_even.
  destruct (Qltb (q - inject_Z (Qfloor q)) (1 # 2)); [left; reflexivity|].
  destruct (Qltb (1 # 2) (q - inject_Z (Qfloor q))); [right; reflexivity|].
  destruct (Z.even (Qfloor q)); [left | right]; reflexivity.
Qed.

(** Rounding to an integer does not cross an integer. *)
Lemma round_half_even_bounds (q : Q) (lo hi : Z) :
  (inject_Z lo <= q)%Q -> (q <= inject_Z hi)%Q ->
  (lo <= round_half_even q <= hi)%Z.
Proof.
  intros Hlo Hhi.
  assert (Hfloor_lo : (lo <= Qfloor q)%Z).
  { rewrite <- (Qfloor_Z lo). apply Qfloor_resp_le, Hlo. }
  assert (Hfloor_hi : (Qfloor q <= hi)%Z).
  { rewrite <- (Qfloor_Z hi). apply Qfloor_resp_le, Hhi. }
  pose proof (Qfloor_le q) as Hfl.
  unfold round_half_even.
  destruct (Qltb (q - inject_Z (Qfloor q)) (1 # 2)) eqn:E1; [lia|].
  apply Qltb_false in E1.
  assert (Hstrict : (Qfloor q < hi)%Z).
  { apply Z.le_neq. split; [exact Hfloor_hi|]. intros Heq. rewrite Heq in E1. lra. }
  destruct (Qltb (1 # 2) (q - inject_Z (Qfloor q))); [lia|].
  destruct (Z.even (Qfloor q)); lia.
Qed.

(** ** Binary64 numbers *)

Lemma two_power_pos (e : Z) : (0 < 2 ^ e)%Q.
Proof. apply Qpower_0_lt. reflexivity. Qed.

Lemma two_power_Z (k : Z) : (0 <= k)%Z -> (inject_Z (2 ^ k) == 2 ^ k)%Q.
Proof. intros H. apply (Zpower_Qpower 2 k H). Qed.

Lemma ilog2_spec (q : Q) :
  (0 < q)%Q -> (2 ^ ilog2 q <= q)%Q /\ (q < 2 ^ (ilog2 q + 1))%Q.
Proof.
  intros Hq. unfold ilog2.
  destruct q as [n d]. cbn [Qnum Qden].
  assert (Hn : (0 < n)%Z) by (unfold Qlt in Hq; cbn in Hq; lia).
  set (a := Z.log2 n). set (b := Z.log2 (Z.pos d)).
  assert (Ha : (0 <= a)%Z) by apply Z.log2_nonneg.
  assert (Hb : (0 <= b)%Z) by apply Z.log2_nonneg.
  destruct (Z.log2_spec n Hn) as [Ha1 Ha2]. fold a in Ha1, Ha2.
  destruct (Z.log2_spec (Z.pos d) ltac:(lia)) as [Hb1 Hb2]. fold b in Hb1, Hb2.
  assert (Hnd : (n # d == inject_Z n / inject_Z (Z.pos d))%Q) by apply Qmake_Qdiv.
  assert (Hd : (0 < inject_Z (Z.pos d))%Q).
  { change 0%Q with (inject_Z 0). rewrite <- Zlt_Qlt. lia. }
  assert (Hup : (n # d < 2 ^ (a - b + 1))%Q).
  { rewrite Hnd. apply Qlt_shift_div_r; [exact Hd|].
    apply Qlt_le_trans with (inject_Z (2 ^ (a + 1))).
    - rewrite <- Zlt_Qlt. rewrite <- Z.add_1_r in Ha2. exact Ha2.
    - rewrite two_power_Z by lia.
      replace (a + 1)%Z with ((a - b + 1) + b)%Z by ring.
      rewrite Qpower_plus by discriminate.
      apply Qmult_le_l; [apply two_power_pos|].
      rewrite <- two_power_Z by lia. rewrite <- Zle_Qle. exact Hb1. }
  assert (Hlo : (2 ^ (a - b - 1) < n # d)%Q).
  { rewrite Hnd. apply Qlt_shift_div_l; [exact Hd|].
    apply Qlt_le_trans with (inject_Z (2 ^ a)).
    - rewrite two_power_Z by lia.
      replace a with ((a - b - 1) + (b + 1))%Z at 2 by ring.
      rewrite Qpower_plus by discriminate.
      apply Qmult_lt_l; [apply two_power_pos|].
      rewrite <- two_power_Z by lia. rewrite <- Zlt_Qlt.
      rewrite <- Z.add_1_r in Hb2. exact Hb2.
    - rewrite <- Zle_Qle. exact Ha1. }
  destruct (Qle_bool (2 ^ (a - b)) (n # d)) eqn:E.
  - apply Qle_bool_iff in E. split; [exact E | exact Hup].
  - assert (E' : (n # d < 2 ^ (a - b))%Q).
    { apply Qnot_le_lt. intros H. apply Qle_bool_iff in H. congruence. }
    split; [apply Qlt_le_weak; exact Hlo|].
    replace (a - b - 1 + 1)%Z with (a - b)%Z by ring. exact E'.
Qed.

Lemma ilog2_unique (q : Q) (e : Z) :
  (2 ^ e <= q)%Q -> (q < 2 ^ (e + 1))%Q -> ilog2 q = e.
Proof.
  intros Hlo Hhi.
  assert (Hq : (0 < q)%Q) by (apply Qlt_le_trans with (2 ^ e)%Q; [apply two_power_pos | exact Hlo]).
  destruct (ilog2_spec q Hq) as [Hlo' Hhi'].
  assert (H1 : (e < ilog2 q + 1)%Z).
  { apply (Qpower_lt_compat_l_inv 2); [|reflexivity].
    apply Qle_lt_trans with q; assumption. }
  assert (H2 : (ilog2 q < e + 1)%Z).
  { apply (Qpower_lt_compat_l_inv 2); [|reflexivity].
    apply Qle_lt_trans with q; assumption. }
  lia.
Qed.

Lemma ilog2_comp (a b : Q) : (a == b)%Q -> (0 < a)%Q -> ilog2 a = ilog2 b.
Proof.
  intros Hab Ha. symmetry. destruct (ilog2_spec a Ha) as [H1 H2].
  apply ilog2_unique; rewrite <- Hab; assumption.
Qed.

Lemma round_half_even_comp (a b : Q) :
  (a == b)%Q -> round_half_even a = round_half_even b.
Proof.
  intros H. unfold round_half_even. rewrite (Qfloor_comp _ _ H).
  assert (Hr : (a - inject_Z (Qfloor b) == b - inject_Z (Qfloor b))%Q)
    by (rewrite H; reflexivity).
  assert (H1 : Qltb (a - inject_Z (Qfloor b)) (1 # 2)
               = Qltb (b - inject_Z (Qfloor b)) (1 # 2)).
  { destruct (Qltb (b - inject_Z (Qfloor b)) (1 # 2)) eqn:E.
    - apply Qltb_true in E. apply Qltb_true. rewrite Hr. exact E.
    - apply Qltb_false in E. apply Qltb_false. rewrite Hr. exact E. }
  assert (H2 : Qltb (1 # 2) (a - inject_Z (Qfloor b))
               = Qltb (1 # 2) (b - inject_Z (Qfloor b))).
  { destruct (Qltb (1 # 2) (b - inject_Z (Qfloor b))) eqn:E.
    - apply Qltb_true in E. apply Qltb_true. rewrite Hr. exact E.
    - apply Qltb_false in E. apply Qltb_false. rewrite Hr. exact E. }
  rewrite H1, H2. reflexivity.
Qed.

Lemma round_half_even_monotone (a b : Q) :
  (a <= b)%Q -> (round_half_even a <= round_half_even b)%Z.
Proof.
  intros H.
  pose proof (Qfloor_resp_le _ _ H) as Hf.
  destruct (Z.eq_dec (Qfloor a) (Qfloor b)) as [Heq | Hne].
  - unfold round_half_even. rewrite Heq.
    assert (Hr : (a - inject_Z (Qfloor b) <= b - inject_Z (Qfloor b))%Q) by lra.
    destruct (Qltb (a - inject_Z (Qfloor b)) (1 # 2)) eqn:E1.
    + destruct (Qltb (b - inject_Z (Qfloor b)) (1 # 2)); [lia|].
      destruct (Qltb (1 # 2) (b - inject_Z (Qfloor b))); [lia|].
      destruct (Z.even (Qfloor b)); lia.
    + apply Qltb_false in E1.
      destruct (Qltb (b - inject_Z (Qfloor b)) (1 # 2)) eqn:E2;
        [apply Qltb_true in E2; lra|].
      destruct (Qltb (1 # 2) (a - inject_Z (Qfloor b))) eqn:E3.
      * apply Qltb_true in E3.
        destruct (Qltb (1 # 2) (b - inject_Z (Qfloor b))) eqn:E4; [lia|].
        apply Qltb_false in E4. lra.
      * destruct (Qltb (1 # 2) (b - inject_Z (Qfloor b))); [|lia].
        destruct (Z.even (Qfloor b)); lia.
  - destruct (round_half_even_floor a) as [-> | ->];
      destruct (round_half_even_floor b) as [-> | ->]; lia.
Qed.

Lemma round_half_even_Z (m : Z) : round_half_even (inject_Z m) = m.
Proof.
  unfold round_half_even. rewrite Qfloor_Z.
  assert (H : Qltb (inject_Z m - inject_Z m) (1 # 2) = true) by (apply Qltb_true; lra).
  rewrite H. reflexivity.
Qed.

(** ** The nearest binary64 number *)

Lemma nearest_comp (a b : Q) : (a == b)%Q -> (0 < a)%Q -> nearest a = nearest b.
Proof.
  intros Hab Ha. unfold nearest. rewrite <- (ilog2_comp a b Hab Ha).
  apply Qred_complete.
  rewrite (round_half_even_comp (a / 2 ^ (ilog2 a - 52)) (b / 2 ^ (ilog2 a - 52)))
    by (apply Qdiv_comp; [exact Hab | reflexivity]).
  reflexivity.
Qed.

Lemma scaled_mantissa (q : Q) :
  (0 < q)%Q ->
  (inject_Z (2 ^ 52) <= q / 2 ^ (ilog2 q - 52))%Q
  /\ (q / 2 ^ (ilog2 q - 52) <= inject_Z (2 ^ 53))%Q.
Proof.
  intros Hq. destruct (ilog2_spec q Hq) as [Hlo Hhi].
  set (e := ilog2 q) in *.
  pose proof (two_power_pos (e - 52)) as Hulp.
  assert (H52 : (2 ^ e == inject_Z (2 ^ 52) * 2 ^ (e - 52))%Q).
  { rewrite two_power_Z by lia. rewrite <- Qpower_plus by discriminate.
    replace (52 + (e - 52))%Z with e by ring. reflexivity. }
  assert (H53 : (2 ^ (e + 1) == inject_Z (2 ^ 53) * 2 ^ (e - 52))%Q).
  { rewrite two_power_Z by lia. rewrite <- Qpower_plus by discriminate.
    replace (53 + (e - 52))%Z with (e + 1)%Z by ring. reflexivity. }
  split.
  - apply Qle_shift_div_l; [exact Hulp|]. rewrite <- H52. exact Hlo.
  - apply Qle_shift_div_r; [exact Hulp|]. rewrite <- H53.
    apply Qlt_le_weak, Hhi.
Qed.

Lemma nearest_bounds (q : Q) :
  (0 < q)%Q ->
  (2 ^ ilog2 q <= nearest q)%Q /\ (nearest q <= 2 ^ (ilog2 q + 1))%Q.
Proof.
  intros Hq. destruct (scaled_mantissa q Hq) as [Hlo Hhi].
  unfold nearest. set (e := ilog2 q) in *. rewrite Qred_correct.
  pose proof (two_power_pos (e - 52)) as Hulp.
  destruct (round_half_even_bounds _ _ _ Hlo Hhi) as [H1 H2].
  rewrite Zle_Qle in H1, H2.
  assert (H52 : (2 ^ e == inject_Z (2 ^ 52) * 2 ^ (e - 52))%Q).
  { rewrite two_power_Z by lia. rewrite <- Qpower_plus by discriminate.
    replace (52 + (e - 52))%Z with e by ring. reflexivity. }
  assert (H53 : (2 ^ (e + 1) == inject_Z (2 ^ 53) * 2 ^ (e - 52))%Q).
  { rewrite two_power_Z by lia. rewrite <- Qpower_plus by discriminate.
    replace (53 + (e - 52))%Z with (e + 1)%Z by ring. reflexivity. }
  rewrite H52, H53. split; apply Qmult_le_compat_r; try assumption;
    apply Qlt_le_weak, Hulp.
Qed.

Lemma nearest_pos (q : Q) : (0 < q)%Q -> (0 < nearest q)%Q.
Proof.
  intros Hq. destruct (nearest_bounds q Hq) as [H _].
  apply Qlt_le_trans with (2 ^ ilog2 q)%Q; [apply two_power_pos | exact H].
Qed.

Lemma nearest_monotone (a b : Q) :
  (0 < a)%Q -> (a <= b)%Q -> (nearest a <= nearest b)%Q.
Proof.
  intros Ha Hab.
  assert (Hb : (0 < b)%Q) by lra.
  destruct (ilog2_spec a Ha) as [Ha1 Ha2]. destruct (ilog2_spec b Hb) as [Hb1 Hb2].
  assert (He : (ilog2 a <= ilog2 b)%Z).
  { assert (H : (ilog2 a < ilog2 b + 1)%Z); [|lia].
    apply (Qpower_lt_compat_l_inv 2); [|reflexivity]. lra. }
  destruct (Z.eq_dec (ilog2 a) (ilog2 b)) as [Heq | Hne].
  - unfold nearest. rewrite !Qred_correct, Heq.
    pose proof (two_power_pos (ilog2 b - 52)) as Hulp.
    apply Qmult_le_compat_r; [|apply Qlt_le_weak, Hulp].
    rewrite <- Zle_Qle. apply round_half_even_monotone.
    apply Qmult_le_compat_r; [exact Hab|].
    apply Qlt_le_weak, Qinv_lt_0_compat, Hulp.
  - destruct (nearest_bounds a Ha) as [_ Hup]. destruct (nearest_bounds b Hb) as [Hlow _].
    apply Qle_trans with (2 ^ (ilog2 a + 1))%Q; [exact Hup|].
    apply Qle_trans with (2 ^ ilog2 b)%Q; [|exact Hlow].
    apply Qpower_le_compat_l; [lia | discriminate].
Qed.

(** ** [float] *)

Lemma float_zero : float 0 = 0%Q.
Proof. reflexivity. Qed.

Lemma float_pos (q : Q) : (0 < q)%Q -> float q = nearest q.
Proof.
  intros H. unfold float. rewrite (proj1 (Qgt_alt q 0) H). reflexivity.
Qed.

Lemma float_neg (q : Q) : (q < 0)%Q -> float q = (- nearest (- q))%Q.
Proof.
  intros H. unfold float. rewrite (proj1 (Qlt_alt q 0) H). reflexivity.
Qed.

Lemma float_null (q : Q) : (q == 0)%Q -> float q = 0%Q.
Proof.
  intros H. unfold float. rewrite (proj1 (Qeq_alt q 0) H). reflexivity.
Qed.

Lemma float_comp (a b : Q) : (a == b)%Q -> float a = float b.
Proof.
  intros Hab. destruct (Q_dec a 0) as [[Hlt | Hgt] | Heq].
  - rewrite !float_neg by lra. f_equal. apply nearest_comp; lra.
  - rewrite !float_pos by lra. apply nearest_comp; lra.
  - rewrite !float_null by lra. reflexivity.
Qed.

Lemma float_sign (q : Q) :
  ((0 < q)%Q -> (0 < float q)%Q)
  /\ ((q < 0)%Q -> (float q < 0)%Q)
  /\ ((q == 0)%Q -> (float q == 0)%Q).
Proof.
  split; [|split]; intros H.
  - rewrite float_pos by exact H. apply nearest_pos, H.
  - rewrite float_neg by exact H.
    pose proof (nearest_pos (- q) ltac:(lra)). lra.
  - rewrite float_null by exact H. reflexivity.
Qed.

Lemma float_monotone (a b : Q) : (a <= b)%Q -> (float a <= float b)%Q.
Proof.
  intros Hab.
  destruct (float_sign a) as (Ha1 & Ha2 & Ha3).
  destruct (float_sign b) as (Hb1 & Hb2 & Hb3).
  destruct (Q_dec a 0) as [[Ha | Ha] | Ha]; destruct (Q_dec b 0) as [[Hb | Hb] | Hb];
    try lra;
    try (specialize (Ha1 Ha)); try (specialize (Ha2 Ha)); try (specialize (Ha3 Ha));
    try (specialize (Hb1 Hb)); try (specialize (Hb2 Hb)); try (specialize (Hb3 Hb));
    try lra.
  - rewrite !float_neg by assumption.
    pose proof (nearest_monotone (- b) (- a) ltac:(lra) ltac:(lra)). lra.
  - rewrite !float_pos by assumption. apply nearest_monotone; assumption.
Qed.

Lemma float_eq_zero (q : Q) : (float q == 0)%Q <-> (q == 0)%Q.
Proof.
  destruct (float_sign q) as (H1 & H2 & H3). split; [|exact H3].
  intros H. destruct (Q_dec q 0) as [[Hq | Hq] | Hq]; [| |exact Hq].
  - specialize (H2 Hq). lra.
  - specialize (H1 Hq). lra.
Qed.

Lemma float_between (q lo hi : Q) :
  float lo = lo -> float hi = hi ->
  (lo <= q)%Q -> (q <= hi)%Q -> (lo <= float q)%Q /\ (float q <= hi)%Q.
Proof.
  intros Hlo Hhi H1 H2. split.
  - apply Qle_trans with (float lo); [rewrite Hlo; apply Qle_refl|].
    apply float_monotone, H1.
  - apply Qle_trans with (float hi); [|rewrite Hhi; apply Qle_refl].
    apply float_monotone, H2.
Qed.

Lemma float_nonneg (q : Q) : (0 <= q)%Q -> (0 <= float q)%Q.
Proof. intros H. apply (float_monotone 0 q H). Qed.

(** ** [round] and the operations *)

Lemma round_nonneg (q : Q) (ndigits : nat) : (0 <= q)%Q -> (0 <= round q ndigits)%Q.
Proof.
  intros H. unfold round. apply float_nonneg.
  assert (Hscale : (0 < inject_Z (10 ^ Z.of_nat ndigits))%Q).
  { change 0%Q with (inject_Z 0). rewrite <- Zlt_Qlt. apply Z.pow_pos_nonneg; lia. }
  apply Qle_shift_div_l; [exact Hscale|]. rewrite Qmult_0_l.
  change 0%Q with (inject_Z 0). rewrite <- Zle_Qle.
  apply (round_half_even_bounds _ 0 (Qceiling (float q * inject_Z (10 ^ Z.of_nat ndigits)))).
  - change (inject_Z 0) with 0%Q. apply Qmult_le_0_compat;
      [apply float_nonneg, H | apply Qlt_le_weak, Hscale].
  - apply Qle_ceiling.
Qed.

(** Rounding does not cross an integer that is a float. *)
Lemma round_upper (q : Q) (ndigits : nat) (hi : Z) :
  float (inject_Z hi) = inject_Z hi ->
  (q <= inject_Z hi)%Q -> (round q ndigits <= inject_Z hi)%Q.
Proof.
  intros Hhi H. unfold round.
  apply Qle_trans with (float (inject_Z hi)); [|rewrite Hhi; apply Qle_refl].
  apply float_monotone.
  set (scale := (10 ^ Z.of_nat ndigits)%Z).
  assert (Hscale : (0 < inject_Z scale)%Q).
  { change 0%Q with (inject_Z 0). rewrite <- Zlt_Qlt. apply Z.pow_pos_nonneg; lia. }
  apply Qle_shift_div_r; [exact Hscale|].
  rewrite <- inject_Z_mult, <- Zle_Qle.
  apply (round_half_even_bounds _
           (Qfloor (float q * inject_Z scale)) (hi * scale)).
  - apply Qfloor_le.
  - rewrite inject_Z_mult. apply Qmult_le_compat_r; [|apply Qlt_le_weak, Hscale].
    apply Qle_trans with (float (inject_Z hi)); [|rewrite Hhi; apply Qle_refl].
    apply float_monotone, H.
Qed.

Lemma fdiv_length {A} (a : Q) (x : A) (xs : list A) :
  fdiv a (inject_Z (Z.of_nat (length (x :: xs))))
  = Ok (float (float a / float (inject_Z (Z.of_nat (length (x :: xs)))))).
Proof.
  unfold fdiv.
  destruct (Qeq_bool (inject_Z (Z.of_nat (length (x :: xs)))) 0) eqn:E; [|reflexivity].
  apply Qeq_bool_iff in E. unfold Qeq in E. simpl in E. lia.
Qed.

(** The percentage of a part of a whole, as the code computes it, lies
    between 0 and 100. *)
Lemma percentage_range (part whole : nat) :
  (part <= whole)%nat -> (0 < whole)%nat ->
  let ratio := float (float (inject_Z (Z.of_nat part))
                      / float (inject_Z (Z.of_nat whole))) in
  (0 <= fmul ratio 100)%Q /\ (fmul ratio 100 <= 100)%Q.
Proof.
  intros Hle Hpos ratio.
  assert (Hp : (0 <= float (inject_Z (Z.of_nat part)))%Q).
  { apply float_nonneg. change 0%Q with (inject_Z 0). rewrite <- Zle_Qle. lia. }
  assert (Hw : (0 < float (inject_Z (Z.of_nat whole)))%Q).
  { apply float_sign. change 0%Q with (inject_Z 0). rewrite <- Zlt_Qlt. lia. }
  assert (Hpw : (float (inject_Z (Z.of_nat part))
                 <= float (inject_Z (Z.of_nat whole)))%Q).
  { apply float_monotone. rewrite <- Zle_Qle. lia. }
  assert (Hratio : (0 <= ratio)%Q /\ (ratio <= 1)%Q).
  { apply (float_between _ 0 1); [reflexivity | reflexivity | |].
    - apply Qle_shift_div_l; [exact Hw | lra].
    - apply Qle_shift_div_r; [exact Hw | lra]. }
  destruct Hratio as [H0 H1].
  assert (Hfr : (0 <= float ratio)%Q /\ (float ratio <= 1)%Q)
    by (apply (float_between _ 0 1); [reflexivity | reflexivity | exact H0 | exact H1]).
  destruct Hfr as [H0' H1'].
  unfold fmul. change (float 100) with 100%Q.
  apply (float_between _ 0 100); [reflexivity | reflexivity | lra | lra].
Qed.

End Rounding.

Section ShoppingListMore.

Import Py PriceComparisonService.

#[local] Set Warnings "-clear-no-such-hyp".

Lemma resolved_lines_le shopping_list comparisons :
  (resolved_lines shopping_list comparisons <= length shopping_list)%nat.
Proof. unfold resolved_lines. apply List.filter_length_le. Qed.

(** On a list that is not empty the comparison returns, with a coverage
    between 0 and 100. *)
Lemma shopping_list_comparison_nonempty shopping_list comparisons :
  shopping_list <> [] ->
  exists r,
    shopping_list_comparison shopping_list comparisons = Ok r
    /\ Optimization.total_items r = length shopping_list
    /\ Optimization.items_compared r = resolved_lines shopping_list comparisons
    /\ (exists ratio,
          fdiv (inject_Z (Z.of_nat (resolved_lines shopping_list comparisons)))
            (inject_Z (Z.of_nat (length shopping_list))) = Ok ratio
          /\ Optimization.coverage r = round (fmul ratio 100) 1)
    /\ (0 <= Optimization.coverage r)%Q /\ (Optimization.coverage r <= 100)%Q.
Proof.
  intros Hne. destruct shopping_list as [|line rest]; [congruence|].
  destruct (accumulate_spec (line :: rest) comparisons) as (_ & _ & _ & Hfound).
  unfold shopping_list_comparison.
  destruct (find_best_store _ _) as [best_store best_total].
  rewrite !fdiv_length. cbn [bind]. eexists.
  split; [reflexivity|]. cbn [Optimization.total_items Optimization.items_compared
                               Optimization.coverage].
  rewrite Hfound. split; [reflexivity|]. split; [reflexivity|].
  split; [eexists; split; reflexivity|].
  set (l := line :: rest) in *.
  pose proof (resolved_lines_le l comparisons) as Hle.
  destruct (percentage_range (resolved_lines l comparisons) (length l) Hle
              ltac:(unfold l; simpl; lia)) as [H0 H100].
  split; [apply round_nonneg, H0 | apply (round_upper _ 1 100 eq_refl), H100].
Qed.

Lemma total_of_add_store quantity c totals entry store :
  total_of store (add_store quantity c totals entry)
  = if String.eqb (fst entry) store
    then fadd (total_of store totals) (fmul (StoreEntry.price (snd entry)) quantity)
    else total_of store totals.
Proof.
  unfold total_of. rewrite dict_get_add_store.
  rewrite (String.eqb_sym (fst entry) store).
  destruct (String.eqb store (fst entry)) eqn:E; [|reflexivity].
  apply String.eqb_eq in E. subst store.
  destruct (dict_get (fst entry) totals); reflexivity.
Qed.

Lemma fold_add_store_total quantity c entries store : forall totals,
  total_of store (fold_left (add_store quantity c) entries totals)
  = fold_left fadd
      (map (fun entry : string * StoreEntry.t =>
              fmul (StoreEntry.price entry.2) quantity)
         (List.filter (fun entry => String.eqb (fst entry) store) entries))
      (total_of store totals).
Proof.
  induction entries as [|entry entries IH]; intros totals; cbn [fold_left List.filter];
    [reflexivity|].
  rewrite IH, total_of_add_store.
  destruct (String.eqb (fst entry) store); reflexivity.
Qed.

Lemma fold_line_step_total comparisons store shopping_list : forall acc,
  let acc' := fold_left (line_step comparisons) shopping_list acc in
  total_of store (store_totals acc')
  = fold_left fadd (store_amounts shopping_list comparisons store)
      (total_of store (store_totals acc))
  /\ total_savings acc'
     = fold_left fadd (flat_map (line_savings comparisons) shopping_list)
         (total_savings acc).
Proof.
  induction shopping_list as [|line rest IH]; intros acc; cbn [fold_left].
  - split; reflexivity.
  - destruct (IH (line_step comparisons acc line)) as [Ht Hs].
    unfold store_amounts. cbn [flat_map]. rewrite !fold_left_app.
    cbv zeta. rewrite Ht, Hs. unfold line_step, line_amounts, line_savings.
    destruct (dict_get (ShoppingItem.item line) comparisons) as [c|];
      cbn [store_totals total_savings fold_left]; [|split; reflexivity].
    rewrite fold_add_store_total. split; reflexivity.
Qed.

(** X11. In the result of the optimizer the total shown for a store is
    the running float sum, rounded to two decimals, of price times
    quantity over the lines whose comparison lists the store, taken in
    the order of the list; its item count is the number of those lines,
    and the potential savings are the running float sum, rounded to two
    decimals, of savings times quantity over the lines that have a
    comparison; a missing quantity counts as 1. *)
Theorem store_totals_are_sums
    (shopping_list : list ShoppingItem.t) (comparisons : dict PriceComparison.t)
    (r : Optimization.t) :
  shopping_list_comparison shopping_list comparisons = Ok r ->
  Optimization.potential_savings r
  = round (running_sum (flat_map (line_savings comparisons) shopping_list)) 2
  /\ forall store summary,
       dict_get store (Optimization.store_comparisons r) = Some summary ->
       StoreSummary.total summary
       = round (running_sum (store_amounts shopping_list comparisons store)) 2
       /\ StoreSummary.items_found summary
          = length (store_amounts shopping_list comparisons store).
Proof.
  intros Hr.
  destruct (shopping_list_comparison_returns _ _ _ Hr) as (_ & Hcmp & _).
  destruct (accumulate_spec shopping_list comparisons) as (Hs & Hc & _).
  destruct (fold_line_step_total comparisons "" shopping_list (mk_totals [] 0 0))
    as [_ Hsavings].
  split.
  - unfold shopping_list_comparison in Hr.
    destruct (find_best_store _ _) as [best_store best_total].
    destruct (fdiv _ _); [|discriminate]. injection Hr as <-.
    cbn [Optimization.potential_savings]. unfold accumulate. cbv zeta in Hsavings.
    rewrite Hsavings. reflexivity.
  - intros store summary Hsum. rewrite Hcmp, dict_get_summarize in Hsum.
    destruct (dict_get store (store_totals (accumulate shopping_list comparisons)))
      as [data|] eqn:E; [|discriminate].
    injection Hsum as <-. cbn [StoreSummary.total StoreSummary.items_found].
    destruct (fold_line_step_total comparisons store shopping_list (mk_totals [] 0 0))
      as [Htotal _].
    cbv zeta in Htotal. fold (accumulate shopping_list comparisons) in Htotal.
    unfold total_of at 1 in Htotal. rewrite E in Htotal.
    split; [rewrite Htotal; reflexivity|].
    destruct (Hc _ _ E) as [-> _]. specialize (Hs store). unfold scores_of in Hs.
    rewrite E in Hs. rewrite Hs. unfold store_weights, store_amounts.
    clear. induction shopping_list as [|line rest IH]; [reflexivity|].
    cbn [flat_map]. rewrite !length_app, IH. f_equal.
    unfold line_weights, line_amounts.
    destruct (dict_get (ShoppingItem.item line) comparisons); [|reflexivity].
    rewrite !length_map. reflexivity.
Qed.

Lemma store_totals_are_sums_witness :
  exists r summary,
    shopping_list_comparison Sample.milk_and_bread_list Sample.half_covered = Ok r
    /\ dict_get "walmart" (Optimization.store_comparisons r) = Some summary
    /\ StoreSummary.total summary
       = round (running_sum (store_amounts Sample.milk_and_bread_list
                               Sample.half_covered "walmart")) 2
    /\ StoreSummary.total summary = float 5.77.
Proof.
  eexists _, _.
  destruct (store_totals_are_sums Sample.milk_and_bread_list Sample.half_covered _
              ltac:(vm_compute; reflexivity)) as [_ H].
  destruct (H "walmart"%string _ ltac:(vm_compute; reflexivity)) as [Htotal _].
  split; [vm_compute; reflexivity|]. split; [vm_compute; reflexivity|].
  split; [exact Htotal | reflexivity].
Defined.

End ShoppingListMore.

Section ShoppingListLabels.

Import Py PriceComparisonService.

#[local] Set Warnings "-clear-no-such-hyp".

Lemma sum_lower_bound (a : Q) (l : list Q) : forall acc,
  (forall x, x ∈ l -> (a <= x)%Q) ->
  (acc + a * inject_Z (Z.of_nat (length l)) <= fold_left Qplus l acc)%Q.
Proof.
  induction l as [|x l IH]; intros acc H; cbn [fold_left length].
  - change (inject_Z (Z.of_nat 0)) with 0%Q. lra.
  - rewrite Nat2Z.inj_succ, <- Z.add_1_r, inject_Z_plus.
    change (inject_Z 1) with 1%Q.
    assert (Hx : (a <= x)%Q) by (apply H; left).
    assert (IH' := IH (acc + x)%Q ltac:(intros y Hy; apply H; right; exact Hy)).
    lra.
Qed.

Lemma sum_upper_bound (b : Q) (l : list Q) : forall acc,
  (forall x, x ∈ l -> (x <= b)%Q) ->
  (fold_left Qplus l acc <= acc + b * inject_Z (Z.of_nat (length l)))%Q.
Proof.
  induction l as [|x l IH]; intros acc H; cbn [fold_left length].
  - change (inject_Z (Z.of_nat 0)) with 0%Q. lra.
  - rewrite Nat2Z.inj_succ, <- Z.add_1_r, inject_Z_plus.
    change (inject_Z 1) with 1%Q.
    assert (Hx : (x <= b)%Q) by (apply H; left).
    assert (IH' := IH (acc + x)%Q ltac:(intros y Hy; apply H; right; exact Hy)).
    lra.
Qed.

(** The mean of a non-empty list lies between its bounds. *)
Lemma average_bounds (a b : Q) (x : Q) (xs : list Q) :
  (forall y, y ∈ x :: xs -> (a <= y)%Q /\ (y <= b)%Q) ->
  (a <= average (x :: xs))%Q /\ (average (x :: xs) <= b)%Q.
Proof.
  intros H. unfold average, sum.
  assert (Hlen : (0 < inject_Z (Z.of_nat (length (x :: xs))))%Q).
  { change 0%Q with (inject_Z 0). rewrite <- Zlt_Qlt. simpl. lia. }
  pose proof (sum_lower_bound a (x :: xs) 0 ltac:(intros y Hy; apply H, Hy)) as Hlo.
  pose proof (sum_upper_bound b (x :: xs) 0 ltac:(intros y Hy; apply H, Hy)) as Hhi.
  split.
  - apply Qle_shift_div_l; [exact Hlen | lra].
  - apply Qle_shift_div_r; [exact Hlen | lra].
Qed.

Lemma store_weights_labels shopping_list comparisons store :
  store_weights shopping_list comparisons store
  = map confidence_value (store_labels shopping_list comparisons store).
Proof.
  unfold store_weights, store_labels.
  induction shopping_list as [|line rest IH]; [reflexivity|].
  cbn [flat_map]. rewrite map_app, IH. f_equal.
  unfold line_weights, line_labels.
  destruct (dict_get (ShoppingItem.item line) comparisons); [|reflexivity].
  rewrite map_map. reflexivity.
Qed.

(** [statistics.mean] stays between two floats that bound the values. *)
Lemma mean_bounds (a b : Q) (x : Q) (xs : list Q) :
  float a = a -> float b = b ->
  (forall y, y ∈ x :: xs -> (a <= float y)%Q /\ (float y <= b)%Q) ->
  (a <= mean x xs)%Q /\ (mean x xs <= b)%Q.
Proof.
  intros Ha Hb H. unfold mean.
  destruct (average_bounds a b (float x) (map float xs)) as [Hlo Hhi].
  { intros y Hy. change (float x :: map float xs) with (map float (x :: xs)) in Hy.
    apply list_elem_of_fmap in Hy as (z & -> & Hz). apply H, Hz. }
  unfold average in Hlo, Hhi.
  change (float x :: map float xs) with (map float (x :: xs)) in Hlo, Hhi.
  rewrite length_map in Hlo, Hhi.
  apply float_between; assumption.
Qed.

Lemma confidence_value_range (c : confidence_level) :
  float (confidence_value c) = confidence_value c
  /\ (float 0.4 <= confidence_value c)%Q /\ (confidence_value c <= 1)%Q
  /\ (c <> high -> (confidence_value c <= float 0.7)%Q)
  /\ (c <> low -> (float 0.7 <= confidence_value c)%Q).
Proof.
  destruct c; (split; [vm_compute; reflexivity|]);
    repeat split; intros; try congruence; vm_compute; discriminate.
Qed.

(** The label of a list of confidence values of given labels. *)
Lemma store_confidence_between (label : confidence_level)
    (labels : list confidence_level) :
  let result := store_confidence (map confidence_value (label :: labels)) in
  (high ∉ label :: labels -> result <> high)
  /\ (low ∉ label :: labels -> result <> low)
  /\ forall c, (forall l, l ∈ label :: labels -> l = c) -> result = c.
Proof.
  set (weights := map confidence_value (label :: labels)).
  assert (Hw : forall y, y ∈ weights ->
                 exists l, l ∈ label :: labels /\ y = confidence_value l).
  { intros y Hy. apply list_elem_of_fmap in Hy as (l & -> & Hl). eauto. }
  cbv zeta. unfold weights in *. cbn [map] in *.
  destruct (store_confidence_cases (confidence_value label)
              (map confidence_value labels)) as (Hh & Hm & Hl).
  set (avg := mean (confidence_value label) (map confidence_value labels)) in *.
  assert (H46 : (float 0.4 < float 0.6)%Q) by (vm_compute; reflexivity).
  assert (H67 : (float 0.6 < float 0.7)%Q) by (vm_compute; reflexivity).
  assert (H78 : (float 0.7 < float 0.8)%Q) by (vm_compute; reflexivity).
  assert (H81 : (float 0.8 < 1)%Q) by (vm_compute; reflexivity).
  assert (F4 : float (float 0.4) = float 0.4) by (vm_compute; reflexivity).
  assert (F7 : float (float 0.7) = float 0.7) by (vm_compute; reflexivity).
  assert (F1 : float 1 = 1%Q) by reflexivity.
  set (w4 := float 0.4) in *. set (w6 := float 0.6) in *.
  set (w7 := float 0.7) in *. set (w8 := float 0.8) in *.
  split; [|split].
  - intros Hnone Hres.
    destruct (mean_bounds w4 w7 (confidence_value label)
                (map confidence_value labels) F4 F7) as [_ Hup].
    { intros y Hy. destruct (Hw y Hy) as (l & Hl' & ->).
      destruct (confidence_value_range l) as (-> & H1 & _ & H3 & _).
      split; [exact H1 | apply H3]. intros ->. contradiction. }
    fold avg in Hup.
    destruct (Qlt_le_dec avg w6) as [Hlt | Hge].
    + rewrite (Hl Hlt) in Hres. discriminate.
    + rewrite (Hm Hge) in Hres by lra. discriminate.
  - intros Hnone Hres.
    destruct (mean_bounds w7 1 (confidence_value label)
                (map confidence_value labels) F7 F1) as [Hlow _].
    { intros y Hy. destruct (Hw y Hy) as (l & Hl' & ->).
      destruct (confidence_value_range l) as (-> & _ & H2 & _ & H4).
      split; [apply H4 | exact H2]. intros ->. contradiction. }
    fold avg in Hlow.
    destruct (Qlt_le_dec avg w8) as [Hlt | Hge].
    + rewrite (Hm ltac:(lra) Hlt) in Hres. discriminate.
    + rewrite (Hh Hge) in Hres. discriminate.
  - intros c Hall.
    destruct (confidence_value_range c) as (Fc & _).
    destruct (mean_bounds (confidence_value c) (confidence_value c)
                (confidence_value label) (map confidence_value labels) Fc Fc)
      as [Hlo Hup].
    { intros y Hy. destruct (Hw y Hy) as (l & Hl' & ->).
      rewrite (Hall l Hl'), Fc. split; apply Qle_refl. }
    fold avg in Hlo, Hup.
    destruct c; cbn [confidence_value] in Hlo, Hup;
      change (float 1.0) with 1%Q in Hlo, Hup;
      fold w7 in Hlo, Hup; fold w4 in Hlo, Hup;
      [apply Hh | apply Hm | apply Hl]; lra.
Qed.

(** X12. The label of a store in the result of the optimizer is never
    better than the best label among the comparisons that contribute to
    the store and never worse than the worst: without a [high]
    comparison it is not [high], without a [low] one it is not [low],
    and when all comparisons agree it is their label. *)
Theorem store_label_between_comparisons
    (shopping_list : list ShoppingItem.t) (comparisons : dict PriceComparison.t)
    (r : Optimization.t) (store : string) (summary : StoreSummary.t) :
  shopping_list_comparison shopping_list comparisons = Ok r ->
  dict_get store (Optimization.store_comparisons r) = Some summary ->
  let labels := store_labels shopping_list comparisons store in
  labels <> []
  /\ (high ∉ labels -> StoreSummary.confidence summary <> high)
  /\ (low ∉ labels -> StoreSummary.confidence summary <> low)
  /\ forall c, (forall l, l ∈ labels -> l = c) -> StoreSummary.confidence summary = c.
Proof.
  intros Hr Hsum.
  destruct (shopping_list_comparison_returns _ _ _ Hr) as (_ & Hcmp & _).
  destruct (accumulate_spec shopping_list comparisons) as (Hs & Hc & _).
  rewrite Hcmp, dict_get_summarize in Hsum.
  destruct (dict_get store (store_totals (accumulate shopping_list comparisons)))
    as [data|] eqn:E; [|discriminate].
  injection Hsum as <-. cbn [StoreSummary.confidence].
  specialize (Hs store). unfold scores_of in Hs. rewrite E in Hs.
  destruct (Hc _ _ E) as [_ Hne]. rewrite Hs, store_weights_labels in *.
  cbv zeta.
  destruct (store_labels shopping_list comparisons store) as [|label labels];
    [contradiction|].
  split; [discriminate|]. apply store_confidence_between.
Qed.

Lemma store_label_between_comparisons_witness :
  exists r summary,
    shopping_list_comparison Sample.milk_and_bread_list Sample.milk_and_bread = Ok r
    /\ dict_get "walmart" (Optimization.store_comparisons r) = Some summary
    /\ store_labels Sample.milk_and_bread_list Sample.milk_and_bread "walmart"
       = [medium; low]
    /\ StoreSummary.confidence summary <> high.
Proof.
  eexists _, _.
  destruct (store_label_between_comparisons Sample.milk_and_bread_list
              Sample.milk_and_bread _ "walmart" _
              ltac:(vm_compute; reflexivity) ltac:(vm_compute; reflexivity))
    as (_ & Hhigh & _).
  split; [vm_compute; reflexivity|]. split; [vm_compute; reflexivity|].
  split; [vm_compute; reflexivity|].
  apply Hhigh. change (high ∉ [medium; low]).
  intros H. apply elem_of_cons in H as [H | H]; [discriminate|].
  apply list_elem_of_singleton in H. discriminate.
Defined.

Lemma shopping_list_comparison_best shopping_list comparisons r :
  shopping_list_comparison shopping_list comparisons = Ok r ->
  let acc := accumulate shopping_list comparisons in
  let best := find_best_store (store_totals acc) (items_found acc) in
  Optimization.best_store r = best.1
  /\ Optimization.best_total r
     = match best with
       | (Some store, Some b) =>
           if String.eqb store "" then None else Some (round b 2)
       | _ => None
       end.
Proof.
  unfold shopping_list_comparison.
  destruct (find_best_store _ _) as [best_store best_total].
  destruct (fdiv _ _); cbn [bind]; [|discriminate].
  intros [= <-]. split; reflexivity.
Qed.

(** X13. The optimizer names no best store exactly when no store of the
    running totals reaches the coverage floor of 70% of the lines that
    have a comparison, in particular when no line has one; it then
    gives no best total.  When it names a store, the best total is the
    running total of that store rounded to two decimals. *)
Theorem no_best_store_without_coverage
    (shopping_list : list ShoppingItem.t) (comparisons : dict PriceComparison.t)
    (r : Optimization.t) :
  shopping_list_comparison shopping_list comparisons = Ok r ->
  let acc := accumulate shopping_list comparisons in
  let floor :=
    (inject_Z (Z.of_nat (resolved_lines shopping_list comparisons)) * 0.7)%Q in
  (Optimization.best_store r = None
   <-> forall store data,
         dict_get store (store_totals acc) = Some data ->
         (inject_Z (Z.of_nat (StoreTotal.items data)) < floor)%Q)
  /\ (Optimization.best_store r = None -> Optimization.best_total r = None)
  /\ (resolved_lines shopping_list comparisons = 0%nat ->
      Optimization.best_store r = None /\ Optimization.store_comparisons r = [])
  /\ (forall store, Optimization.best_store r = Some store -> store <> ""%string ->
        exists data,
          dict_get store (store_totals acc) = Some data
          /\ Optimization.best_total r = Some (round (StoreTotal.total data) 2)).
Proof.
  intros Hr acc floor.
  destruct (shopping_list_comparison_best _ _ _ Hr) as [Hbest Htotal].
  destruct (shopping_list_comparison_returns _ _ _ Hr) as (_ & Hcmp & _).
  destruct (accumulate_spec shopping_list comparisons) as (Hs & Hc & Hn & Hi).
  fold acc in Hbest, Htotal, Hcmp, Hs, Hc, Hn, Hi.
  pose proof (find_best_store_spec (store_totals acc) (items_found acc)) as Hspec.
  assert (Hfloor : forall data,
             covers (items_found acc) data = false
             <-> (inject_Z (Z.of_nat (StoreTotal.items data)) < floor)%Q).
  { intros data. rewrite <- not_true_iff_false, covers_iff, Hi. unfold floor.
    split; [apply Qnot_le_lt | apply Qlt_not_le]. }
  assert (Hiff : Optimization.best_store r = None
                 <-> forall store data,
                       dict_get store (store_totals acc) = Some data ->
                       (inject_Z (Z.of_nat (StoreTotal.items data)) < floor)%Q).
  { rewrite Hbest.
    destruct (find_best_store (store_totals acc) (items_found acc)) as [[b|] [t|]];
      cbn [fst] in *; try contradiction.
    - destruct Hspec as (data & Hin & _ & Hcov & _). split; [discriminate|].
      intros H. apply (elem_dict_get _ _ _ Hn) in Hin.
      apply H, Hfloor in Hin. congruence.
    - split; [|reflexivity]. intros _ store data Hin.
      apply Hfloor, (Hspec store), dict_get_elem, Hin. }
  split; [exact Hiff|]. split; [|split].
  - rewrite Hbest, Htotal.
    destruct (find_best_store (store_totals acc) (items_found acc)) as [[b|] [t|]];
      cbn [fst]; try discriminate; reflexivity.
  - intros Hzero.
    assert (Hempty : store_totals acc = []).
    { destruct (store_totals acc) as [|[store data] rest] eqn:E; [reflexivity|].
      exfalso. assert (Hget : dict_get store ((store, data) :: rest) = Some data).
      { cbn [dict_get]. rewrite String.eqb_refl. reflexivity. }
      destruct (Hc _ _ Hget) as [_ Hne]. specialize (Hs store).
      unfold scores_of in Hs. rewrite Hget in Hs. apply Hne. rewrite Hs.
      clear - Hzero. unfold resolved_lines in Hzero. unfold store_weights.
      induction shopping_list as [|line rest IH]; [reflexivity|].
      cbn [flat_map List.filter] in *. unfold line_weights at 1.
      destruct (dict_get (ShoppingItem.item line) comparisons) as [c|].
      - rewrite bool_decide_eq_true_2 in Hzero by eauto. discriminate Hzero.
      - rewrite bool_decide_eq_false_2 in Hzero by (intros [? ?]; discriminate).
        apply IH, Hzero. }
    split; [|rewrite Hcmp, Hempty; reflexivity].
    apply Hiff. intros store data Hget. rewrite Hempty in Hget. discriminate Hget.
  - intros store Hstore Hname. rewrite Hbest in Hstore. rewrite Htotal.
    destruct (find_best_store (store_totals acc) (items_found acc)) as [[b|] [t|]];
      cbn [fst] in *; try discriminate; try contradiction.
    injection Hstore as ->. destruct Hspec as (data & Hin & -> & _).
    exists data. split; [apply (elem_dict_get _ _ _ Hn), Hin|].
    apply String.eqb_neq in Hname. rewrite Hname. reflexivity.
Qed.

Lemma no_best_store_without_coverage_witness :
  (exists r,
     shopping_list_comparison Sample.milk_and_bread_list [] = Ok r
     /\ Optimization.best_store r = None
     /\ Optimization.best_total r = None
     /\ Optimization.store_comparisons r = [])
  /\ (exists r data,
        shopping_list_comparison Sample.milk_and_bread_list Sample.half_covered = Ok r
        /\ Optimization.best_store r = Some "walmart"%string
        /\ dict_get "walmart"%string
             (store_totals (accumulate Sample.milk_and_bread_list Sample.half_covered))
           = Some data
        /\ StoreTotal.items data = 2%nat
        /\ Optimization.best_total r = Some (round (StoreTotal.total data) 2)
        /\ Optimization.best_total r = Some (Py.float 5.77)).
Proof.
  split.
  - eexists.
    destruct (no_best_store_without_coverage Sample.milk_and_bread_list [] _
                ltac:(vm_compute; reflexivity)) as (_ & Htotal & Hnone & _).
    split; [vm_compute; reflexivity|].
    destruct (Hnone ltac:(reflexivity)) as [Hbest Hcmp].
    split; [exact Hbest|]. split; [apply Htotal, Hbest | exact Hcmp].
  - eexists.
    destruct (no_best_store_without_coverage Sample.milk_and_bread_list
                Sample.half_covered _ ltac:(vm_compute; reflexivity))
      as (_ & _ & _ & Hnamed).
    destruct (Hnamed "walmart"%string ltac:(vm_compute; reflexivity)
                ltac:(discriminate)) as (data & Hget & Htotal).
    exists data.
    split; [vm_compute; reflexivity|].
    split; [vm_compute; reflexivity|].
    split; [exact Hget|].
    split; [|split; [exact Htotal | vm_compute; reflexivity]].
    assert (Hdata : Some data = Some data) by reflexivity.
    rewrite <- Hget in Hdata at 1. vm_compute in Hdata.
    injection Hdata as <-. reflexivity.
Defined.

Context {World PriceResult : Type}.
Variable clock : World -> datetime.
Variable _get_cached_prices :
  string -> option (list string) -> M (World := World) (list PriceData.t).
Variable scrape_product_prices :
  list string -> list string -> M (World := World) (list PriceResult).
Variable save_price_data : list PriceResult -> M (World := World) Z.

(** X14. On a shopping list that is not empty
    [get_shopping_list_comparison] never raises: it returns a result
    that counts all the lines, at most as many compared lines, and a
    coverage between 0 and 100: the float quotient of the compared
    lines by the lines, times 100, rounded to one decimal as [round]
    rounds a float. *)
Theorem nonempty_shopping_list_returns (shopping_list : list ShoppingItem.t)
    (w : World) :
  shopping_list <> [] ->
  exists w' r,
    get_shopping_list_comparison clock _get_cached_prices scrape_product_prices
      save_price_data shopping_list w = (w', Ok r)
    /\ Optimization.total_items r = length shopping_list
    /\ (Optimization.items_compared r <= Optimization.total_items r)%nat
    /\ (exists ratio,
          fdiv (inject_Z (Z.of_nat (Optimization.items_compared r)))
            (inject_Z (Z.of_nat (Optimization.total_items r))) = Ok ratio
          /\ Optimization.coverage r = round (fmul ratio 100) 1)
    /\ (0 <= Optimization.coverage r)%Q /\ (Optimization.coverage r <= 100)%Q.
Proof.
  intros Hne. unfold get_shopping_list_comparison, mbind, lift.
  destruct (for_each_compare_returns clock _get_cached_prices scrape_product_prices
              save_price_data None false (map ShoppingItem.item shopping_list) [] w)
    as (w' & comparisons & Hrun & _).
  unfold compare_prices. rewrite Hrun.
  destruct (shopping_list_comparison_nonempty shopping_list comparisons Hne)
    as (r & Hr & Htotal & Hitems & Hcov & Hlo & Hhi).
  exists w', r. rewrite Hr, Htotal, Hitems. split; [reflexivity|].
  split; [reflexivity|]. split; [apply resolved_lines_le|].
  split; [exact Hcov|]. split; assumption.
Qed.

End ShoppingListLabels.

Lemma nonempty_shopping_list_returns_witness :
  exists w' r,
    PriceComparisonService.get_shopping_list_comparison Sample.at_noon
      Sample.failing_query Sample.idle_scraper Sample.idle_save
      Sample.milk_and_bread_list ()
    = (w', Py.Ok r)
    /\ (Optimization.coverage r == 50)%Q.
Proof.
  destruct (nonempty_shopping_list_returns Sample.at_noon Sample.failing_query
              Sample.idle_scraper Sample.idle_save Sample.milk_and_bread_list ()
              ltac:(discriminate))
    as (w' & r & Hrun & _).
  exists w', r. split; [exact Hrun|].
  vm_compute in Hrun. injection Hrun as _ <-. reflexivity.
Defined.


(** ** Price trends *)

Section Trends.

Import Py PriceComparisonService.

#[local] Set Warnings "-clear-no-such-hyp".

Lemma history_of_app store prices p :
  history_of store (prices ++ [p])
  = history_of store prices
    ++ (if String.eqb (PriceData.store_name p) store then [trend_point p] else []).
Proof.
  unfold history_of. rewrite List.filter_app, map_app. cbn [List.filter].
  destruct (String.eqb (PriceData.store_name p) store); reflexivity.
Qed.

Lemma entry_of_default {A} (l : list A) : default [] (entry_of l) = l.
Proof. destruct l; reflexivity. Qed.

Lemma group_history_step d seen p :
  NoDup (keys d) /\ (forall store, dict_get store d = entry_of (history_of store seen)) ->
  NoDup (keys (history_step d p))
  /\ forall store,
       dict_get store (history_step d p) = entry_of (history_of store (seen ++ [p])).
Proof.
  intros [Hnd Hget]. unfold history_step. split; [apply NoDup_keys_dict_set, Hnd|].
  intros store. rewrite dict_get_set, history_of_app, (String.eqb_sym store).
  destruct (String.eqb (PriceData.store_name p) store) eqn:E.
  - apply String.eqb_eq in E. subst store. rewrite Hget, entry_of_default.
    destruct (history_of (PriceData.store_name p) seen); reflexivity.
  - rewrite app_nil_r. apply Hget.
Qed.

Lemma group_history_fold prices : forall d seen,
  NoDup (keys d) /\ (forall store, dict_get store d = entry_of (history_of store seen)) ->
  NoDup (keys (fold_left history_step prices d))
  /\ forall store,
       dict_get store (fold_left history_step prices d)
       = entry_of (history_of store (seen ++ prices)).
Proof.
  induction prices as [|p prices IH]; intros d seen H; cbn [fold_left].
  - rewrite app_nil_r. exact H.
  - replace (seen ++ p :: prices) with ((seen ++ [p]) ++ prices)
      by (rewrite <- app_assoc; reflexivity).
    apply IH, group_history_step, H.
Qed.

(** The grouping of the rows: one entry per store that has rows, holding
    the history of the store. *)
Lemma group_history_spec prices :
  NoDup (keys (group_history prices))
  /\ forall store,
       dict_get store (group_history prices) = entry_of (history_of store prices).
Proof.
  apply (group_history_fold prices [] []). split; [apply NoDup_nil; exact I|].
  intros store. reflexivity.
Qed.


Lemma analyse_cases (h : list TrendPoint.t) :
  match h with
  | first :: second :: rest =>
      if Qeq_bool (TrendPoint.price first) 0
      then analyse h = Raise ZeroDivisionError
      else exists a,
             analyse h = Ok (Some a)
             /\ TrendAnalysis.first_price a = TrendPoint.price first
             /\ TrendAnalysis.last_price a = TrendPoint.price (List.last h first)
             /\ TrendAnalysis.data_points a = length h
             /\ TrendAnalysis.change_amount a
                = round (fsub (TrendAnalysis.last_price a)
                           (TrendAnalysis.first_price a)) 2
             /\ let percent :=
                  change_percent (TrendAnalysis.first_price a)
                    (TrendAnalysis.last_price a) in
                TrendAnalysis.change_percent a = round percent 1
                /\ ((5 < percent)%Q -> TrendAnalysis.trend a = increasing)
                /\ ((percent < -5)%Q -> TrendAnalysis.trend a = decreasing)
                /\ ((-5 <= percent)%Q -> (percent <= 5)%Q ->
                    TrendAnalysis.trend a = stable)
  | _ => analyse h = Ok None
  end.
Proof.
  destruct h as [|first [|second rest]]; try reflexivity.
  unfold analyse, fdiv.
  destruct (Qeq_bool (TrendPoint.price first) 0); [reflexivity|].
  cbn [bind]. eexists. split; [reflexivity|].
  cbn [TrendAnalysis.first_price TrendAnalysis.last_price TrendAnalysis.data_points
       TrendAnalysis.change_amount TrendAnalysis.change_percent TrendAnalysis.trend].
  repeat (split; [reflexivity|]).
  fold (change_percent (TrendPoint.price first)
          (TrendPoint.price (List.last (first :: second :: rest) first))).
  set (percent := change_percent _ _).
  destruct (Qltb 5 percent) eqn:E1.
  - apply Qltb_true in E1. repeat split; intros; try reflexivity; exfalso; lra.
  - apply Qltb_false in E1. destruct (Qltb percent (-5)) eqn:E2.
    + apply Qltb_true in E2. repeat split; intros; try reflexivity; exfalso; lra.
    + apply Qltb_false in E2. repeat split; intros; try reflexivity; exfalso; lra.
Qed.

Lemma analyse_all_spec items : forall acc,
  NoDup (keys items) ->
  match analyse_all items acc with
  | Ok result =>
      (forall store h, (store, h) ∈ items -> exists a, analyse h = Ok a)
      /\ forall store,
           dict_get store result
           = match dict_get store items with
             | Some h =>
                 match analyse h with
                 | Ok (Some a) => Some a
                 | _ => dict_get store acc
                 end
             | None => dict_get store acc
             end
  | Raise e =>
      e = ZeroDivisionError
      /\ exists store h, (store, h) ∈ items /\ analyse h = Raise ZeroDivisionError
  end.
Proof.
  induction items as [|[store h] items IH]; intros acc Hnd; cbn [analyse_all].
  - split; [|reflexivity]. intros s h' H. apply elem_of_nil in H. contradiction.
  - cbn [keys map fst] in Hnd. apply NoDup_cons in Hnd as [Hfresh Hnd].
    pose proof (analyse_cases h) as Hcase.
    destruct (analyse h) as [analysis|e] eqn:Ean; cbn [bind]; cbv beta iota.
    + specialize (IH (match analysis with
                      | Some a => dict_set store a acc
                      | None => acc
                      end) Hnd).
      destruct (analyse_all items _) as [result|e].
      * destruct IH as [Hall Hget]. split.
        -- intros s h' H. apply elem_of_cons in H as [[= -> ->] | H]; eauto.
        -- intros s. rewrite Hget. cbn [dict_get].
           destruct (String.eqb s store) eqn:E.
           ++ apply String.eqb_eq in E. subst s.
              assert (Hnone : dict_get store items = None)
                by (apply dict_get_None, Hfresh).
              rewrite Hnone, Ean.
              destruct analysis as [a|]; [apply dict_get_set_eq | reflexivity].
           ++ apply String.eqb_neq in E.
              destruct analysis as [a|]; [|reflexivity].
              rewrite (dict_get_set_ne acc s store a E). reflexivity.
      * destruct IH as [-> (s & h' & Hin & Hr)]. split; [reflexivity|].
        exists s, h'. split; [right; exact Hin | exact Hr].
    + assert (He : e = ZeroDivisionError).
      { destruct h as [|first [|second rest]]; try discriminate.
        destruct (Qeq_bool (TrendPoint.price first) 0); [congruence|].
        destruct Hcase as (a & Ha & _). congruence. }
      subst e. split; [reflexivity|]. exists store, h. split; [left | exact Ean].
Qed.

Lemma group_history_elem prices store h :
  (store, h) ∈ group_history prices <-> h = history_of store prices /\ h <> [].
Proof.
  destruct (group_history_spec prices) as [Hnd Hget]. split.
  - intros Hin. apply (elem_dict_get _ _ _ Hnd) in Hin. rewrite Hget in Hin.
    destruct (history_of store prices) as [|x l]; [discriminate|].
    injection Hin as <-. split; [reflexivity | discriminate].
  - intros [-> Hne]. apply dict_get_elem. rewrite Hget.
    destruct (history_of store prices); [contradiction | reflexivity].
Qed.

(** X15. [track_price_trends], once its rows are read, raises exactly
    when some store has two rows or more and a first price of zero, and
    then it is [ZeroDivisionError]; without rows it returns the
    "No price history available" dictionary. *)
Theorem price_trends_raises_on_zero_first_price (product_name : string) (days : Z)
    (prices : list PriceData.t) :
  (price_trends product_name days prices = Raise ZeroDivisionError
   <-> exists store first second rest,
         history_of store prices = first :: second :: rest
         /\ (TrendPoint.price first == 0)%Q)
  /\ (forall e, price_trends product_name days prices = Raise e ->
                e = ZeroDivisionError)
  /\ (prices = [] ->
      price_trends product_name days prices = Ok (inl "No price history available")).
Proof.
  destruct (group_history_spec prices) as [Hnd Hget].
  pose proof (analyse_all_spec (group_history prices) [] Hnd) as Hall.
  assert (Hrun : price_trends product_name days prices
                 = match prices with
                   | [] => Ok (inl "No price history available")
                   | _ =>
                       match analyse_all (group_history prices) [] with
                       | Ok trend_analysis =>
                           Ok (inr (TrendReport.mk product_name days
                                      (keys (group_history prices)) trend_analysis
                                      (group_history prices) (length prices)))
                       | Raise e => Raise e
                       end
                   end).
  { unfold price_trends. destruct prices; [reflexivity|].
    destruct (analyse_all _ _); reflexivity. }
  split; [|split].
  - rewrite Hrun. split.
    + intros Hraise. destruct prices as [|p0 rest0]; [discriminate|].
      destruct (analyse_all (group_history (p0 :: rest0)) []) as [result|e];
        [discriminate|].
      destruct Hall as [_ (store & h & Hin & Hr)].
      apply group_history_elem in Hin as [-> _].
      pose proof (analyse_cases (history_of store (p0 :: rest0))) as Hcase.
      destruct (history_of store (p0 :: rest0)) as [|first [|second rest]] eqn:Eh;
        try congruence.
      exists store, first, second, rest. split; [exact Eh|].
      destruct (Qeq_bool (TrendPoint.price first) 0) eqn:E;
        [apply Qeq_bool_iff, E|].
      destruct Hcase as (a & Ha & _). congruence.
    + intros (store & first & second & rest & Hh & Hzero).
      destruct prices as [|p0 rest0]; [discriminate Hh|].
      destruct (analyse_all (group_history (p0 :: rest0)) []) as [result|e].
      * exfalso. destruct Hall as [Hok _].
        destruct (Hok store (first :: second :: rest)) as [a Ha].
        { apply group_history_elem. split; [symmetry; exact Hh | discriminate]. }
        pose proof (analyse_cases (first :: second :: rest)) as Hcase.
        cbv beta iota in Hcase. apply Qeq_bool_iff in Hzero. rewrite Hzero in Hcase.
        congruence.
      * destruct Hall as [-> _]. reflexivity.
  - intros e. rewrite Hrun. destruct prices; [discriminate|].
    destruct (analyse_all _ _) as [result|e']; [discriminate|].
    destruct Hall as [-> _]. intros [= <-]. reflexivity.
  - intros ->. reflexivity.
Qed.


End Trends.


(** ** Substitutes *)

Section Substitutes.

Import Py PyStr PriceComparisonService.

#[local] Set Warnings "-clear-no-such-hyp".

(** A float difference is positive only for a smaller subtrahend, and
    is never negative for one. *)
Lemma fsub_positive (a b : Q) : (0 < fsub a b)%Q -> (b < a)%Q.
Proof.
  unfold fsub. intros H. apply Qnot_le_lt. intros Hab.
  pose proof (float_monotone _ _ Hab) as Hf.
  assert (Hd : (float (float a - float b) <= 0)%Q)
    by (apply (float_monotone _ 0); lra).
  lra.
Qed.

Lemma fsub_nonneg (a b : Q) : (b <= a)%Q -> (0 <= fsub a b)%Q.
Proof.
  intros H. unfold fsub. apply float_nonneg.
  pose proof (float_monotone _ _ H). lra.
Qed.

(** The loop of [find_substitutes]: what it adds to the list are the
    rows cheaper than the average, in order. *)
Lemma cheaper_spec (avg : Q) (rows : list PriceData.t) : forall substitutes,
  match cheaper avg rows substitutes with
  | Ok result =>
      exists added,
        result = substitutes ++ added
        /\ forall s, s ∈ added ->
             (Substitute.price s < avg)%Q
             /\ Substitute.savings s = round (fsub avg (Substitute.price s)) 2
             /\ exists row, row ∈ rows
                  /\ Substitute.product_name s = PriceData.product_name row
                  /\ Substitute.store s = PriceData.store_name row
                  /\ Substitute.price s = PriceData.price row
  | Raise e =>
      e = ZeroDivisionError /\ (avg == 0)%Q
      /\ exists row, row ∈ rows /\ (PriceData.price row < avg)%Q
  end.
Proof.
  induction rows as [|row rows IH]; intros substitutes; cbn [cheaper].
  - exists []. rewrite app_nil_r. split; [reflexivity|].
    intros s Hs. apply elem_of_nil in Hs. contradiction.
  - destruct (Qltb 0 (fsub avg (PriceData.price row))) eqn:E.
    + apply Qltb_true, fsub_positive in E. unfold fdiv.
      destruct (Qeq_bool avg 0) eqn:Ezero; cbn [bind].
      * apply Qeq_bool_iff in Ezero. split; [reflexivity|]. split; [exact Ezero|].
        exists row. split; [left | exact E].
      * match goal with
        | |- context [cheaper avg rows ?l] => specialize (IH l)
        end.
        destruct (cheaper avg rows _) as [result|e].
        -- destruct IH as (added & -> & Hadded). eexists (_ :: added).
           split; [rewrite <- app_assoc; reflexivity|].
           intros s Hs. apply elem_of_cons in Hs as [-> | Hs].
           ++ cbn. split; [exact E|]. split; [reflexivity|].
              exists row. split; [left | repeat split].
           ++ destruct (Hadded s Hs) as (H1 & H2 & row' & Hrow' & H3).
              split; [exact H1|]. split; [exact H2|].
              exists row'. split; [right; exact Hrow' | exact H3].
        -- destruct IH as (-> & Hzero & row' & Hrow' & Hlt).
           split; [reflexivity|]. split; [exact Hzero|].
           exists row'. split; [right; exact Hrow' | exact Hlt].
    + specialize (IH substitutes). destruct (cheaper avg rows substitutes) as [result|e].
      * destruct IH as (added & -> & Hadded). exists added. split; [reflexivity|].
        intros s Hs. destruct (Hadded s Hs) as (H1 & H2 & row' & Hrow' & H3).
        split; [exact H1|]. split; [exact H2|].
        exists row'. split; [right; exact Hrow' | exact H3].
      * destruct IH as (-> & Hzero & row' & Hrow' & Hlt).
        split; [reflexivity|]. split; [exact Hzero|].
        exists row'. split; [right; exact Hrow' | exact Hlt].
Qed.

(** X17. [find_substitutes], once its rows are read, returns at most
    five substitutes in decreasing order of savings; each comes from a
    row of the query, costs less than the average current price, and
    has savings that are the float difference of the two rounded to two
    decimals as [round] rounds a float, never negative.  It raises
    only when the average current price is zero while a row is cheaper
    still. *)
Theorem substitutes_are_cheaper (avg_current_price : Q)
    (substitute_prices : list PriceData.t) :
  match substitutes_from avg_current_price substitute_prices with
  | Ok substitutes =>
      (length substitutes <= 5)%nat
      /\ StronglySorted
           (fun a b => (Substitute.savings b <= Substitute.savings a)%Q) substitutes
      /\ forall s, s ∈ substitutes ->
           (Substitute.price s < avg_current_price)%Q
           /\ Substitute.savings s
              = round (fsub avg_current_price (Substitute.price s)) 2
           /\ (0 <= Substitute.savings s)%Q
           /\ exists row, row ∈ substitute_prices
                /\ Substitute.product_name s = PriceData.product_name row
                /\ Substitute.store s = PriceData.store_name row
                /\ Substitute.price s = PriceData.price row
  | Raise e =>
      e = ZeroDivisionError /\ (avg_current_price == 0)%Q
      /\ exists row, row ∈ substitute_prices
                     /\ (PriceData.price row < avg_current_price)%Q
  end.
Proof.
  unfold substitutes_from.
  pose proof (cheaper_spec avg_current_price substitute_prices []) as H.
  destruct (cheaper avg_current_price substitute_prices []) as [found|e];
    cbn [bind]; [|exact H].
  destruct H as (added & -> & Hadded). cbn [app].
  split; [rewrite length_take; lia|]. split.
  - pose proof (sort_desc_sorted Substitute.savings added) as Hsorted.
    rewrite <- (take_drop 5 (sort_desc Substitute.savings added)) in Hsorted.
    apply StronglySorted_app_1_l in Hsorted. exact Hsorted.
  - intros s Hs. apply subseteq_take in Hs.
    rewrite (sort_desc_perm Substitute.savings added) in Hs.
    destruct (Hadded s Hs) as (H1 & H2 & H3).
    split; [exact H1|]. split; [exact H2|]. split; [|exact H3].
    rewrite H2. apply round_nonneg, fsub_nonneg, Qlt_le_weak, H1.
Qed.

End Substitutes.

(** ** Amounts at the ties of binary rounding

    Decimal amounts are rarely binary fractions, so a tie of the
    decimals is decided by the float: the properties above are about
    the floats, as these amounts show. *)

Section BinaryTies.

Import Py PyStr PriceComparisonService.

(** The mean of 2.67 and 2.68 is a float below 2.675. *)
Example average_of_adjacent_cents :
  option_map PriceComparison.average_price
    (Sample.comparison_of Sample.noon
       [Sample.observation "walmart" 2.67 700; Sample.observation "target" 2.68 700])
  = Some (float 2.67).
Proof. vm_compute. reflexivity. Qed.

(** The float 1.015 is less than 0.015 above 1. *)
Example savings_of_binary_difference :
  option_map PriceComparison.savings_opportunity
    (Sample.comparison_of Sample.noon
       [Sample.observation "walmart" 1.015 700; Sample.observation "target" 1 700])
  = Some (float 0.01).
Proof. vm_compute. reflexivity. Qed.

(** Half a unit at 2.67. *)
Example half_a_unit_total :
  round (running_sum [fmul 2.67 0.5]) 2 = float 1.33.
Proof. vm_compute. reflexivity. Qed.

(** 23 lines found out of 80. *)
Example coverage_of_23_in_80 :
  bind (fdiv 23 80) (fun ratio => Ok (round (fmul ratio 100) 1)) = Ok (float 28.7).
Proof. vm_compute. reflexivity. Qed.

(** From 1.00 to 1.05 the change computed is above 5 percent. *)
Example five_percent_rise_is_increasing :
  option_map TrendAnalysis.trend
    (match analyse [TrendPoint.mk 1 0%Z "milk"; TrendPoint.mk 1.05 1%Z "milk"] with
     | Ok a => a
     | Raise _ => None
     end)
  = Some increasing.
Proof. vm_compute. reflexivity. Qed.

(** A substitute at 1.00 for a product at 2.675 on average. *)
Example substitute_savings_below_tie :
  option_map (map Substitute.savings)
    (match cheaper 2.675 [Sample.observation "walmart" 1 700] [] with
     | Ok l => Some l
     | Raise _ => None
     end)
  = Some [float 1.67].
Proof. vm_compute. reflexivity. Qed.

End BinaryTies.

(** * Further properties of the store scrapers *)

Section MatchConfidence.

Import Py WalmartScraper.

#[local] Set Warnings "-clear-no-such-hyp".

Lemma ratio_range (m n : nat) :
  (0 < n)%nat -> (m <= n)%nat ->
  let r := (inject_Z (Z.of_nat m) / inject_Z (Z.of_nat n))%Q in
  (0 <= r)%Q /\ (r <= 1)%Q /\ ((r == 1)%Q <-> m = n) /\ ((r == 0)%Q <-> m = 0%nat).
Proof.
  intros Hn Hm r.
  assert (HnQ : (0 < inject_Z (Z.of_nat n))%Q).
  { change 0%Q with (inject_Z 0). rewrite <- Zlt_Qlt. lia. }
  assert (HmQ : (0 <= inject_Z (Z.of_nat m))%Q).
  { change 0%Q with (inject_Z 0). rewrite <- Zle_Qle. lia. }
  assert (Hle : (inject_Z (Z.of_nat m) <= inject_Z (Z.of_nat n))%Q).
  { rewrite <- Zle_Qle. lia. }
  assert (Hr : (r * inject_Z (Z.of_nat n) == inject_Z (Z.of_nat m))%Q).
  { unfold r. field. lra. }
  split; [apply Qle_shift_div_l; [exact HnQ | rewrite Qmult_0_l; exact HmQ]|].
  split; [apply Qle_shift_div_r; [exact HnQ | rewrite Qmult_1_l; exact Hle]|].
  split; split.
  - intros H1. rewrite H1 in Hr. rewrite Qmult_1_l in Hr.
    apply (proj1 (inject_Z_injective _ _)) in Hr. lia.
  - intros ->. unfold r. field. lra.
  - intros H0. rewrite H0 in Hr. rewrite Qmult_0_l in Hr.
    change 0%Q with (inject_Z 0) in Hr.
    apply (proj1 (inject_Z_injective _ _)) in Hr. lia.
  - intros ->. unfold r. change (inject_Z (Z.of_nat 0)) with 0%Q. field. lra.
Qed.

(** X18. The match confidence of a search term against a product title
    is the share of the words of the search term, letter case apart,
    that are words of the title: a number between 0 and 1, equal to 1
    exactly when the search term has a word and all its words are in
    the title, and to 0 exactly when none is. *)
Theorem match_confidence_is_share_of_words (search_term product_title : string) :
  let confidence := _calculate_match_confidence search_term product_title in
  (0 <= confidence)%Q /\ (confidence <= 1)%Q
  /\ ((confidence == 1)%Q
      <-> words search_term <> ∅ /\ words search_term ⊆ words product_title)
  /\ ((confidence == 0)%Q <-> words search_term ## words product_title).
Proof.
  unfold _calculate_match_confidence.
  fold (words search_term) (words product_title).
  set (S := words search_term). set (T := words product_title). cbv zeta.
  destruct (decide (S = ∅)) as [HS | HS].
  - split; [lra|]. split; [lra|]. split; split.
    + intros H. exfalso. lra.
    + intros [H _]. contradiction.
    + intros _. rewrite HS. set_solver.
    + reflexivity.
  - assert (Hpos : (0 < size S)%nat).
    { apply Nat.neq_0_lt_0. intros H. apply size_empty_iff in H.
      apply HS. apply leibniz_equiv, H. }
    assert (Hle : (size (S ∩ T) <= size S)%nat) by (apply subseteq_size; set_solver).
    destruct (ratio_range (size (S ∩ T)) (size S) Hpos Hle) as (H0 & H1 & Hone & Hzero).
    split; [exact H0|]. split; [exact H1|]. split.
    + rewrite Hone. split.
      * intros Heq. split; [exact HS|].
        assert (Hsame : S ∩ T = S).
        { apply set_subseteq_size_eq; [set_solver | lia]. }
        intros x Hx. rewrite <- Hsame in Hx. set_solver.
      * intros [_ Hsub]. f_equal. apply leibniz_equiv. set_solver.
    + rewrite Hzero. rewrite size_empty_iff. set_solver.
Qed.

End MatchConfidence.

Section CleanPrice.

Import Py BaseScraper.

Let comma_free (text : string) : Prop :=
  forall c, c ∈ list_ascii_of_string text -> is_comma c = false.

Lemma has_digit_cons (c : ascii) (text : string) :
  has_digit (String c text) <-> is_digit c = true \/ has_digit text.
Proof.
  unfold has_digit. cbn [list_ascii_of_string]. split.
  - intros (d & Hd & Hdigit). apply elem_of_cons in Hd as [-> | Hd].
    + left. exact Hdigit.
    + right. exists d. split; assumption.
  - intros [H | (d & Hd & Hdigit)].
    + exists c. split; [left | exact H].
    + exists d. split; [right; exact Hd | exact Hdigit].
Qed.

Lemma has_digit_empty : ~ has_digit "".
Proof. intros (c & Hc & _). apply elem_of_nil in Hc. exact Hc. Qed.

Lemma comma_is_no_digit (c : ascii) : is_comma c = true -> is_digit c = false.
Proof. unfold is_comma. intros H. apply Ascii.eqb_eq in H. subst c. reflexivity. Qed.

Lemma remove_commas_comma_free (text : string) : comma_free (remove_commas text).
Proof.
  unfold comma_free. induction text as [|c text IH]; cbn [remove_commas].
  - intros d Hd. apply elem_of_nil in Hd. contradiction.
  - destruct (is_comma c) eqn:E; [exact IH|].
    intros d Hd. cbn [list_ascii_of_string] in Hd.
    apply elem_of_cons in Hd as [-> | Hd]; [exact E | apply IH, Hd].
Qed.

Lemma remove_commas_has_digit (text : string) :
  has_digit (remove_commas text) <-> has_digit text.
Proof.
  induction text as [|c text IH]; cbn [remove_commas]; [reflexivity|].
  destruct (is_comma c) eqn:E.
  - rewrite has_digit_cons, IH. apply comma_is_no_digit in E. rewrite E.
    split; [intros H; right; exact H | intros [H | H]; [discriminate H | exact H]].
  - rewrite !has_digit_cons, IH. reflexivity.
Qed.

Lemma comma_free_cons (c : ascii) (text : string) :
  comma_free (String c text) -> is_comma c = false /\ comma_free text.
Proof.
  intros H. split; [apply H; left|]. intros d Hd. apply H. right. exact Hd.
Qed.

(** On a text without commas the run of digits and commas is a run of
    digits. *)
Lemma run_all_digits (text : string) :
  comma_free text ->
  all_digits (run (fun c => is_digit c || is_comma c) text).1 = true.
Proof.
  induction text as [|c text IH]; intros Hfree; cbn [run]; [reflexivity|].
  apply comma_free_cons in Hfree as [Hc Hfree]. rewrite Hc, orb_false_r.
  destruct (is_digit c) eqn:E; [|reflexivity].
  specialize (IH Hfree).
  destruct (run (fun c => is_digit c || is_comma c) text) as [taken after].
  cbn [fst all_digits] in *. rewrite E, IH. reflexivity.
Qed.

Lemma search_comma_free (text : string) :
  comma_free text ->
  match search text with
  | Some (whole, _) => has_digit text /\ all_digits whole = true
  | None => ~ has_digit text
  end.
Proof.
  induction text as [|c text IH]; intros Hfree; cbn [search].
  - apply has_digit_empty.
  - pose proof (run_all_digits (String c text) Hfree) as Hrun.
    apply comma_free_cons in Hfree as [Hc Hfree]. rewrite Hc, orb_false_r.
    destruct (is_digit c) eqn:E.
    + destruct (run (fun c => is_digit c || is_comma c) (String c text))
        as [whole after].
      cbn [fst] in Hrun.
      assert (Hdigit : has_digit (String c text)).
      { apply has_digit_cons. left. exact E. }
      destruct after as [|d after]; [split; assumption|].
      destruct (Ascii.eqb_spec d "."%char) as [-> | Hd].
      * split; assumption.
      * destruct d as [[] [] [] [] [] [] [] []]; try (split; assumption).
    + specialize (IH Hfree). destruct (search text) as [[whole fraction]|].
      * destruct IH as [Hdigit Hall]. split; [|exact Hall].
        apply has_digit_cons. right. exact Hdigit.
      * intros Hdigit. apply has_digit_cons in Hdigit as [H | H];
          [congruence | exact (IH H)].
Qed.

Lemma number_nonneg (digits : string) : forall acc,
  (0 <= acc)%Z -> (0 <= number acc digits)%Z.
Proof.
  induction digits as [|c digits IH]; intros acc Hacc; cbn [number]; [exact Hacc|].
  apply IH. unfold digit_value. lia.
Qed.

Lemma float_of_match_digits (whole : string) (fraction : option string) :
  all_digits whole = true ->
  exists price, float_of_match whole fraction = Ok price /\ (0 <= price)%Q.
Proof.
  intros Hall. unfold float_of_match. rewrite Hall. eexists. split; [reflexivity|].
  apply Qle_shift_div_l.
  - change 0%Q with (inject_Z 0). rewrite <- Zlt_Qlt.
    apply Z.pow_pos_nonneg; lia.
  - rewrite Qmult_0_l. change 0%Q with (inject_Z 0). rewrite <- Zle_Qle.
    apply number_nonneg. lia.
Qed.

Lemma clean_price_search (price_text : string) :
  clean_price price_text
  = match search (remove_commas price_text) with
    | Some (whole, fraction) =>
        match float_of_match whole fraction with
        | Ok price => Some price
        | Raise _ => None
        end
    | None => None
    end.
Proof.
  unfold clean_price. destruct (String.eqb_spec price_text "") as [-> | _];
    reflexivity.
Qed.

Lemma search_skips (before text : string) :
  ~ has_digit before ->
  search (remove_commas (before ++ text)) = search (remove_commas text).
Proof.
  induction before as [|c before IH]; intros Hnone; [reflexivity|].
  assert (Hc : is_digit c = false).
  { destruct (is_digit c) eqn:E; [|reflexivity].
    exfalso. apply Hnone, has_digit_cons. left. exact E. }
  assert (Hrest : ~ has_digit before).
  { intros H. apply Hnone, has_digit_cons. right. exact H. }
  change (String c before ++ text)%string with (String c (before ++ text)).
  cbn [remove_commas]. destruct (is_comma c) eqn:E; [apply IH, Hrest|].
  cbn [search]. rewrite Hc, E. cbn [orb]. apply IH, Hrest.
Qed.

(** X19. [clean_price] reads the first decimal numeral of a text, commas
    apart: it returns nothing exactly when the text holds no digit, what
    it returns is never negative, and the characters before the first
    digit, a sign among them, change nothing. *)
Theorem clean_price_reads_first_numeral (price_text : string) :
  (clean_price price_text = None <-> ~ has_digit price_text)
  /\ (forall price, clean_price price_text = Some price -> (0 <= price)%Q)
  /\ (forall before, ~ has_digit before ->
        clean_price (before ++ price_text) = clean_price price_text).
Proof.
  split; [|split].
  - rewrite clean_price_search, <- remove_commas_has_digit.
    pose proof (search_comma_free _ (remove_commas_comma_free price_text)) as H.
    destruct (search (remove_commas price_text)) as [[whole fraction]|].
    + destruct H as [Hdigit Hall].
      destruct (float_of_match_digits whole fraction Hall) as (price & -> & _).
      split; [discriminate | contradiction].
    + split; [intros _; exact H | reflexivity].
  - intros price. rewrite clean_price_search.
    pose proof (search_comma_free _ (remove_commas_comma_free price_text)) as H.
    destruct (search (remove_commas price_text)) as [[whole fraction]|];
      [|discriminate].
    destruct H as [_ Hall].
    destruct (float_of_match_digits whole fraction Hall) as (p & -> & Hp).
    intros [= <-]. exact Hp.
  - intros before Hnone. rewrite !clean_price_search, search_skips by exact Hnone.
    reflexivity.
Qed.

End CleanPrice.

Example clean_price_of_a_label :
  (exists price, BaseScraper.clean_price "Now $1,234.50 each" = Some price
                 /\ (price == 1234.5)%Q)
  /\ (exists price, BaseScraper.clean_price "-3.49" = Some price
                    /\ (price == 3.49)%Q)
  /\ (exists price, BaseScraper.clean_price "12." = Some price /\ (price == 12)%Q)
  /\ BaseScraper.clean_price "call us" = None.
Proof.
  repeat split; try (eexists; split; [vm_compute; reflexivity | reflexivity]).
Qed.

Section Kroger.

Import Py KrogerScraper.

Variable quote_plus : string -> string.




End Kroger.


(** * Properties of the price tools *)

Section AverageConfidence.

Import Py PriceComparisonService ToolRegistry.

#[local] Set Warnings "-clear-no-such-hyp".

Lemma confidence_values_range (c : confidence_level) :
  (0.3 <= confidence_values c)%Q /\ (confidence_values c <= 1)%Q
  /\ (c <> high -> (confidence_values c <= 0.6)%Q)
  /\ (c <> low -> (0.6 <= confidence_values c)%Q).
Proof.
  destruct c; cbn [confidence_values]; repeat split; intros; try congruence; lra.
Qed.

Lemma average_confidence_cases (comparison : string * PriceComparison.t)
    (others : dict PriceComparison.t) :
  let comparisons := comparison :: others in
  let avg := average (map confidence_values (labels_of comparisons)) in
  ((0.8 <= avg)%Q -> _calculate_average_confidence comparisons = high)
  /\ ((0.5 <= avg)%Q -> (avg < 0.8)%Q
      -> _calculate_average_confidence comparisons = medium)
  /\ ((avg < 0.5)%Q -> _calculate_average_confidence comparisons = low).
Proof.
  intros comparisons avg. unfold _calculate_average_confidence, comparisons.
  cbv beta iota zeta.
  assert (Havg : (sum (map (fun comp => confidence_values (PriceComparison.confidence comp))
                         (values (comparison :: others)))
                  / inject_Z (Z.of_nat (length (comparison :: others))))%Q = avg).
  { unfold avg, average, labels_of, comparisons, values.
    rewrite !map_map, !length_map. reflexivity. }
  rewrite Havg.
  destruct (Qle_bool 0.8 avg) eqn:E1;
    [apply Qle_bool_iff in E1
    | apply not_true_iff_false in E1; rewrite Qle_bool_iff in E1];
  (destruct (Qle_bool 0.5 avg) eqn:E2;
    [apply Qle_bool_iff in E2
    | apply not_true_iff_false in E2; rewrite Qle_bool_iff in E2]);
  repeat split; intros; try reflexivity; exfalso; lra.
Qed.

(** X21. The average confidence that the price tool reports for a
    dictionary of comparisons is [low] for the empty dictionary;
    otherwise it is never better than the best label among the
    comparisons and never worse than the worst, and it is their label
    when they all agree. *)
Theorem average_confidence_between_labels (comparisons : dict PriceComparison.t) :
  let result := _calculate_average_confidence comparisons in
  (comparisons = [] -> result = low)
  /\ (high ∉ labels_of comparisons -> result <> high)
  /\ (comparisons <> [] -> low ∉ labels_of comparisons -> result <> low)
  /\ (comparisons <> [] ->
      forall c, (forall l, l ∈ labels_of comparisons -> l = c) -> result = c).
Proof.
  cbv zeta. destruct comparisons as [|comparison others].
  - split; [reflexivity|]. split; [discriminate|]. split; intros H; congruence.
  - destruct (average_confidence_cases comparison others) as (Hh & Hm & Hl).
    set (comparisons := comparison :: others) in *.
    assert (Hlabels : labels_of comparisons
                      = PriceComparison.confidence comparison.2 :: labels_of others)
      by reflexivity.
    set (weights := map confidence_values (labels_of comparisons)) in *.
    assert (Hw : forall y, y ∈ weights ->
                   exists l, l ∈ labels_of comparisons /\ y = confidence_values l).
    { intros y Hy. apply list_elem_of_fmap in Hy as (l & -> & Hin). eauto. }
    assert (Hcons : weights
                    = confidence_values (PriceComparison.confidence comparison.2)
                      :: map confidence_values (labels_of others))
      by reflexivity.
    set (avg := average weights) in *.
    split; [discriminate|]. split; [|split].
    + intros Hnone Hres.
      destruct (average_bounds 0.3 0.6
                  (confidence_values (PriceComparison.confidence comparison.2))
                  (map confidence_values (labels_of others))) as [_ Hup].
      { rewrite <- Hcons. intros y Hy. destruct (Hw y Hy) as (l & Hin & ->).
        destruct (confidence_values_range l) as (H1 & _ & H3 & _).
        split; [exact H1 | apply H3]. intros ->. contradiction. }
      rewrite <- Hcons in Hup. fold avg in Hup.
      destruct (Qlt_le_dec avg 0.5) as [Hlt | Hge].
      * rewrite (Hl Hlt) in Hres. discriminate.
      * rewrite (Hm Hge) in Hres by lra. discriminate.
    + intros _ Hnone Hres.
      destruct (average_bounds 0.6 1
                  (confidence_values (PriceComparison.confidence comparison.2))
                  (map confidence_values (labels_of others))) as [Hlow _].
      { rewrite <- Hcons. intros y Hy. destruct (Hw y Hy) as (l & Hin & ->).
        destruct (confidence_values_range l) as (_ & H2 & _ & H4).
        split; [apply H4 | exact H2]. intros ->. contradiction. }
      rewrite <- Hcons in Hlow. fold avg in Hlow.
      destruct (Qlt_le_dec avg 0.8) as [Hlt | Hge].
      * rewrite (Hm ltac:(lra) Hlt) in Hres. discriminate.
      * rewrite (Hh Hge) in Hres. discriminate.
    + intros _ c Hall.
      destruct (average_bounds (confidence_values c) (confidence_values c)
                  (confidence_values (PriceComparison.confidence comparison.2))
                  (map confidence_values (labels_of others))) as [Hlo Hup].
      { rewrite <- Hcons. intros y Hy. destruct (Hw y Hy) as (l & Hin & ->).
        rewrite (Hall l Hin). split; apply Qle_refl. }
      rewrite <- Hcons in Hlo, Hup. fold avg in Hlo, Hup.
      destruct c; cbn [confidence_values] in Hlo, Hup;
        [apply Hh | apply Hm | apply Hl]; lra.
Qed.

End AverageConfidence.

Section OptimizeTool.

Import Py PriceComparisonService ToolRegistry.

#[local] Set Warnings "-clear-no-such-hyp".

(** What the tool makes of a result of the optimizer. *)
Lemma summarize_optimization_spec (shopping_list : list ShoppingItem.t)
    (comparisons : dict PriceComparison.t) (r : Optimization.t) :
  shopping_list_comparison shopping_list comparisons = Ok r ->
  exists out,
    summarize_optimization r = Ok out
    /\ (forall e, out <> error e)
    /\ forall summary store_comparison savings,
         out = optimization_summary summary store_comparison savings ->
         store_comparison = Optimization.store_comparisons r
         /\ Optimization.best_store r = Some (OptimizationSummary.best_store summary)
         /\ (0 <= OptimizationSummary.savings_vs_worst_option summary)%Q
         /\ exists shown,
              dict_get (OptimizationSummary.best_store summary) store_comparison
              = Some shown
              /\ OptimizationSummary.best_total summary
                 = Some (StoreSummary.total shown)
              /\ ((1 < length store_comparison)%nat ->
                  exists worst,
                    is_maximum worst
                      (map StoreSummary.total (values store_comparison))
                    /\ OptimizationSummary.savings_vs_worst_option summary
                       = round (worst - StoreSummary.total shown) 2)
              /\ ((length store_comparison <= 1)%nat ->
                  OptimizationSummary.savings_vs_worst_option summary = round 0 2).
Proof.
  intros Hr.
  destruct (shopping_list_comparison_best _ _ _ Hr) as [Hbest Htotal].
  destruct (shopping_list_comparison_returns _ _ _ Hr) as (_ & Hcmp & _).
  destruct (accumulate_spec shopping_list comparisons) as (_ & _ & Hn & _).
  pose proof (find_best_store_spec
                (store_totals (accumulate shopping_list comparisons))
                (items_found (accumulate shopping_list comparisons))) as Hspec.
  set (acc := accumulate shopping_list comparisons) in *.
  unfold summarize_optimization. rewrite Hbest, Htotal, Hcmp.
  destruct (find_best_store (store_totals acc) (items_found acc)) as [[store|] [t|]];
    cbn [fst] in *; try contradiction.
  2:{ eexists. split; [reflexivity|]. split; [discriminate|]. discriminate. }
  destruct (String.eqb_spec store "") as [-> | Hname].
  { eexists. split; [reflexivity|]. split; [discriminate|]. discriminate. }
  destruct Hspec as (data & Hin & -> & _).
  assert (Hget : dict_get store (map summarize (store_totals acc))
                 = Some (StoreSummary.mk (round (StoreTotal.total data) 2)
                           (StoreTotal.items data)
                           (store_confidence (StoreTotal.confidence_scores data)))).
  { rewrite dict_get_summarize, (elem_dict_get _ _ _ Hn Hin). reflexivity. }
  set (shown := StoreSummary.mk (round (StoreTotal.total data) 2)
                  (StoreTotal.items data)
                  (store_confidence (StoreTotal.confidence_scores data))) in *.
  set (table := map summarize (store_totals acc)) in *.
  assert (Hshown : StoreSummary.total shown ∈ map StoreSummary.total (values table)).
  { apply list_elem_of_fmap. exists shown. split; [reflexivity|].
    apply list_elem_of_fmap. exists (store, shown). split; [reflexivity|].
    apply dict_get_elem, Hget. }
  assert (Hlen : length (map StoreSummary.total (values table)) = length table).
  { unfold values. rewrite !length_map. reflexivity. }
  destruct (map StoreSummary.total (values table)) as [|total [|second others]] eqn:E;
    cbn [bind].
  - apply elem_of_nil in Hshown. contradiction.
  - eexists. split; [reflexivity|]. split; [discriminate|].
    intros summary store_comparison savings [= <- <- <-].
    cbn [OptimizationSummary.best_store OptimizationSummary.best_total
         OptimizationSummary.savings_vs_worst_option].
    split; [reflexivity|]. split; [reflexivity|].
    split; [apply round_nonneg, Qle_refl|].
    exists shown. split; [exact Hget|]. split; [reflexivity|].
    split; [intros H; cbn [length] in Hlen; lia | reflexivity].
  - eexists. split; [reflexivity|]. split; [discriminate|].
    intros summary store_comparison savings [= <- <- <-].
    cbn [OptimizationSummary.best_store OptimizationSummary.best_total
         OptimizationSummary.savings_vs_worst_option].
    pose proof (max_upper_bound total (second :: others) _ Hshown) as Hmax.
    split; [reflexivity|]. split; [reflexivity|].
    change (StoreSummary.total shown) with (round (StoreTotal.total data) 2) in Hmax.
    split.
    { apply round_nonneg.
      change (max (if Qltb total second then second else total) others)
        with (max total (second :: others)).
      lra. }
    exists shown. split; [exact Hget|]. split; [reflexivity|].
    split; [|intros H; cbn [length] in Hlen; lia].
    intros _. exists (max total (second :: others)).
    split; [rewrite E; apply max_is_maximum | reflexivity].
Qed.

Context {World PriceResult : Type}.
Variable clock : World -> datetime.
Variable _get_cached_prices :
  string -> option (list string) -> M (World := World) (list PriceData.t).
Variable scrape_product_prices :
  list string -> list string -> M (World := World) (list PriceResult).
Variable save_price_data : list PriceResult -> M (World := World) Z.

(** X22. The shopping-list tool never raises.  On the empty list it
    returns the error dictionary of its [except] branch, made from the
    [ZeroDivisionError] of the optimizer, and on no other list an error
    dictionary.  In a summary the best store is a store of the
    comparison shown, the best total is the total shown for it, and the
    savings against the worst option are never negative: the rounded
    difference between the greatest total shown and the best total when
    two stores or more are shown, zero otherwise. *)
Theorem optimize_shopping_list_never_raises (shopping_list : list ShoppingItem.t)
    (w : World) :
  exists w' out,
    _optimize_shopping_list clock _get_cached_prices scrape_product_prices
      save_price_data shopping_list w = (w', Ok out)
    /\ (shopping_list = [] -> out = error ZeroDivisionError)
    /\ (shopping_list <> [] -> forall e, out <> error e)
    /\ forall summary store_comparison savings,
         out = optimization_summary summary store_comparison savings ->
         (0 <= OptimizationSummary.savings_vs_worst_option summary)%Q
         /\ exists shown,
              dict_get (OptimizationSummary.best_store summary) store_comparison
              = Some shown
              /\ OptimizationSummary.best_total summary
                 = Some (StoreSummary.total shown)
              /\ ((1 < length store_comparison)%nat ->
                  exists worst,
                    is_maximum worst
                      (map StoreSummary.total (values store_comparison))
                    /\ OptimizationSummary.savings_vs_worst_option summary
                       = round (worst - StoreSummary.total shown) 2)
              /\ ((length store_comparison <= 1)%nat ->
                  OptimizationSummary.savings_vs_worst_option summary = round 0 2).
Proof.
  unfold _optimize_shopping_list, try_except, mbind, lift, ret,
    get_shopping_list_comparison.
  destruct (for_each_compare_returns clock _get_cached_prices scrape_product_prices
              save_price_data None false (map ShoppingItem.item shopping_list) [] w)
    as (w' & comparisons & Hrun & _).
  unfold compare_prices, mbind. rewrite Hrun.
  destruct shopping_list as [|line rest].
  - exists w'. eexists. split; [reflexivity|].
    split; [reflexivity|]. split; [congruence|]. discriminate.
  - destruct (shopping_list_comparison_nonempty (line :: rest) comparisons
                ltac:(discriminate)) as (r & Hr & _).
    rewrite Hr. unfold lift. cbv beta iota.
    destruct (summarize_optimization_spec _ _ _ Hr) as (out & Hout & Herr & Hsum).
    rewrite Hout. exists w', out. split; [reflexivity|].
    split; [discriminate|]. split; [intros _; exact Herr|].
    intros summary store_comparison savings Heq.
    destruct (Hsum summary store_comparison savings Heq) as (_ & _ & Hpos & Hshown).
    split; [exact Hpos | exact Hshown].
Qed.

End OptimizeTool.

Example optimize_milk_and_bread :
  exists summary store_comparison savings,
    ToolRegistry._optimize_shopping_list Sample.at_noon Sample.failing_query
      Sample.idle_scraper Sample.idle_save Sample.milk_and_bread_list ()
    = ((), Py.Ok (ToolRegistry.optimization_summary summary store_comparison savings))
    /\ OptimizationSummary.best_store summary = "target"%string
    /\ OptimizationSummary.savings_vs_worst_option summary = Py.float 2.48
    /\ (OptimizationSummary.coverage summary == 50)%Q.
Proof.
  eexists _, _, _. split; [vm_compute; reflexivity|].
  split; [reflexivity|]. split; [vm_compute; reflexivity | reflexivity].
Qed.

Example match_confidence_of_a_title :
  (WalmartScraper._calculate_match_confidence "Whole  MILK"
     "Great Value Whole Milk 1 gal" == 1)%Q
  /\ (WalmartScraper._calculate_match_confidence "whole milk organic"
        "Great Value Whole Milk" == 2 # 3)%Q
  /\ (WalmartScraper._calculate_match_confidence "milk" "Milky Way" == 0)%Q.
Proof. vm_compute. repeat split. Qed.
